(** * QuickGantt: the chart engine ([chart_engine.py])

    A shallow embedding of [detect_columns] (the schema resolver) and of
    [create_gantt_chart] (the layout engine), and the properties of the
    specification that concern them; then, with [create_gantt_from_file]
    and [extract_phases_from_file], further properties of these functions:
    how calls fail, what a figure shows besides its bars, and how the
    phases of a file relate to the legend of its chart.

    Conventions of the embedding.
    - A Python [dict] is an association list in insertion order: storing
      under a key that is already present replaces the value and keeps the
      position and the key object (see [Dict.set]).
    - Column names are byte strings; [str.lower] acts on the letters A-Z
      (non-ASCII letters are outside the model).
    - A [DataFrame] is its columns with their dtypes and its rows with
      their index labels; a cell is a [str], an [int] or a [Timestamp]
      (missing values are outside the model).
    - A [Timestamp] is the number of nanoseconds since 1970-01-01T00:00,
      as pandas stores it; a [Timedelta] is a number of nanoseconds.
    - An exception is a value of [exn]; a call that can fail returns a
      [result].  A call that also changes an object of its caller or the
      figure registry of [pyplot] is a function of the [World].
    - A figure is the record of what the engine asks matplotlib to draw:
      bars, texts, ticks, gridlines and legend.
    - The behaviour of the pandas functions that the engine calls is
      modelled from their documentation; each such definition says so.
      The sort of [sort_values] and the parser of [to_datetime] are taken
      through an interface, [PandasLib].

    The definitions of the embedding come first, then the vocabulary of
    the properties and the concrete tables, then the lemmas and, for each
    property, its theorem; the sorts that implement the interface
    follow the lemmas that prove their contract. *)

From Stdlib Require Import List String Ascii ZArith QArith Bool Lia Arith.
From Stdlib Require Import Permutation Sorted.
Import ListNotations.

Local Open Scope string_scope.
Local Open Scope Z_scope.

(** ** Cells, exceptions and results *)

(** A cell as a row hands it out: a [str], an [int] or a [Timestamp].
    Missing values ([NaN], [NaT]) are outside the model. *)
Inductive cell : Type :=
| CStr (s : string)
| CInt (n : Z)
| CTs (t : Z).

Definition cell_eqb (a b : cell) : bool :=
  match a, b with
  | CStr x, CStr y => String.eqb x y
  | CInt x, CInt y => Z.eqb x y
  | CTs x, CTs y => Z.eqb x y
  | _, _ => false
  end.

Inductive exn : Type :=
| ValueError (msg : string)
| KeyError (key : cell)
| TypeError (msg : string).

Inductive result (A : Type) : Type :=
| OK (a : A)
| Raise (e : exn).

Arguments OK {A} a.
Arguments Raise {A} e.

Definition rbind {A B : Type} (r : result A) (f : A -> result B) : result B :=
  match r with
  | OK a => f a
  | Raise e => Raise e
  end.

Declare Scope result_scope.
Delimit Scope result_scope with result.
Notation "x <- r ;; k" := (rbind r (fun x => k))
  (at level 61, r at next level, right associativity) : result_scope.

(** A loop that builds a list and stops at the first exception. *)
Fixpoint mapM {A B : Type} (f : A -> result B) (xs : list A)
    : result (list B) :=
  match xs with
  | [] => OK []
  | x :: xs' =>
      match f x with
      | OK y =>
          match mapM f xs' with
          | OK ys => OK (y :: ys)
          | Raise e => Raise e
          end
      | Raise e => Raise e
      end
  end.

(** ** Python dictionaries *)

Module Dict.
Section Dict.
Context {K V : Type}.
Variable eqb : K -> K -> bool.

Definition t : Type := list (K * V).

(** [d.get(k)] *)
Fixpoint get (k : K) (d : t) : option V :=
match d with
| [] => None
| (k', v) :: d' => if eqb k k' then Some v else get k d'
end.

(** [k in d] *)
Definition mem (k : K) (d : t) : bool :=
match get k d with Some _ => true | None => false end.

(** [d[k] = v] *)
Fixpoint set (k : K) (v : V) (d : t) : t :=
match d with
| [] => [(k, v)]
| (k', v') :: d' =>
    if eqb k k' then (k', v) :: d' else (k', v') :: set k v d'
end.

Definition keys (d : t) : list K := map fst d.

(** [{key(x): value(x) for x in xs}] *)
Definition comprehension {X : Type} (key : X -> K) (value : X -> V)
  (xs : list X) : t :=
fold_left (fun d x => set (key x) (value x) d) xs [].
End Dict.
End Dict.

Definition sdict (V : Type) : Type := list (string * V).
Notation "'sget'" := (Dict.get String.eqb).
Notation "'smem'" := (Dict.mem String.eqb).
Notation "'sset'" := (Dict.set String.eqb).

(** [d[k]] *)
Definition sindex {V : Type} (d : sdict V) (k : string) : result V :=
  match sget k d with
  | Some v => OK v
  | None => Raise (KeyError (CStr k))
  end.

(** ** Strings *)

Definition lower_ascii (c : ascii) : ascii :=
  let n := nat_of_ascii c in
  if (65 <=? n)%nat && (n <=? 90)%nat then ascii_of_nat (n + 32) else c.

(** [s.lower()] *)
Fixpoint lower (s : string) : string :=
  match s with
  | EmptyString => EmptyString
  | String c s' => String (lower_ascii c) (lower s')
  end.

(** [p in s]: [p] occurs in [s] as a substring *)
Fixpoint str_in (p s : string) : bool :=
  if prefix p s then true
  else match s with
       | EmptyString => false
       | String _ s' => str_in p s'
       end.

(** [sep.join(xs)] *)
Fixpoint join (sep : string) (xs : list string) : string :=
  match xs with
  | [] => ""
  | [x] => x
  | x :: xs' => x ++ sep ++ join sep xs'
  end.

(** ** Tables *)

Inductive dtype : Type := object_ | int64 | datetime64.

(** A row of a table: its cells by column name. *)
Definition Row : Type := sdict cell.

(** A [DataFrame]: its columns in table order, each with its dtype, and its
    rows in order, each with its index label.  In a frame that pandas
    builds, every row has a cell for every column, a [Timestamp] in a
    [datetime64] column and an [int] in an [int64] column; an [object]
    column holds any cells. *)
Record DataFrame : Type := mkDataFrame {
  df_dtypes : sdict dtype;
  df_rows : list (Z * Row)
}.

Record Series : Type := mkSeries {
  s_dtype : dtype;
  s_values : list cell
}.

(** [df.columns] *)
Definition df_columns (df : DataFrame) : list string :=
  Dict.keys (df_dtypes df).

(** [len(df)] *)
Definition df_len (df : DataFrame) : nat := List.length (df_rows df).

(** [df[col]] *)
Definition df_getitem (df : DataFrame) (col : string) : result Series :=
  (dt <- sindex (df_dtypes df) col ;;
   vs <- mapM (fun r : Z * Row => sindex (snd r) col) (df_rows df) ;;
   OK (mkSeries dt vs))%result.

(** [df[col] = s], on the object [df] *)
Definition df_setitem (df : DataFrame) (col : string) (s : Series)
    : DataFrame :=
  mkDataFrame
    (sset col (s_dtype s) (df_dtypes df))
    (map (fun rv => (fst (fst rv), sset col (snd rv) (snd (fst rv))))
         (combine (df_rows df) (s_values s))).

(** [xs[i] for i in indexer], the positions out of range left out *)
Definition take {A : Type} (indexer : list nat) (xs : list A) : list A :=
  flat_map (fun i => match nth_error xs i with
                     | Some x => [x]
                     | None => []
                     end) indexer.

(** [df.take(indexer)]: a new frame with the rows at these positions *)
Definition df_take (indexer : list nat) (df : DataFrame) : DataFrame :=
  mkDataFrame (df_dtypes df) (take indexer (df_rows df)).

(** The value of a [Timestamp] cell; a cell of a [datetime64] column is
    one. *)
Definition timestamp_value (c : cell) : result Z :=
  match c with
  | CTs t => OK t
  | _ => Raise (TypeError "not a Timestamp")
  end.

(** ** Calendar *)

Definition ns_per_day : Z := 86400000000000.

(** [Timedelta.days] *)
Definition timedelta_days (td : Z) : Z := td / ns_per_day.

(** The calendar day of a [Timestamp], in days since 1970-01-01. *)
Definition date_of (t : Z) : Z := t / ns_per_day.

(** Monday is 0 and Sunday is 6; 1970-01-01 was a Thursday. *)
Definition weekday (d : Z) : Z := (d + 3) mod 7.

(** Year, month and day of the day [d] since 1970-01-01, in the proleptic
    Gregorian calendar. *)
Definition civil_from_days (d : Z) : Z * Z * Z :=
  let z := d + 719468 in
  let era := z / 146097 in
  let doe := z - era * 146097 in
  let yoe := (doe - doe / 1460 + doe / 36524 - doe / 146096) / 365 in
  let doy := doe - (365 * yoe + yoe / 4 - yoe / 100) in
  let mp := (5 * doy + 2) / 153 in
  let day := doy - (153 * mp + 2) / 5 + 1 in
  let m := if mp <? 10 then mp + 3 else mp - 9 in
  let y := yoe + era * 400 + (if m <=? 2 then 1 else 0) in
  (y, m, day).

Definition days_from_civil (y m d : Z) : Z :=
  let y := if m <=? 2 then y - 1 else y in
  let era := y / 400 in
  let yoe := y - era * 400 in
  let doy := (153 * (if 2 <? m then m - 3 else m + 9) + 2) / 5 + d - 1 in
  let doe := yoe * 365 + yoe / 4 - yoe / 100 + doy in
  era * 146097 + doe - 719468.

Definition day_of_month (d : Z) : Z := snd (civil_from_days d).

(** The [Timestamp] of midnight on a calendar date. *)
Definition midnight (y m d : Z) : Z := days_from_civil y m d * ns_per_day.

(** ** The pandas functions the engine calls *)

(** What the model takes from pandas without fixing an implementation.
    - [argsort ks] is the indexer that [sort_values] computes for the key
      column [ks] with its default [kind='quicksort']: the positions of
      [ks] in an order that makes the keys ascend.  pandas documents only
      [mergesort] and [stable] as stable, so nothing is fixed about the
      order among equal keys.
    - [parse_datetime] is the parser that [to_datetime] applies to a
      [str]. *)
Class PandasLib : Type := {
  argsort : list Z -> list nat;
  argsort_perm : forall ks, Permutation (argsort ks) (seq 0 (List.length ks));
  argsort_sorted : forall ks, StronglySorted Z.le (take (argsort ks) ks);
  parse_datetime : string -> option Z
}.

Inductive freq : Type := W | MS.

(** Whether a calendar day lies on the frequency: ['W'] is anchored on
    Sundays, ['MS'] on the first day of a month. *)
Definition on_offset (f : freq) (d : Z) : bool :=
  match f with
  | W => weekday d =? 6
  | MS => day_of_month d =? 1
  end.

(** [pd.date_range(start=start, end=end_, freq=f)] for these two
    frequencies, modelled from the pandas documentation: the timestamps
    [start + k days], [k >= 0], not after [end_], whose calendar day lies on
    the frequency, in ascending order (the time of day of [start] is kept).
    A bound that is [NaT], here [None], is refused. *)
Definition date_range (start end_ : option Z) (f : freq) : result (list Z) :=
  match start, end_ with
  | Some s, Some e =>
      OK (filter (fun t => on_offset f (date_of t))
            (map (fun k => s + Z.of_nat k * ns_per_day)
               (seq 0 (Z.to_nat ((e - s) / ns_per_day + 1)))))
  | _, _ => Raise (ValueError "Neither `start` nor `end` can be NaT")
  end.

(** [Series.min()] and [Series.max()] of the timestamps of a column; [NaT],
    here [None], for a column without rows. *)
Definition min_stamp (ts : list Z) : option Z :=
  match ts with
  | [] => None
  | t :: ts' => Some (fold_left Z.min ts' t)
  end.

Definition max_stamp (ts : list Z) : option Z :=
  match ts with
  | [] => None
  | t :: ts' => Some (fold_left Z.max ts' t)
  end.

(** [pd.api.types.is_datetime64_any_dtype(s)] *)
Definition is_datetime64_any_dtype (s : Series) : bool :=
  match s_dtype s with
  | datetime64 => true
  | _ => false
  end.

(** [Series.unique()]: the distinct values in order of first appearance *)
Fixpoint unique (cs : list cell) : list cell :=
  match cs with
  | [] => []
  | c :: cs' => c :: filter (fun c' => negb (cell_eqb c' c)) (unique cs')
  end.

(** [a < b] on cells: defined between two cells of one type. *)
Definition cell_lt (a b : cell) : result bool :=
  match a, b with
  | CStr x, CStr y => OK (String.ltb x y)
  | CInt x, CInt y => OK (x <? y)
  | CTs x, CTs y => OK (x <? y)
  | _, _ => Raise (TypeError "'<' not supported between these instances")
  end.

Fixpoint insert_sorted (c : cell) (cs : list cell) : result (list cell) :=
  match cs with
  | [] => OK [c]
  | c' :: rest =>
      (lt <- cell_lt c' c ;;
       if (lt : bool) then (rest' <- insert_sorted c rest ;; OK (c' :: rest'))
       else OK (c :: c' :: rest))%result
  end.

(** [sorted(cs)]: ascending and stable; a comparison between cells of two
    types raises [TypeError]. *)
Fixpoint sorted (cs : list cell) : result (list cell) :=
  match cs with
  | [] => OK []
  | c :: cs' => (s <- sorted cs' ;; insert_sorted c s)%result
  end.

Section Pandas.
Context {pandas : PandasLib}.

(** [pd.to_datetime] on one value: a [Timestamp] is kept, an [int] counts
    nanoseconds since the epoch, a [str] is parsed. *)
Definition to_datetime_cell (c : cell) : result cell :=
  match c with
  | CTs t => OK (CTs t)
  | CInt n => OK (CTs n)
  | CStr s =>
      match parse_datetime s with
      | Some t => OK (CTs t)
      | None =>
          Raise (ValueError
                   ("Unknown datetime string format, unable to parse: " ++ s))
      end
  end.

(** [pd.to_datetime(s)] *)
Definition to_datetime (s : Series) : result Series :=
  (vs <- mapM to_datetime_cell (s_values s) ;;
   OK (mkSeries datetime64 vs))%result.

(** [df.sort_values(by=by_)] for a [datetime64] column [by_]: a new frame,
    the rows taken along the indexer of the key column. *)
Definition sort_values (df : DataFrame) (by_ : string) : result DataFrame :=
  (s <- df_getitem df by_ ;;
   ks <- mapM timestamp_value (s_values s) ;;
   OK (df_take (argsort ks) df))%result.
End Pandas.

(** [df[col].min()] and [df[col].max()] of a [datetime64] column *)
Definition column_stamps (df : DataFrame) (col : string) : result (list Z) :=
  (s <- df_getitem df col ;; mapM timestamp_value (s_values s))%result.

(** ** What is drawn *)

(** A colour as matplotlib takes it: a name or hex string, or a triple of
    channels, here in 255ths. *)
Inductive color : Type :=
| ColorName (name : string)
| ColorRGB (r g b : Z).

(** [plt.cm.Dark2.colors] *)
Definition Dark2 : list color :=
  [ ColorRGB 27 158 119; ColorRGB 217 95 2; ColorRGB 117 112 179;
    ColorRGB 231 41 138; ColorRGB 102 166 30; ColorRGB 230 171 2;
    ColorRGB 166 118 29; ColorRGB 102 102 102 ].

(** [colors[i % len(colors)]] *)
Definition palette_color (i : nat) : color :=
  nth (i mod List.length Dark2) Dark2 (ColorRGB 0 0 0).

(** [ax.barh(y, width, left=.., height=.., color=.., edgecolor=.., alpha=..)];
    the width counts days. *)
Record Bar : Type := mkBar {
  bar_y : Z;
  bar_width : Z;
  bar_left : Z;
  bar_height : Q;
  bar_color : color;
  bar_edgecolor : string;
  bar_alpha : Q
}.

(** The text of a bar: [f"{row[duration_col]}"] or [f"{duration_days}d"]. *)
Inductive label_text : Type :=
| CellText (c : cell)
| DaysText (days : Z).

(** [ax.text(x, y, s, ...)] *)
Record Text : Type := mkText {
  text_x : Z;
  text_y : Z;
  text_s : label_text
}.

(** [ax.axvline(x, color=.., linestyle=.., alpha=..)] *)
Record VLine : Type := mkVLine {
  vline_x : Z;
  vline_color : string;
  vline_linestyle : string;
  vline_alpha : Q
}.

Record Legend : Type := mkLegend {
  legend_handles : list color;
  legend_labels : list cell;
  legend_facecolor : string;
  legend_edgecolor : string
}.

Record Axes : Type := mkAxes {
  ax_facecolor : string;
  ax_bars : list Bar;
  ax_texts : list Text;
  ax_yticks : list Z;
  ax_yticklabels : list cell;
  ax_grid_color : string;
  ax_vlines : list VLine;
  ax_title : string;
  ax_xlabel : string;
  ax_legend : option Legend
}.

Record Figure : Type := mkFigure {
  fig_facecolor : string;
  fig_axes : Axes
}.

(** ** The world of a call *)

(** What a call can change besides returning: the table object that the
    caller passed as [df], and the figures that [pyplot] keeps open. *)
Record World : Type := mkWorld {
  caller_df : DataFrame;
  open_figures : nat
}.

Definition M (A : Type) : Type := World -> World * result A.

Definition ret {A : Type} (a : A) : M A := fun w => (w, OK a).

Definition bind {A B : Type} (m : M A) (f : A -> M B) : M B :=
  fun w =>
    match m w with
    | (w', OK a) => f a w'
    | (w', Raise e) => (w', Raise e)
    end.

Definition lift {A : Type} (r : result A) : M A := fun w => (w, r).

Declare Scope world_scope.
Delimit Scope world_scope with world.
Notation "x <- m ;; k" := (bind m (fun x => k))
  (at level 61, m at next level, right associativity) : world_scope.
Notation "m ;; k" := (bind m (fun _ => k))
  (at level 61, right associativity) : world_scope.

(** Reading the caller's table through the name [df]. *)
Definition get_df : M DataFrame := fun w => (w, OK (caller_df w)).

(** [df[col] = s] on the caller's table. *)
Definition setitem (col : string) (s : Series) : M unit :=
  fun w =>
    (mkWorld (df_setitem (caller_df w) col s) (open_figures w), OK tt).

(** [plt.subplots(...)]: a new figure, kept open by [pyplot]. *)
Definition subplots : M unit :=
  fun w => (mkWorld (caller_df w) (S (open_figures w)), OK tt).

(** ** The schema resolver: [detect_columns] *)

Definition patterns : sdict (list string) :=
  [ ("task", ["task"; "name"; "description"]);
    ("duration", ["duration"; "weeks"; "days"]);
    ("phase", ["phase"; "category"; "group"]);
    ("start_date", ["start"; "begin"]);
    ("end_date", ["end"; "finish"]) ].

Definition required_cols : list string := ["task"; "start_date"; "end_date"].

(** [{col.lower(): col for col in df.columns}] *)
Definition columns_lower_of (columns : list string) : sdict string :=
  Dict.comprehension String.eqb lower (fun col => col) columns.

(** The innermost loop: the items of [columns_lower] in order, up to the
    first one whose key contains [pattern]. *)
Fixpoint scan_columns (key pattern : string) (items : sdict string)
    (column_mapping : sdict string) : sdict string :=
  match items with
  | [] => column_mapping
  | (col_lower, col_original) :: items' =>
      if str_in pattern col_lower
      then sset key col_original column_mapping
      else scan_columns key pattern items' column_mapping
  end.

(** The loop over the patterns of one role, left as soon as the role is in
    the mapping. *)
Fixpoint scan_patterns (key : string) (patterns_list : list string)
    (columns_lower : sdict string) (column_mapping : sdict string)
    : sdict string :=
  match patterns_list with
  | [] => column_mapping
  | pattern :: patterns_list' =>
      let column_mapping :=
        scan_columns key pattern columns_lower column_mapping in
      if smem key column_mapping then column_mapping
      else scan_patterns key patterns_list' columns_lower column_mapping
  end.

(** The loop over the roles, [for key, patterns_list in patterns.items()]. *)
Definition find_matching_columns (columns_lower : sdict string)
    : sdict string :=
  fold_left
    (fun column_mapping kp =>
       scan_patterns (fst kp) (snd kp) columns_lower column_mapping)
    patterns [].

Definition missing_cols_of (column_mapping : sdict string) : list string :=
  filter (fun col => negb (smem col column_mapping)) required_cols.

Definition detect_columns (df : DataFrame) : result (sdict string) :=
  let columns_lower := columns_lower_of (df_columns df) in
  let column_mapping := find_matching_columns columns_lower in
  let missing_cols := missing_cols_of column_mapping in
  match missing_cols with
  | _ :: _ =>
      Raise (ValueError
               ("Required columns not found: " ++ join ", " missing_cols))
  | [] => OK column_mapping
  end.

(** ** The layout engine: [create_gantt_chart] *)

(** [enumerate(xs)] *)
Definition enumerate {A : Type} (xs : list A) : list (nat * A) :=
  combine (seq 0 (List.length xs)) xs.

(** The column of an optional role when [col and col in df.columns] holds. *)
Definition present_col (df : DataFrame) (col : option string)
    : option string :=
  match col with
  | Some c =>
      if negb (String.eqb c "") && smem c (df_dtypes df) then Some c else None
  | None => None
  end.

(** [custom_colors.get(phase, default)]; the keys of [custom_colors] are
    [str]. *)
Definition custom_get (custom_colors : sdict string) (phase : cell)
    (default : color) : color :=
  match phase with
  | CStr s =>
      match sget s custom_colors with
      | Some c => ColorName c
      | None => default
      end
  | _ => default
  end.

(** The colour of each phase: the custom colour if a non-empty
    [custom_colors] has one, else the palette colour at the position of the
    phase. *)
Definition color_map_of (custom_colors : option (sdict string))
    (phases : list cell) : Dict.t (K := cell) (V := color) :=
  match custom_colors with
  | Some (kv :: custom) =>
      Dict.comprehension cell_eqb
        (fun ip : nat * cell => snd ip)
        (fun ip => custom_get (kv :: custom) (snd ip) (palette_color (fst ip)))
        (enumerate phases)
  | _ =>
      Dict.comprehension cell_eqb
        (fun ip : nat * cell => snd ip)
        (fun ip => palette_color (fst ip))
        (enumerate phases)
  end.

(** What one pass of the loop over the rows adds: a tick position, a tick
    label, a bar and its text. *)
Record Plotted : Type := mkPlotted {
  p_y : Z;
  p_tick : cell;
  p_bar : Bar;
  p_text : Text
}.

Definition plot_row (n : nat) (task_col start_col end_col : string)
    (phase_col duration_col : option string)
    (color_map : Dict.t (K := cell) (V := color))
    (i_row : nat * (Z * Row)) : result Plotted :=
  let i := fst i_row in
  let row := snd (snd i_row) in
  (task <- sindex row task_col ;;
   start_cell <- sindex row start_col ;;
   end_cell <- sindex row end_col ;;
   let y_pos := Z.of_nat n - 1 - Z.of_nat i in
   start_date <- timestamp_value start_cell ;;
   end_date <- timestamp_value end_cell ;;
   let duration_days := timedelta_days (end_date - start_date) in
   let duration_days := if duration_days <=? 0 then 1 else duration_days in
   color <- match phase_col with
            | Some pc =>
                phase <- sindex row pc ;;
                OK (match Dict.get cell_eqb phase color_map with
                    | Some c => c
                    | None => ColorName "blue"
                    end)
            | None => OK (ColorName "steelblue")
            end ;;
   duration_text <- match duration_col with
                    | Some dc => c <- sindex row dc ;; OK (CellText c)
                    | None => OK (DaysText duration_days)
                    end ;;
   let text_x := start_date + duration_days * (ns_per_day / 2) in
   OK (mkPlotted y_pos task
         (mkBar y_pos duration_days start_date (1 # 2) color "black" (4 # 5))
         (mkText text_x y_pos duration_text)))%result.

(** Everything after the sort: [df] is the sorted frame. *)
Definition draw (df : DataFrame) (task_col start_col end_col : string)
    (phase_col duration_col : option string)
    (custom_colors : option (sdict string))
    (background_color grid_color : string) : result Figure :=
  let phase_col := present_col df phase_col in
  let duration_col := present_col df duration_col in
  (phases <- match phase_col with
             | Some pc => s <- df_getitem df pc ;; sorted (unique (s_values s))
             | None => OK []
             end ;;
   let color_map :=
     match phase_col with
     | Some _ => color_map_of custom_colors phases
     | None => []
     end in
   plotted <- mapM (plot_row (df_len df) task_col start_col end_col
                      phase_col duration_col color_map)
                   (enumerate (df_rows df)) ;;
   starts <- column_stamps df start_col ;;
   ends <- column_stamps df end_col ;;
   let start := min_stamp starts in
   let end_ := max_stamp ends in
   week_range <- date_range start end_ W ;;
   month_range <- date_range start end_ MS ;;
   let vlines :=
     (map (fun d => mkVLine d grid_color "--" (3 # 10)) week_range
      ++ map (fun d => mkVLine d grid_color "-" (2 # 10)) month_range)%list in
   legend <- match phase_col with
             | Some _ =>
                 if (0 <? List.length phases)%nat
                 then
                   handles <- mapM (fun phase =>
                                match Dict.get cell_eqb phase color_map with
                                | Some c => OK c
                                | None => Raise (KeyError phase)
                                end) phases ;;
                   OK (Some (mkLegend handles phases
                               background_color grid_color))
                 else OK None
             | None => OK None
             end ;;
   OK (mkFigure background_color
         (mkAxes background_color
            (map p_bar plotted) (map p_text plotted)
            (map p_y plotted) (map p_tick plotted)
            grid_color vlines "Project Timeline" "Date" legend)))%result.

Section Engine.
Context {pandas : PandasLib}.

(** [if not is_datetime64_any_dtype(df[col]): df[col] = to_datetime(df[col])] *)
Definition ensure_datetime (col : string) : M unit :=
  (df <- get_df ;;
   s <- lift (df_getitem df col) ;;
   if is_datetime64_any_dtype s then ret tt
   else (s' <- lift (to_datetime s) ;; setitem col s'))%world.

(** [create_gantt_chart(df, columns, custom_colors, background_color,
    grid_color)], the table [df] being the caller's table of the world. *)
Definition create_gantt_chart (columns : sdict string)
    (custom_colors : option (sdict string))
    (background_color grid_color : string) : M Figure :=
  (task_col <- lift (sindex columns "task") ;;
   start_col <- lift (sindex columns "start_date") ;;
   end_col <- lift (sindex columns "end_date") ;;
   let phase_col := sget "phase" columns in
   let duration_col := sget "duration" columns in
   subplots ;;
   ensure_datetime start_col ;;
   ensure_datetime end_col ;;
   df <- get_df ;;
   df <- lift (sort_values df start_col) ;;
   lift (draw df task_col start_col end_col phase_col duration_col
           custom_colors background_color grid_color))%world.

(** [create_gantt_from_file], from the table that [read_excel] returned:
    the resolver, then the engine on that table (the toolbar setting that
    follows in the source changes no figure and is left out). *)
Definition create_gantt_from_file (custom_colors : option (sdict string))
    (background_color grid_color : string) : M Figure :=
  (df <- get_df ;;
   columns <- lift (detect_columns df) ;;
   create_gantt_chart columns custom_colors background_color grid_color
  )%world.
End Engine.

(** A call on the table [df], with no figure open before. *)
Definition call {A : Type} (m : M A) (df : DataFrame) : World * result A :=
  m (mkWorld df 0).

Definition default_background : string := "#1f2937".
Definition default_grid : string := "#ffffff".

(** ** A stable sort and an ISO parser *)

(** Insertion of the position [ik] with its key into positions that are
    sorted by key: before the first position [jk] with
    [before (snd ik) (snd jk)]. *)
Fixpoint insert_key (before : Z -> Z -> bool) (ik : nat * Z)
    (l : list (nat * Z)) : list (nat * Z) :=
  match l with
  | [] => [ik]
  | jk :: l' =>
      if before (snd ik) (snd jk) then ik :: jk :: l'
      else jk :: insert_key before ik l'
  end.

Definition insertion_sort (before : Z -> Z -> bool) (ks : list Z)
    : list (nat * Z) :=
  fold_right (insert_key before) [] (enumerate ks).

Definition insertion_argsort (before : Z -> Z -> bool) (ks : list Z)
    : list nat :=
  map fst (insertion_sort before ks).

(** A parser for ISO dates [YYYY-MM-DD], which [to_datetime] reads as
    midnight of that day. *)
Definition digit (c : ascii) : option Z :=
  let n := nat_of_ascii c in
  if (48 <=? n)%nat && (n <=? 57)%nat then Some (Z.of_nat (n - 48)) else None.

Definition number (cs : list ascii) : option Z :=
  fold_left (fun acc c =>
               match acc, digit c with
               | Some n, Some d => Some (10 * n + d)
               | _, _ => None
               end) cs (Some 0).

Definition parse_iso_date (s : string) : option Z :=
  match list_ascii_of_string s with
  | [y1; y2; y3; y4; "-"%char; m1; m2; "-"%char; d1; d2] =>
      match number [y1; y2; y3; y4], number [m1; m2], number [d1; d2] with
      | Some y, Some m, Some d =>
          let days := days_from_civil y m d in
          match civil_from_days days with
          | (y', m', d') =>
              if (y' =? y) && (m' =? m) && (d' =? d)
              then Some (days * ns_per_day) else None
          end
      | _, _, _ => None
      end
  | _ => None
  end.

(** ** The sort of [sort_values]: numpy's [quicksort] *)

(** [sort_values(by=col)] sorts a [datetime64] column by the [argsort] of
    its array with [kind='quicksort'], which numpy implements, for
    timestamps, by the introsort [aquicksort_] of [npysort/quicksort.cpp]:
    a segment [pl..pr] is partitioned around the median of three while
    [pr - pl > SMALL_QUICKSORT], which is 16, and is then sorted by
    insertion.  The functions below follow that code on an array [a] of
    positions into the keys [v].  Its switch to heapsort, once the
    partitions are nested deeper than twice the binary logarithm of the
    length, is not modelled: [aquicksort] answers [None] there. *)

(** [a[i] = x] *)
Fixpoint upd {A : Type} (i : nat) (x : A) (l : list A) : list A :=
  match l, i with
  | [], _ => []
  | _ :: l', O => x :: l'
  | y :: l', S i' => y :: upd i' x l'
  end.

(** [INTP_SWAP(a[i], a[j])] *)
Definition swap (a : list nat) (i j : nat) : list nat :=
  upd j (nth i a 0%nat) (upd i (nth j a 0%nat) a).

(** [v[a[i]]] *)
Definition key_at (v : list Z) (a : list nat) (i : nat) : Z :=
  nth (nth i a 0%nat) v 0.

(** [do { ++pi; } while (v[*pi] < vp);] *)
Fixpoint scan_up (fuel : nat) (v : list Z) (a : list nat) (vp : Z)
    (pi : nat) : nat :=
  match fuel with
  | O => pi
  | S fuel' =>
      if key_at v a (S pi) <? vp then scan_up fuel' v a vp (S pi) else S pi
  end.

(** [do { --pj; } while (vp < v[*pj]);] *)
Fixpoint scan_down (fuel : nat) (v : list Z) (a : list nat) (vp : Z)
    (pj : nat) : nat :=
  match fuel with
  | O => pj
  | S fuel' =>
      if vp <? key_at v a (pj - 1)
      then scan_down fuel' v a vp (pj - 1) else (pj - 1)%nat
  end.

(** The loop [for (;;)] of the partition, left when the two scans meet:
    the array and the place of the pivot. *)
Fixpoint hoare (fuel : nat) (v : list Z) (a : list nat) (vp : Z)
    (pi pj : nat) : list nat * nat :=
  match fuel with
  | O => (a, pi)
  | S fuel' =>
      let pi := scan_up (List.length a) v a vp pi in
      let pj := scan_down (List.length a) v a vp pj in
      if (pj <=? pi)%nat then (a, pi)
      else hoare fuel' v (swap a pi pj) vp pi pj
  end.

(** One partition of the positions [pl..pr]. *)
Definition partition_segment (v : list Z) (a : list nat) (pl pr : nat)
    : list nat * nat :=
  let pm := (pl + (pr - pl) / 2)%nat in
  let a := if key_at v a pm <? key_at v a pl then swap a pm pl else a in
  let a := if key_at v a pr <? key_at v a pm then swap a pr pm else a in
  let a := if key_at v a pm <? key_at v a pl then swap a pm pl else a in
  let vp := key_at v a pm in
  let a := swap a pm (pr - 1) in
  let (a, pi) := hoare (List.length a) v a vp pl (pr - 1) in
  (swap a pi (pr - 1), pi).

(** [while (pj > pl && vp < v[*pk]) { *pj-- = *pk--; }  *pj = vi;] *)
Fixpoint sift (fuel : nat) (v : list Z) (a : list nat) (pl vi : nat)
    (vp : Z) (pj : nat) : list nat :=
  match fuel with
  | O => upd pj vi a
  | S fuel' =>
      if (pl <? pj)%nat && (vp <? key_at v a (pj - 1))
      then sift fuel' v (upd pj (nth (pj - 1) a 0%nat) a) pl vi vp (pj - 1)
      else upd pj vi a
  end.

(** The insertion sort of the [n] positions from [pl] on. *)
Definition insertion_segment (v : list Z) (a : list nat) (pl n : nat)
    : list nat :=
  fold_left (fun a pi =>
               sift (List.length a) v a pl (nth pi a 0%nat) (key_at v a pi) pi)
            (seq (S pl) (n - 1)) a.

(** [npy_get_msb]: the binary logarithm, rounded down *)
Definition msb (n : nat) : nat := Nat.log2 n.

(** The sort of the [n] positions from [pl] on, with [depth] partitions
    left before the switch to heapsort.  A segment that the code pops from
    its stack is [popped]: only there does the code test the depth. *)
Fixpoint quicksort_segment (fuel : nat) (v : list Z) (a : list nat)
    (pl n : nat) (depth : Z) (popped : bool) : option (list nat) :=
  match fuel with
  | O => None
  | S fuel' =>
      if popped && (depth <? 0) then None
      else if (17 <? n)%nat then
        let pr := (pl + n - 1)%nat in
        let (a, pi) := partition_segment v a pl pr in
        let left := (pi - pl)%nat in
        let right := (pr - pi)%nat in
        if (left <? right)%nat then
          match quicksort_segment fuel' v a pl left (depth - 1) false with
          | Some a =>
              quicksort_segment fuel' v a (S pi) right (depth - 1) true
          | None => None
          end
        else
          match quicksort_segment fuel' v a (S pi) right (depth - 1) false with
          | Some a => quicksort_segment fuel' v a pl left (depth - 1) true
          | None => None
          end
      else Some (insertion_segment v a pl n)
  end.

(** [np.argsort(v, kind='quicksort')] *)
Definition aquicksort (v : list Z) : option (list nat) :=
  let n := List.length v in
  quicksort_segment (S n) v (seq 0 n) 0 n (2 * Z.of_nat (msb n)) true.

(** Whether [r] is an indexer of [ks] that makes the keys ascend. *)
Fixpoint ascendingb (l : list Z) : bool :=
  match l with
  | x :: ((y :: _) as l') => (x <=? y) && ascendingb l'
  | _ => true
  end.

Definition is_argsort (r : list nat) (ks : list Z) : bool :=
  (List.length r =? List.length ks)%nat
  && forallb (fun i => existsb (Nat.eqb i) r) (seq 0 (List.length ks))
  && ascendingb (take r ks).

(** The indexer of [sort_values]: that of numpy's quicksort; where the
    model of the quicksort gives none, the indexer of a stable sort stands
    in for it. *)
Definition numpy_argsort (ks : list Z) : list nat :=
  match aquicksort ks with
  | Some r => if is_argsort r ks then r else insertion_argsort Z.leb ks
  | None => insertion_argsort Z.leb ks
  end.

(** ** The vocabulary of the properties *)

(** The column of the first item of [columns_lower] whose key contains
    the pattern. *)
Definition first_item_containing (pattern : string) (items : sdict string)
    : option string :=
  option_map snd (find (fun kv => str_in pattern (fst kv)) items).

(** The patterns in order, up to the first one that some item contains. *)
Fixpoint resolve_role (patterns_list : list string) (items : sdict string)
    : option string :=
  match patterns_list with
  | [] => None
  | pattern :: rest =>
      match first_item_containing pattern items with
      | Some col => Some col
      | None => resolve_role rest items
      end
  end.

(** As the specification words it: the first column in table order whose
    lowercased name contains the pattern ... *)
Definition first_column_containing (pattern : string) (columns : list string)
    : option string :=
  find (fun col => str_in pattern (lower col)) columns.

(** ... for the first pattern in priority order that has such a column. *)
Fixpoint by_priority (patterns_list : list string) (columns : list string)
    : option string :=
  match patterns_list with
  | [] => None
  | pattern :: rest =>
      match first_column_containing pattern columns with
      | Some col => Some col
      | None => by_priority rest columns
      end
  end.

(** Some column name contains, lowercased, some pattern of the role. *)
Definition matchable (columns : list string) (role : string) : bool :=
  match sget role patterns with
  | Some patterns_list =>
      existsb (fun pattern =>
                 existsb (fun col => str_in pattern (lower col)) columns)
              patterns_list
  | None => false
  end.

(** No column is mapped to two roles. *)
Definition injective_mapping (column_mapping : sdict string) : Prop :=
  forall role1 role2 col,
    sget role1 column_mapping = Some col ->
    sget role2 column_mapping = Some col ->
    role1 = role2.

(** [col] is the last column in table order with its lowercased name. *)
Definition last_of_its_case (columns : list string) (col : string) : Prop :=
  exists before after,
    columns = (before ++ col :: after)%list
    /\ forall c, In c after -> lower c <> lower col.

(** The mandatory roles that no column can serve, in the order of
    [required_cols]. *)
Definition unresolved_roles (columns : list string) : list string :=
  filter (fun role => negb (matchable columns role)) required_cols.

(** What [ensure_datetime col] can do to the table: nothing, or replace
    the column, which was not [datetime64], by its conversion. *)
Definition converted_column {pandas : PandasLib} (col : string)
    (df df' : DataFrame) : Prop :=
  df' = df
  \/ exists s s',
       df_getitem df col = OK s
       /\ is_datetime64_any_dtype s = false
       /\ to_datetime s = OK s'
       /\ df' = df_setitem df col s'.

(** What [to_datetime] makes of one cell: a [Timestamp] is kept, an
    [int] counts nanoseconds, a text is what the parser reads. *)
Definition converted_cell {pandas : PandasLib} (c c' : cell) : Prop :=
  match c with
  | CTs t => c' = CTs t
  | CInt n => c' = CTs n
  | CStr s => exists t, parse_datetime s = Some t /\ c' = CTs t
  end.

(** The column [col] of [df'] is that of [df] if that is [datetime64],
    and else its conversion by [to_datetime], a [datetime64] column of the
    converted cells. *)
Definition date_column_converted {pandas : PandasLib} (col : string)
    (df df' : DataFrame) : Prop :=
  exists s,
    df_getitem df col = OK s
    /\ if is_datetime64_any_dtype s then df_getitem df' col = OK s
       else exists s',
              to_datetime s = OK s'
              /\ df_getitem df' col = OK s'
              /\ s_dtype s' = datetime64
              /\ Forall2 converted_cell (s_values s) (s_values s').

(** The row holds the timestamp [t] in the column. *)
Definition stamp_at (col : string) (r : Z * Row) (t : Z) : Prop :=
  sindex (snd r) col = OK (CTs t).

(** What one pass of the loop draws for the row [r] at position [i]. *)
Definition drawn (n : nat) (task_col start_col end_col : string)
    (phase_col duration_col : option string)
    (color_map : list (cell * color)) (ir : nat * (Z * Row)) (p : Plotted)
    : Prop :=
  let y := Z.of_nat n - 1 - Z.of_nat (fst ir) in
  exists task s e,
    sindex (snd (snd ir)) task_col = OK task
    /\ stamp_at start_col (snd ir) s
    /\ stamp_at end_col (snd ir) e
    /\ p_y p = y /\ p_tick p = task
    /\ bar_y (p_bar p) = y
    /\ bar_left (p_bar p) = s
    /\ bar_width (p_bar p) = Z.max 1 (timedelta_days (e - s))
    /\ match phase_col with
       | Some pc =>
           exists phase,
             sindex (snd (snd ir)) pc = OK phase
             /\ bar_color (p_bar p)
                = match Dict.get cell_eqb phase color_map with
                  | Some c => c
                  | None => ColorName "blue"
                  end
       | None => bar_color (p_bar p) = ColorName "steelblue"
       end
    /\ text_x (p_text p) = s + bar_width (p_bar p) * (ns_per_day / 2)
    /\ text_y (p_text p) = y.

(** The phases of a frame: the distinct values of its phase column, if it
    has one, in ascending order. *)
Definition phases_of (df : DataFrame) (phase_col : option string)
    (phases : list cell) : Prop :=
  match present_col df phase_col with
  | Some pc =>
      exists s, df_getitem df pc = OK s
                /\ sorted (unique (s_values s)) = OK phases
  | None => phases = []
  end.

(** The colour map that [draw] builds from the phases. *)
Definition color_map_for (df : DataFrame) (phase_col : option string)
    (custom_colors : option (sdict string)) (phases : list cell)
    : list (cell * color) :=
  match present_col df phase_col with
  | Some _ => color_map_of custom_colors phases
  | None => []
  end.

(** The weekly gridlines, dashed with opacity 0.3, then the monthly ones,
    solid with opacity 0.2. *)
Definition gridlines (grid_color : string) (weeks months : list Z)
    : list VLine :=
  (map (fun d => mkVLine d grid_color "--" (3 # 10)) weeks
   ++ map (fun d => mkVLine d grid_color "-" (2 # 10)) months)%list.

(** What a call that returned a figure went through: the columns of the
    roles, the sorted frame, the keys it was sorted by, the phases, what
    the loop drew, and the bounds and dates of the gridlines. *)
Record Trace : Type := mkTrace {
  t_task_col : string;
  t_start_col : string;
  t_end_col : string;
  t_sorted : DataFrame;
  t_keys : list Z;
  t_phases : list cell;
  t_plotted : list Plotted;
  t_starts : list Z;
  t_ends : list Z;
  t_weeks : list Z;
  t_months : list Z
}.

(** How the trace relates the figure to the table left to the caller. *)
Record Layout {pandas : PandasLib} (columns : sdict string)
    (custom_colors : option (sdict string)) (grid : string)
    (table : DataFrame) (fig : Figure) (t : Trace) : Prop := mkLayout {
  l_task : sindex columns "task" = OK (t_task_col t);
  l_start : sindex columns "start_date" = OK (t_start_col t);
  l_end : sindex columns "end_date" = OK (t_end_col t);
  l_stamps : column_stamps table (t_start_col t) = OK (t_keys t);
  l_dtypes : df_dtypes (t_sorted t) = df_dtypes table;
  l_perm : Permutation (df_rows (t_sorted t)) (df_rows table);
  l_sorted_keys :
    Forall2 (stamp_at (t_start_col t)) (df_rows (t_sorted t))
      (take (argsort (t_keys t)) (t_keys t));
  l_ascending : StronglySorted Z.le (take (argsort (t_keys t)) (t_keys t));
  l_phases_of : phases_of (t_sorted t) (sget "phase" columns) (t_phases t);
  l_drawn :
    Forall2 (drawn (df_len (t_sorted t))
               (t_task_col t) (t_start_col t) (t_end_col t)
               (present_col (t_sorted t) (sget "phase" columns))
               (present_col (t_sorted t) (sget "duration" columns))
               (color_map_for (t_sorted t) (sget "phase" columns)
                  custom_colors (t_phases t)))
      (enumerate (df_rows (t_sorted t))) (t_plotted t);
  l_starts_of : column_stamps (t_sorted t) (t_start_col t) = OK (t_starts t);
  l_ends_of : column_stamps (t_sorted t) (t_end_col t) = OK (t_ends t);
  l_weeks_of :
    date_range (min_stamp (t_starts t)) (max_stamp (t_ends t)) W
    = OK (t_weeks t);
  l_months_of :
    date_range (min_stamp (t_starts t)) (max_stamp (t_ends t)) MS
    = OK (t_months t);
  l_bars : ax_bars (fig_axes fig) = map p_bar (t_plotted t);
  l_texts : ax_texts (fig_axes fig) = map p_text (t_plotted t);
  l_yticks : ax_yticks (fig_axes fig) = map p_y (t_plotted t);
  l_yticklabels : ax_yticklabels (fig_axes fig) = map p_tick (t_plotted t);
  l_vlines :
    ax_vlines (fig_axes fig) = gridlines grid (t_weeks t) (t_months t)
}.

(** The timestamp is midnight of a calendar day. *)
Definition is_calendar_date (t : Z) : Prop := t mod ns_per_day = 0.

(** The bar [b] is the one of a task that starts at [s] and ends at [e]:
    it begins at [s] and is as many days wide as the clamped duration,
    which is the duration in days as soon as that is a whole day or more. *)
Definition bar_spans (s e : Z) (b : Bar) : Prop :=
  bar_left b = s
  /\ bar_width b = Z.max 1 (timedelta_days (e - s))
  /\ (e <= s -> bar_width b = 1)
  /\ (ns_per_day <= e - s -> bar_width b = timedelta_days (e - s))
  /\ (s < e -> is_calendar_date s -> is_calendar_date e ->
      bar_width b = timedelta_days (e - s)).

(** The timestamp [t] is one of [pd.date_range(lo, hi, freq=f)] as the
    documentation of pandas describes them: between the bounds, whole days
    after [lo], on a day of the frequency. *)
Definition on_grid (f : freq) (lo hi t : Z) : Prop :=
  lo <= t <= hi
  /\ (exists k, 0 <= k /\ t = lo + k * ns_per_day)
  /\ on_offset f (date_of t) = true.

(** A weekly gridline has the lower visual weight of the two when it is
    the less opaque one. *)
Definition lighter (a b : VLine) : Prop :=
  (vline_alpha a < vline_alpha b)%Q.

(** The colour of the phase at position [i] of the sorted phases. *)
Definition phase_color (custom_colors : option (sdict string)) (i : nat)
    (phase : cell) : color :=
  match custom_colors with
  | Some (kv :: custom) => custom_get (kv :: custom) phase (palette_color i)
  | _ => palette_color i
  end.

(** The three signals of the specification as the code raises them: the
    [ValueError] of [detect_columns] for unresolved roles, the one of
    [date_range] for a table without rows and the one of [to_datetime] for
    a cell that is no date. *)
Definition core_signal (e : exn) : Prop :=
  match e with
  | ValueError _ => True
  | _ => False
  end.

(** What [date_range] raises for a bound that is [NaT]. *)
Definition nat_bounds : exn :=
  ValueError "Neither `start` nor `end` can be NaT".

(** The frame [d'] has the rows of [d], label by label, and agrees with
    [d] on every column but those of [cols]. *)
Definition same_outside (cols : list string) (d d' : DataFrame) : Prop :=
  (forall c, ~ In c cols -> sget c (df_dtypes d') = sget c (df_dtypes d))
  /\ Forall2 (fun r r' =>
                fst r' = fst r
                /\ forall c, ~ In c cols -> sget c (snd r') = sget c (snd r))
       (df_rows d) (df_rows d').

(** The two cells can be compared by [<]. *)
Definition comparable (a b : cell) : Prop := exists lt, cell_lt a b = OK lt.

(** ** Concrete tables *)

(** A frame with the given column names and no rows, as [read_excel]
    returns it for a sheet that has only a header. *)
Definition header_only (columns : list string) : DataFrame :=
  mkDataFrame (map (fun c => (c, object_)) columns) [].

Definition scenario_df : DataFrame :=
  header_only ["Task Name"; "Begin"; "Finish"].

Definition scenario_mapping : sdict string :=
  [("task", "Task Name"); ("start_date", "Begin"); ("end_date", "Finish")].

(** Two spellings of one name. *)
Definition two_spellings_df : DataFrame :=
  header_only ["Task"; "TASK"; "Start"; "End"].

Definition two_spellings_mapping : sdict string :=
  [("task", "TASK"); ("start_date", "Start"); ("end_date", "End")].

(** A column that two roles match. *)
Definition shared_column_df : DataFrame :=
  header_only ["Start Task"; "Finish"].

Definition shared_column_mapping : sdict string :=
  [("task", "Start Task"); ("start_date", "Start Task");
   ("end_date", "Finish")].

Definition blank_figure : Figure :=
  mkFigure "" (mkAxes "" [] [] [] [] "" [] "" "" None).

(** The figure that a call returned. *)
Definition returned (run : World * result Figure) : Figure :=
  match snd run with
  | OK fig => fig
  | Raise _ => blank_figure
  end.

Definition date_columns : sdict dtype :=
  [("Task", object_); ("Start", datetime64); ("End", datetime64)].

Definition task_row (label : Z) (name : string) (start end_ : Z) : Z * Row :=
  (label, [("Task", CStr name); ("Start", CTs start); ("End", CTs end_)]).

Definition role_mapping : sdict string :=
  [("task", "Task"); ("start_date", "Start"); ("end_date", "End")].

(** One task that starts and ends on 2025-01-01. *)
Definition one_day_df : DataFrame :=
  mkDataFrame date_columns
    [task_row 0 "A" (midnight 2025 1 1) (midnight 2025 1 1)].

(** One task from midnight to noon of 2025-01-01. *)
Definition half_day_df : DataFrame :=
  mkDataFrame date_columns
    [task_row 0 "A" (midnight 2025 1 1)
       (midnight 2025 1 1 + ns_per_day / 2)].

(** A from 2025-03-01 to 2025-03-10, then B from 2025-02-01 to
    2025-02-05. *)
Definition two_tasks_df : DataFrame :=
  mkDataFrame date_columns
    [task_row 0 "A" (midnight 2025 3 1) (midnight 2025 3 10);
     task_row 1 "B" (midnight 2025 2 1) (midnight 2025 2 5)].

(** Eighteen tasks, A to R in row order, all from 2025-03-01 to
    2025-03-10. *)
Definition tied_names : list string :=
  ["A"; "B"; "C"; "D"; "E"; "F"; "G"; "H"; "I"; "J"; "K"; "L"; "M"; "N";
   "O"; "P"; "Q"; "R"].

Definition tied_df : DataFrame :=
  mkDataFrame date_columns
    (map (fun ik : nat * string =>
            task_row (Z.of_nat (fst ik)) (snd ik)
              (midnight 2025 3 1) (midnight 2025 3 10))
         (enumerate tied_names)).

(** The weekly gridline of Sunday 2025-02-02 and the monthly gridline of
    2025-02-01, as the engine draws them. *)
Definition sunday_line : VLine :=
  mkVLine (midnight 2025 2 2) default_grid "--" (3 # 10).

Definition first_of_month_line : VLine :=
  mkVLine (midnight 2025 2 1) default_grid "-" (2 # 10).

Definition phase_columns : sdict dtype :=
  [("Task", object_); ("Phase", object_); ("Start", datetime64);
   ("End", datetime64)].

Definition phase_row (label : Z) (name : string) (phase : cell)
    (start end_ : Z) : Z * Row :=
  (label, [("Task", CStr name); ("Phase", phase); ("Start", CTs start);
           ("End", CTs end_)]).

Definition phase_mapping : sdict string :=
  [("task", "Task"); ("phase", "Phase"); ("start_date", "Start");
   ("end_date", "End")].

(** A in phase Build, then B in phase Alpha, which starts earlier. *)
Definition phases_df : DataFrame :=
  mkDataFrame phase_columns
    [phase_row 0 "A" (CStr "Build") (midnight 2025 3 1) (midnight 2025 3 10);
     phase_row 1 "B" (CStr "Alpha") (midnight 2025 2 1) (midnight 2025 2 5)].

(** Colours for one phase of the table and for one that the table does
    not have. *)
Definition alpha_only : option (sdict string) :=
  Some [("Alpha", "#ff0000"); ("Gamma", "#000000")].


(** One task whose phase is the number 1 and one whose phase is the
    text Design. *)
Definition mixed_phases_df : DataFrame :=
  mkDataFrame phase_columns
    [phase_row 0 "A" (CInt 1) (midnight 2025 3 1) (midnight 2025 3 10);
     phase_row 1 "B" (CStr "Design") (midnight 2025 2 1) (midnight 2025 2 5)].

(** Dates as text, in columns of dtype [object]. *)
Definition text_dates_df : DataFrame :=
  mkDataFrame
    [("Task", object_); ("Start", object_); ("End", object_)]
    [(0, [("Task", CStr "A"); ("Start", CStr "2025-03-01");
          ("End", CStr "2025-03-10")])].

(** The same table after the conversion of its two date columns. *)
Definition text_dates_converted_df : DataFrame :=
  mkDataFrame date_columns
    [task_row 0 "A" (midnight 2025 3 1) (midnight 2025 3 10)].

(** ** More of the resolver *)

(** The lowercased names in order of first appearance: the keys of
    [columns_lower]. *)
Definition first_appearances (names : list string) : list string :=
  fold_left (fun ks l => if existsb (String.eqb l) ks then ks
                         else (ks ++ [l])%list) names [].

(** The key of the first item that contains the first pattern that some
    key contains. *)
Fixpoint resolve_key (patterns_list : list string) (keys : list string)
    : option string :=
  match patterns_list with
  | [] => None
  | pattern :: rest =>
      match find (str_in pattern) keys with
      | Some k => Some k
      | None => resolve_key rest keys
      end
  end.

(** The mapping that the resolver builds for a table, before it checks the
    mandatory roles. *)
Definition resolved (df : DataFrame) : sdict string :=
  find_matching_columns (columns_lower_of (df_columns df)).


(** ** Calls that fail *)

(** The first mandatory role, in the order in which the engine looks them
    up, that the mapping does not have. *)
Definition first_missing_role (columns : sdict string) : option string :=
  find (fun role => negb (smem role columns)) required_cols.

(** No role at all, and a start role that names no column of the table. *)
Definition no_start_mapping : sdict string :=
  [("task", "Task"); ("end_date", "End")].

Definition wrong_start_mapping : sdict string :=
  [("task", "Task"); ("start_date", "Begin"); ("end_date", "End")].

(** A start date as text and an end that is no date. *)
Definition bad_end_df : DataFrame :=
  mkDataFrame
    [("Task", object_); ("Start", object_); ("End", object_)]
    [(0, [("Task", CStr "A"); ("Start", CStr "2025-03-01");
          ("End", CStr "soon")])].


(** ** Calls on a table that is ready *)

(** The column can be read and is [datetime64]: the engine does not
    convert it. *)
Definition datetime_column (df : DataFrame) (col : string) : Prop :=
  exists s, df_getitem df col = OK s /\ is_datetime64_any_dtype s = true.

(** ** Labels, texts and legend *)


(** The handles of a legend for the phases: the colour of each phase at
    its position. *)
Definition handles_for (custom_colors : option (sdict string))
    (phases : list cell) : list color :=
  map (fun ip : nat * cell => phase_color custom_colors (fst ip) (snd ip))
      (enumerate phases).

(** [a < b] holds. *)
Definition cell_before (a b : cell) : Prop := cell_lt a b = OK true.

(** A table with a phase and a duration column. *)
Definition plan_columns : sdict dtype :=
  [("Task", object_); ("Phase", object_); ("Weeks", int64);
   ("Start", datetime64); ("End", datetime64)].

Definition plan_row (label : Z) (name phase : string) (weeks start end_ : Z)
    : Z * Row :=
  (label, [("Task", CStr name); ("Phase", CStr phase); ("Weeks", CInt weeks);
           ("Start", CTs start); ("End", CTs end_)]).

Definition plan_mapping : sdict string :=
  [("task", "Task"); ("duration", "Weeks"); ("phase", "Phase");
   ("start_date", "Start"); ("end_date", "End")].


(** Three tasks in two phases; the last one in table order starts
    first. *)
Definition plan_df : DataFrame :=
  mkDataFrame plan_columns
    [plan_row 0 "Build" "Make" 4 (midnight 2025 3 1) (midnight 2025 3 29);
     plan_row 1 "Test" "Check" 1 (midnight 2025 3 29) (midnight 2025 4 5);
     plan_row 2 "Design" "Make" 2 (midnight 2025 2 15) (midnight 2025 3 1)].

(** ** The phases of a file: [extract_phases_from_file] *)

Section Extraction.

(** What [tolist] makes of a timestamp of a [datetime64] array: pandas
    hands out a [Timestamp] or the [int] of its nanoseconds, depending on
    its version. *)
Variable datetime_tolist : Z -> cell.

(** [s.tolist()]: the cells of an [object] or [int64] column as they are. *)
Definition tolist (s : Series) : list cell :=
  match s_dtype s with
  | datetime64 =>
      map (fun c => match c with
                    | CTs t => datetime_tolist t
                    | _ => c
                    end) (s_values s)
  | _ => s_values s
  end.

(** The body of the [try] of [extract_phases_from_file], from the table
    that [read_excel] returned. *)
Definition extract_phases (df : DataFrame) : result (list cell) :=
  (columns <- detect_columns df ;;
   if smem "phase" columns
   then
     phase_col <- sindex columns "phase" ;;
     if smem phase_col (df_dtypes df)
     then
       s <- df_getitem df phase_col ;;
       sorted (tolist (mkSeries (s_dtype s) (unique (s_values s))))
     else OK []
   else OK [])%result.

(** [extract_phases_from_file]: any exception is logged and answered with
    the empty list. *)
Definition extract_phases_from_file (df : DataFrame) : list cell :=
  match extract_phases df with
  | OK phases => phases
  | Raise _ => []
  end.

End Extraction.

(** What [sorted] raises for cells of two types. *)
Definition sort_error : exn :=
  TypeError "'<' not supported between these instances".

(** The labels of the legend of a figure, none if it has no legend. *)
Definition legend_labels_of (fig : Figure) : list cell :=
  match ax_legend (fig_axes fig) with
  | Some lg => legend_labels lg
  | None => []
  end.

(** The phase column of the table, if the resolver finds one, is a column
    of its own, not one of the two date columns, and it is not
    [datetime64]. *)
Definition plain_phase_column (df : DataFrame) : Prop :=
  forall pc,
    sget "phase" (resolved df) = Some pc ->
    sget "start_date" (resolved df) <> Some pc
    /\ sget "end_date" (resolved df) <> Some pc
    /\ sget pc (df_dtypes df) <> Some datetime64.

(** The plan with a number as the phase of its second task. *)
Definition mixed_plan_df : DataFrame :=
  mkDataFrame plan_columns
    [plan_row 0 "Build" "Make" 4 (midnight 2025 3 1) (midnight 2025 3 29);
     (1, [("Task", CStr "Test"); ("Phase", CInt 2); ("Weeks", CInt 1);
          ("Start", CTs (midnight 2025 3 29));
          ("End", CTs (midnight 2025 4 5))])].

(** ** Lists *)

Lemma map_fst_combine_seq {A : Type} (xs : list A) (a : nat) :
  map fst (combine (seq a (List.length xs)) xs) = seq a (List.length xs).
Proof.
  revert a; induction xs as [|x xs IH]; intros a; simpl; [reflexivity|].
  now rewrite IH.
Qed.

Lemma map_snd_combine_seq {A : Type} (xs : list A) (a : nat) :
  map snd (combine (seq a (List.length xs)) xs) = xs.
Proof.
  revert a; induction xs as [|x xs IH]; intros a; simpl; [reflexivity|].
  now rewrite IH.
Qed.

Lemma map_fst_enumerate {A : Type} (xs : list A) :
  map fst (enumerate xs) = seq 0 (List.length xs).
Proof. apply map_fst_combine_seq. Qed.

Lemma map_snd_enumerate {A : Type} (xs : list A) :
  map snd (enumerate xs) = xs.
Proof. apply map_snd_combine_seq. Qed.

Lemma combine_seq_nth_error {A : Type} (xs : list A) (a i : nat) (x : A) :
  In (i, x) (combine (seq a (List.length xs)) xs) ->
  (a <= i)%nat /\ nth_error xs (i - a) = Some x.
Proof.
  revert a; induction xs as [|y xs IH]; intros a; simpl; [tauto|].
  intros [E|H].
  - inversion E; subst. split; [lia|]. now rewrite Nat.sub_diag.
  - apply IH in H. destruct H as [Hle Hn]. split; [lia|].
    replace (i - a)%nat with (S (i - S a)) by lia. exact Hn.
Qed.

Lemma enumerate_nth_error {A : Type} (xs : list A) (i : nat) (x : A) :
  In (i, x) (enumerate xs) -> nth_error xs i = Some x.
Proof.
  intros H. apply combine_seq_nth_error in H.
  now rewrite Nat.sub_0_r in H.
Qed.

Lemma take_cons {A : Type} (i : nat) (idx : list nat) (xs : list A) (x : A) :
  nth_error xs i = Some x -> take (i :: idx) xs = x :: take idx xs.
Proof. intros H. unfold take. simpl. now rewrite H. Qed.

Lemma take_pairs {A : Type} (l : list (nat * A)) (xs : list A) :
  Forall (fun ix => nth_error xs (fst ix) = Some (snd ix)) l ->
  take (map fst l) xs = map snd l.
Proof.
  induction 1 as [|ix l H _ IH]; [reflexivity|].
  simpl map. rewrite (take_cons _ _ _ _ H). now rewrite IH.
Qed.

Lemma take_seq {A : Type} (xs : list A) :
  take (seq 0 (List.length xs)) xs = xs.
Proof.
  rewrite <- (map_fst_enumerate xs).
  rewrite take_pairs; [apply map_snd_enumerate|].
  apply Forall_forall. intros [i x] H. now apply enumerate_nth_error.
Qed.

Lemma take_perm {A : Type} (idx : list nat) (xs : list A) :
  Permutation idx (seq 0 (List.length xs)) -> Permutation (take idx xs) xs.
Proof.
  intros H. rewrite <- (take_seq xs) at 2.
  unfold take. now apply Permutation_flat_map.
Qed.

(** ** The sorts meet the contract *)

Section InsertionSort.
Variable before : Z -> Z -> bool.
Hypothesis before_true : forall x y, before x y = true -> x <= y.
Hypothesis before_false : forall x y, before x y = false -> y <= x.

Let le_key (a b : nat * Z) : Prop := snd a <= snd b.

Lemma insert_key_perm (ik : nat * Z) (l : list (nat * Z)) :
  Permutation (insert_key before ik l) (ik :: l).
Proof.
  induction l as [|jk l IH]; simpl; [reflexivity|].
  destruct (before (snd ik) (snd jk)); [reflexivity|].
  rewrite IH. apply perm_swap.
Qed.

Lemma insertion_sort_perm (ks : list Z) :
  Permutation (insertion_sort before ks) (enumerate ks).
Proof.
  unfold insertion_sort.
  induction (enumerate ks) as [|ik l IH]; simpl; [reflexivity|].
  rewrite insert_key_perm. now constructor.
Qed.

Lemma insert_key_sorted (ik : nat * Z) (l : list (nat * Z)) :
  StronglySorted le_key l -> StronglySorted le_key (insert_key before ik l).
Proof.
  induction 1 as [|jk l Hs IH Hall]; simpl.
  - constructor; constructor.
  - destruct (before (snd ik) (snd jk)) eqn:E.
    + apply before_true in E.
      constructor; [now constructor|].
      constructor; [exact E|].
      eapply Forall_impl; [|exact Hall].
      intros a Ha. unfold le_key in *. lia.
    + apply before_false in E.
      constructor; [exact IH|].
      eapply Permutation_Forall.
      * symmetry. apply insert_key_perm.
      * constructor; assumption.
Qed.

Lemma insertion_sort_sorted (ks : list Z) :
  StronglySorted le_key (insertion_sort before ks).
Proof.
  unfold insertion_sort.
  induction (enumerate ks) as [|ik l IH]; simpl; [constructor|].
  now apply insert_key_sorted.
Qed.

Lemma insertion_argsort_perm (ks : list Z) :
  Permutation (insertion_argsort before ks) (seq 0 (List.length ks)).
Proof.
  unfold insertion_argsort. rewrite <- map_fst_enumerate.
  apply Permutation_map, insertion_sort_perm.
Qed.

Lemma insertion_argsort_keys (ks : list Z) :
  take (insertion_argsort before ks) ks
  = map snd (insertion_sort before ks).
Proof.
  unfold insertion_argsort. apply take_pairs.
  eapply Permutation_Forall.
  - symmetry. apply insertion_sort_perm.
  - apply Forall_forall. intros [i k] H. now apply enumerate_nth_error.
Qed.

Lemma insertion_argsort_sorted (ks : list Z) :
  StronglySorted Z.le (take (insertion_argsort before ks) ks).
Proof.
  rewrite insertion_argsort_keys.
  induction (insertion_sort_sorted ks) as [|ik l Hs IH Hall]; simpl;
    constructor; [exact IH|].
  apply Forall_map. exact Hall.
Qed.
End InsertionSort.

Lemma leb_true (x y : Z) : (x <=? y) = true -> x <= y.
Proof. lia. Qed.

Lemma leb_false (x y : Z) : (x <=? y) = false -> y <= x.
Proof. lia. Qed.

(** A stable sort (equal keys stay in row order), with the ISO parser. *)
Definition pandas_stable : PandasLib :=
  {| argsort := insertion_argsort Z.leb;
     argsort_perm := insertion_argsort_perm Z.leb;
     argsort_sorted := insertion_argsort_sorted Z.leb leb_true leb_false;
     parse_datetime := parse_iso_date |}.

Lemma ascendingb_sorted (l : list Z) :
  ascendingb l = true -> StronglySorted Z.le l.
Proof.
  intros H. apply Sorted_StronglySorted; [intros x y z; apply Z.le_trans|].
  induction l as [|x [|y l] IH]; [constructor|repeat constructor|].
  simpl in H. apply andb_true_iff in H. destruct H as [Hxy H].
  constructor; [now apply IH|]. constructor. lia.
Qed.

Lemma is_argsort_perm (r : list nat) (ks : list Z) :
  is_argsort r ks = true -> Permutation r (seq 0 (List.length ks)).
Proof.
  unfold is_argsort. rewrite !andb_true_iff. intros [[Hlen Hall] _].
  apply Nat.eqb_eq in Hlen. symmetry.
  apply NoDup_Permutation_bis.
  - apply seq_NoDup.
  - rewrite length_seq. lia.
  - intros i Hi. rewrite forallb_forall in Hall.
    specialize (Hall i Hi). apply existsb_exists in Hall.
    destruct Hall as (j & Hj & E). apply Nat.eqb_eq in E. now subst j.
Qed.

Lemma is_argsort_sorted (r : list nat) (ks : list Z) :
  is_argsort r ks = true -> StronglySorted Z.le (take r ks).
Proof.
  unfold is_argsort. rewrite !andb_true_iff. intros [_ H].
  now apply ascendingb_sorted.
Qed.

Lemma numpy_argsort_perm (ks : list Z) :
  Permutation (numpy_argsort ks) (seq 0 (List.length ks)).
Proof.
  unfold numpy_argsort.
  destruct (aquicksort ks) as [r|];
    [|apply (insertion_argsort_perm Z.leb)].
  destruct (is_argsort r ks) eqn:E;
    [now apply is_argsort_perm|apply (insertion_argsort_perm Z.leb)].
Qed.

Lemma numpy_argsort_sorted (ks : list Z) :
  StronglySorted Z.le (take (numpy_argsort ks) ks).
Proof.
  unfold numpy_argsort.
  destruct (aquicksort ks) as [r|];
    [|apply (insertion_argsort_sorted Z.leb leb_true leb_false)].
  destruct (is_argsort r ks) eqn:E;
    [now apply is_argsort_sorted
    |apply (insertion_argsort_sorted Z.leb leb_true leb_false)].
Qed.

(** pandas with the sort of numpy, and the ISO parser. *)
Definition numpy_quicksort : PandasLib :=
  {| argsort := numpy_argsort;
     argsort_perm := numpy_argsort_perm;
     argsort_sorted := numpy_argsort_sorted;
     parse_datetime := parse_iso_date |}.

(** ** Dictionaries *)

Section DictFacts.
Context {K V : Type}.
Variable eqb : K -> K -> bool.
Hypothesis eqb_spec : forall x y, reflect (x = y) (eqb x y).

Lemma eqb_refl_of (k : K) : eqb k k = true.
Proof. destruct (eqb_spec k k); congruence. Qed.

Lemma eqb_neq_of (k k' : K) : k <> k' -> eqb k k' = false.
Proof. destruct (eqb_spec k k'); congruence. Qed.

Lemma get_set_same (k : K) (v : V) (d : list (K * V)) :
  Dict.get eqb k (Dict.set eqb k v d) = Some v.
Proof.
  induction d as [|[k' v'] d IH]; simpl.
  - now rewrite eqb_refl_of.
  - destruct (eqb k k') eqn:E; simpl; rewrite E; [reflexivity|exact IH].
Qed.

Lemma get_set_other (k k' : K) (v : V) (d : list (K * V)) :
  k <> k' -> Dict.get eqb k' (Dict.set eqb k v d) = Dict.get eqb k' d.
Proof.
  intros Hne. induction d as [|[k0 v0] d IH]; simpl.
  - rewrite eqb_neq_of; [reflexivity|congruence].
  - destruct (eqb_spec k k0) as [->|Hk]; simpl.
    + rewrite eqb_neq_of; [reflexivity|congruence].
    + now rewrite IH.
Qed.

Lemma get_in (k : K) (v : V) (d : list (K * V)) :
  Dict.get eqb k d = Some v -> In (k, v) d.
Proof.
  induction d as [|[k' v'] d IH]; simpl; [discriminate|].
  destruct (eqb_spec k k') as [->|Hk].
  - intros E; inversion E; now left.
  - intros E; right; now apply IH.
Qed.

Lemma get_none (k : K) (d : list (K * V)) :
  Dict.get eqb k d = None <-> ~ In k (Dict.keys d).
Proof.
  induction d as [|[k' v'] d IH]; simpl; [tauto|].
  destruct (eqb_spec k k') as [->|Hk].
  - split; [discriminate|]. intros H; exfalso; apply H; now left.
  - rewrite IH. split; intros H; [intros [E|E]; [congruence|tauto]|tauto].
Qed.

Lemma in_get (k : K) (v : V) (d : list (K * V)) :
  NoDup (Dict.keys d) -> In (k, v) d -> Dict.get eqb k d = Some v.
Proof.
  induction d as [|[k' v'] d IH]; simpl; [tauto|].
  intros Hnd [E|Hin]; inversion Hnd as [|? ? Hnotin Hnd']; subst.
  - inversion E; subst. now rewrite eqb_refl_of.
  - destruct (eqb_spec k k') as [->|Hk].
    + exfalso. apply Hnotin. change k' with (fst (k', v)). now apply in_map.
    + now apply IH.
Qed.

Lemma keys_set (k : K) (v : V) (d : list (K * V)) :
  Dict.keys (Dict.set eqb k v d)
  = if Dict.mem eqb k d then Dict.keys d else (Dict.keys d ++ [k])%list.
Proof.
  unfold Dict.mem.
  induction d as [|[k' v'] d IH]; simpl; [reflexivity|].
  destruct (eqb k k') eqn:E; simpl; [reflexivity|].
  rewrite IH. now destruct (Dict.get eqb k d).
Qed.

Lemma in_set (k k' : K) (v v' : V) (d : list (K * V)) :
  NoDup (Dict.keys d) ->
  In (k', v') (Dict.set eqb k v d) ->
  (k' = k /\ v' = v) \/ (k' <> k /\ In (k', v') d).
Proof.
  induction d as [|[k0 v0] d IH]; simpl.
  - intros _ [E|[]]. inversion E; now left.
  - intros Hnd. inversion Hnd as [|? ? Hnotin Hnd']; subst.
    destruct (eqb_spec k k0) as [->|Hk]; simpl.
    + intros [E|Hin].
      * inversion E; now left.
      * right. split; [|now right].
        intros ->. apply Hnotin.
        change k0 with (fst (k0, v')). now apply in_map.
    + intros [E|Hin].
      * inversion E; subst. right. split; [congruence|now left].
      * destruct (IH Hnd' Hin) as [H|[H1 H2]]; [now left|].
        right. split; [exact H1|now right].
Qed.

Lemma nodup_keys_set (k : K) (v : V) (d : list (K * V)) :
  NoDup (Dict.keys d) -> NoDup (Dict.keys (Dict.set eqb k v d)).
Proof.
  intros Hnd. rewrite keys_set. unfold Dict.mem.
  destruct (Dict.get eqb k d) eqn:E; [exact Hnd|].
  apply get_none in E.
  apply NoDup_rev in Hnd. rewrite <- (rev_involutive (_ ++ _)%list).
  apply NoDup_rev. rewrite rev_app_distr. simpl.
  constructor; [|exact Hnd]. now rewrite <- in_rev.
Qed.
End DictFacts.

Lemma cell_eqb_spec (a b : cell) : reflect (a = b) (cell_eqb a b).
Proof.
  destruct a as [x|x|x], b as [y|y|y]; simpl;
    try (constructor; congruence).
  - destruct (String.eqb_spec x y); constructor; congruence.
  - destruct (Z.eqb_spec x y); constructor; congruence.
  - destruct (Z.eqb_spec x y); constructor; congruence.
Qed.

(** ** The schema resolver *)

Lemma scan_columns_spec (key pattern : string) (items m : sdict string) :
  scan_columns key pattern items m
  = match first_item_containing pattern items with
    | Some col => sset key col m
    | None => m
    end.
Proof.
  unfold first_item_containing.
  induction items as [|[cl co] items IH]; simpl; [reflexivity|].
  destruct (str_in pattern cl); [reflexivity|exact IH].
Qed.

Lemma scan_patterns_get (key : string) (pl : list string)
    (items m : sdict string) (k : string) :
  sget key m = None ->
  sget k (scan_patterns key pl items m)
  = if String.eqb k key then resolve_role pl items else sget k m.
Proof.
  intros Hfresh. induction pl as [|p pl IH]; simpl.
  - destruct (String.eqb_spec k key) as [->|_]; [exact Hfresh|reflexivity].
  - rewrite scan_columns_spec.
    destruct (first_item_containing p items) as [col|].
    + unfold Dict.mem. rewrite (get_set_same _ String.eqb_spec).
      destruct (String.eqb_spec k key) as [->|Hk].
      * apply (get_set_same _ String.eqb_spec).
      * apply (get_set_other _ String.eqb_spec). congruence.
    + unfold Dict.mem. rewrite Hfresh. exact IH.
Qed.

Lemma fold_scan_get (items : sdict string) (pats : sdict (list string))
    (m : sdict string) (k : string) :
  NoDup (Dict.keys pats) ->
  (forall key, In key (Dict.keys pats) -> sget key m = None) ->
  sget k (fold_left
            (fun column_mapping kp =>
               scan_patterns (fst kp) (snd kp) items column_mapping)
            pats m)
  = match sget k pats with
    | Some pl => resolve_role pl items
    | None => sget k m
    end.
Proof.
  revert m. induction pats as [|[key pl] pats IH]; intros m Hnd Hfresh;
    simpl; [reflexivity|].
  inversion Hnd as [|? ? Hnotin Hnd']; subst.
  rewrite IH; [|exact Hnd'|].
  - destruct (String.eqb_spec k key) as [->|Hk].
    + apply (get_none _ String.eqb_spec) in Hnotin. rewrite Hnotin.
      rewrite scan_patterns_get by (apply Hfresh; now left).
      now rewrite String.eqb_refl.
    + destruct (sget k pats); [reflexivity|].
      rewrite scan_patterns_get by (apply Hfresh; now left).
      apply String.eqb_neq in Hk. now rewrite Hk.
  - intros key' Hin.
    rewrite scan_patterns_get by (apply Hfresh; now left).
    destruct (String.eqb_spec key' key) as [->|_]; [contradiction|].
    apply Hfresh. now right.
Qed.

Lemma patterns_nodup : NoDup (Dict.keys patterns).
Proof.
  unfold patterns; simpl.
  repeat (constructor; [simpl; intuition discriminate|]). constructor.
Qed.

Lemma in_patterns_get (role : string) (pl : list string) :
  In (role, pl) patterns -> sget role patterns = Some pl.
Proof. apply (in_get _ String.eqb_spec), patterns_nodup. Qed.

(** The column of a role in the mapping is the one that the scan of its
    own patterns finds. *)
Lemma find_matching_get (items : sdict string) (role : string) :
  sget role (find_matching_columns items)
  = match sget role patterns with
    | Some pl => resolve_role pl items
    | None => None
    end.
Proof.
  unfold find_matching_columns.
  rewrite fold_scan_get; [reflexivity|apply patterns_nodup|reflexivity].
Qed.

(** *** The dictionary of lowercased names *)

Lemma columns_lower_snoc (columns : list string) (col : string) :
  columns_lower_of (columns ++ [col])
  = sset (lower col) col (columns_lower_of columns).
Proof.
  unfold columns_lower_of, Dict.comprehension.
  now rewrite fold_left_app.
Qed.

Lemma columns_lower_nodup (columns : list string) :
  NoDup (Dict.keys (columns_lower_of columns)).
Proof.
  induction columns as [|col columns IH] using rev_ind.
  - constructor.
  - rewrite columns_lower_snoc.
    now apply (nodup_keys_set _ String.eqb_spec).
Qed.

Lemma columns_lower_keys (columns : list string) (k : string) :
  In k (Dict.keys (columns_lower_of columns)) <-> In k (map lower columns).
Proof.
  induction columns as [|col columns IH] using rev_ind.
  - simpl; tauto.
  - rewrite columns_lower_snoc, (keys_set String.eqb).
    rewrite map_app, in_app_iff. simpl.
    unfold Dict.mem.
    destruct (sget (lower col) (columns_lower_of columns)) eqn:E.
    + apply (get_in _ String.eqb_spec) in E.
      apply (in_map fst) in E. simpl in E.
      rewrite IH. split; [tauto|].
      intros [H|[<-|[]]]; [exact H|]. now apply IH.
    + rewrite in_app_iff. simpl. rewrite IH. tauto.
Qed.

(** Every item pairs a lowercased name with the last column that has it. *)
Lemma columns_lower_items (columns : list string) (k col : string) :
  In (k, col) (columns_lower_of columns) ->
  k = lower col /\ last_of_its_case columns col.
Proof.
  revert k col. induction columns as [|c columns IH] using rev_ind;
    intros k col; [intros []|].
  rewrite columns_lower_snoc. intros Hin.
  apply (in_set _ String.eqb_spec) in Hin; [|apply columns_lower_nodup].
  destruct Hin as [[-> ->]|[Hne Hin]].
  - split; [reflexivity|]. exists columns, []. split; [reflexivity|].
    intros ? [].
  - destruct (IH _ _ Hin) as [-> (before & after & -> & Hlast)].
    split; [reflexivity|].
    exists before, (after ++ [c])%list. split.
    + now rewrite <- app_assoc.
    + intros c' Hc'. apply in_app_iff in Hc'.
      destruct Hc' as [Hc'|[<-|[]]]; [now apply Hlast|congruence].
Qed.

Lemma columns_lower_distinct (columns : list string) :
  NoDup (map lower columns) ->
  columns_lower_of columns = map (fun col => (lower col, col)) columns.
Proof.
  induction columns as [|c columns IH] using rev_ind; [reflexivity|].
  rewrite map_app. intros Hnd.
  rewrite columns_lower_snoc, IH by (now apply NoDup_app_remove_r in Hnd).
  assert (Hfresh : ~ In (lower c) (map lower columns)).
  { intros Hin. apply NoDup_remove_2 in Hnd. simpl in Hnd.
    rewrite app_nil_r in Hnd. contradiction. }
  clear IH Hnd. rewrite map_app. simpl.
  induction columns as [|c' columns IH]; simpl; [reflexivity|].
  simpl in Hfresh.
  destruct (String.eqb_spec (lower c) (lower c')) as [E|_].
  - exfalso. apply Hfresh. left. congruence.
  - rewrite IH by tauto. reflexivity.
Qed.

Lemma resolve_role_in (pl : list string) (items : sdict string) (col : string) :
  resolve_role pl items = Some col -> exists k, In (k, col) items.
Proof.
  induction pl as [|p pl IH]; simpl; [discriminate|].
  unfold first_item_containing.
  destruct (find _ items) as [[k c]|] eqn:E; simpl.
  - intros H; inversion H; subst. exists k. now apply find_some in E.
  - exact IH.
Qed.

Lemma resolve_role_distinct (pl : list string) (columns : list string) :
  resolve_role pl (map (fun col => (lower col, col)) columns)
  = by_priority pl columns.
Proof.
  induction pl as [|p pl IH]; simpl; [reflexivity|].
  rewrite IH. unfold first_item_containing, first_column_containing.
  replace (find (fun kv => str_in p (fst kv)) (map (fun col => (lower col, col)) columns))
    with (option_map (fun col => (lower col, col))
            (find (fun col => str_in p (lower col)) columns)).
  - now destruct (find (fun col => str_in p (lower col)) columns).
  - clear IH. induction columns as [|c columns IHc]; simpl; [reflexivity|].
    destruct (str_in p (lower c)); [reflexivity|exact IHc].
Qed.

Lemma resolve_role_some (pl : list string) (columns : list string) :
  (exists col, resolve_role pl (columns_lower_of columns) = Some col)
  <-> existsb (fun pattern =>
                 existsb (fun col => str_in pattern (lower col)) columns) pl
      = true.
Proof.
  induction pl as [|p pl IH]; simpl.
  - split; [intros [? H]; discriminate|discriminate].
  - unfold first_item_containing.
    destruct (find _ (columns_lower_of columns)) as [[k c]|] eqn:E; simpl.
    + split; [intros _|intros _; now exists c].
      apply find_some in E. destruct E as [Hin Hp]. simpl in Hp.
      apply orb_true_iff. left. apply existsb_exists.
      apply (in_map fst) in Hin. apply columns_lower_keys in Hin.
      apply in_map_iff in Hin. destruct Hin as (col & Hk & Hcol).
      exists col. simpl in Hk. split; [exact Hcol|congruence].
    + rewrite IH.
      assert (Hno : existsb (fun col => str_in p (lower col)) columns = false).
      { apply not_true_is_false. intros H. apply existsb_exists in H.
        destruct H as (col & Hcol & Hp).
        assert (Hk : In (lower col) (Dict.keys (columns_lower_of columns))).
        { apply columns_lower_keys. now apply in_map. }
        apply in_map_iff in Hk. destruct Hk as ([k c] & Hfst & Hin).
        simpl in Hfst; subst k.
        eapply find_none in E; [|exact Hin]. simpl in E. congruence. }
      rewrite Hno. reflexivity.
Qed.

(** A role is in the mapping exactly when it is matchable. *)
Lemma mem_find_matching (columns : list string) (role : string) :
  smem role (find_matching_columns (columns_lower_of columns))
  = matchable columns role.
Proof.
  unfold Dict.mem, matchable. rewrite find_matching_get.
  destruct (sget role patterns) as [pl|]; [|reflexivity].
  destruct (resolve_role pl (columns_lower_of columns)) as [col|] eqn:E.
  - symmetry. apply resolve_role_some. now exists col.
  - symmetry. apply not_true_is_false. intros H.
    apply resolve_role_some in H. destruct H as [col H]. congruence.
Qed.

Lemma missing_cols_unresolved (columns : list string) :
  missing_cols_of (find_matching_columns (columns_lower_of columns))
  = unresolved_roles columns.
Proof.
  unfold missing_cols_of, unresolved_roles.
  apply filter_ext. intros role. now rewrite mem_find_matching.
Qed.

Lemma detect_columns_ok (df : DataFrame) (m : sdict string) :
  detect_columns df = OK m ->
  m = find_matching_columns (columns_lower_of (df_columns df))
  /\ unresolved_roles (df_columns df) = [].
Proof.
  unfold detect_columns. rewrite missing_cols_unresolved.
  destruct (unresolved_roles (df_columns df)); [|discriminate].
  intros E; inversion E. now split.
Qed.

Lemma last_of_its_case_unique (columns : list string) (x y : string) :
  last_of_its_case columns x -> last_of_its_case columns y ->
  lower x = lower y -> x = y.
Proof.
  intros (b1 & a1 & -> & H1) (b2 & a2 & E & H2) Hxy.
  revert b2 E. induction b1 as [|z b1 IH]; intros [|z' b2] E;
    simpl in E; inversion E; subst.
  - reflexivity.
  - exfalso. apply (H1 y); [|congruence].
    apply in_elt.
  - exfalso. apply (H2 x); [|congruence].
    apply in_elt.
  - now apply (IH b2).
Qed.

(** C1 (amended).  When no two column names coincide after lowercasing,
    every role is mapped as the specification words it: its patterns are
    tried in priority order, a pattern maps the role to the first column in
    table order whose lowercased name contains it, and the first pattern
    that has such a column ends the search.  This holds of the mapping that
    the resolver builds and so of the one it returns. *)
Theorem resolver_priority_order (df : DataFrame) (role : string)
    (pl : list string) :
  NoDup (map lower (df_columns df)) ->
  In (role, pl) patterns ->
  sget role (find_matching_columns (columns_lower_of (df_columns df)))
  = by_priority pl (df_columns df)
  /\ (forall m, detect_columns df = OK m ->
                sget role m = by_priority pl (df_columns df)).
Proof.
  intros Hnd Hin.
  assert (H : sget role (find_matching_columns
                           (columns_lower_of (df_columns df)))
              = by_priority pl (df_columns df)).
  { rewrite find_matching_get, (in_patterns_get _ _ Hin).
    rewrite columns_lower_distinct by exact Hnd.
    apply resolve_role_distinct. }
  split; [exact H|].
  intros m Hm. apply detect_columns_ok in Hm. destruct Hm as [-> _].
  exact H.
Qed.

(** C4.  When some mandatory role cannot be matched, resolution fails with
    one error whose message lists every unresolved mandatory role, in the
    order task, start_date, end_date; the list holds exactly the mandatory
    roles that cannot be matched. *)
Theorem missing_roles_reported_together (df : DataFrame) (role : string) :
  In role required_cols ->
  matchable (df_columns df) role = false ->
  detect_columns df
  = Raise (ValueError ("Required columns not found: "
                       ++ join ", " (unresolved_roles (df_columns df))))
  /\ (forall r, In r (unresolved_roles (df_columns df))
                <-> In r required_cols /\ matchable (df_columns df) r = false).
Proof.
  intros Hreq Hno.
  assert (Hall : forall r, In r (unresolved_roles (df_columns df))
                 <-> In r required_cols /\ matchable (df_columns df) r = false).
  { intros r. unfold unresolved_roles. rewrite filter_In.
    now rewrite negb_true_iff. }
  split; [|exact Hall].
  unfold detect_columns. rewrite missing_cols_unresolved.
  destruct (unresolved_roles (df_columns df)) as [|r rs] eqn:E;
    [|reflexivity].
  exfalso. apply (proj2 (Hall role)). now split.
Qed.

(** C5 (amended).  The roles are resolved independently of one another: the
    column of a role in the returned mapping is the one that the scan of
    that role's patterns alone finds, starting from an empty mapping.  A
    column that one role has taken stays available to every other role. *)
Theorem roles_resolved_independently (df : DataFrame) (m : sdict string)
    (role : string) (pl : list string) :
  detect_columns df = OK m ->
  In (role, pl) patterns ->
  sget role m
  = sget role (scan_patterns role pl (columns_lower_of (df_columns df)) []).
Proof.
  intros Hm Hin. apply detect_columns_ok in Hm. destruct Hm as [-> _].
  rewrite find_matching_get, (in_patterns_get _ _ Hin).
  rewrite scan_patterns_get by reflexivity.
  now rewrite String.eqb_refl.
Qed.

(** C10.  Of the columns whose names coincide after lowercasing, the
    resolver keeps one candidate, the last in table order: the dictionary
    of lowercased names has one entry for that name, it holds the spelling
    of the last such column, and no role is ever mapped to an earlier
    column of another spelling. *)
Theorem only_last_spelling_is_candidate (df : DataFrame)
    (before after : list string) (earlier later : string) :
  df_columns df = (before ++ later :: after)%list ->
  (forall c, In c after -> lower c <> lower later) ->
  lower earlier = lower later ->
  earlier <> later ->
  NoDup (Dict.keys (columns_lower_of (df_columns df)))
  /\ sget (lower later) (columns_lower_of (df_columns df)) = Some later
  /\ (forall role m, detect_columns df = OK m -> sget role m <> Some earlier).
Proof.
  intros Hcols Hafter Hcase Hne.
  assert (Hlast : last_of_its_case (df_columns df) later).
  { exists before, after. now split. }
  split; [apply columns_lower_nodup|]. split.
  - assert (Hk : In (lower later) (Dict.keys (columns_lower_of (df_columns df)))).
    { apply columns_lower_keys, in_map. rewrite Hcols. apply in_elt. }
    apply in_map_iff in Hk. destruct Hk as ([k c] & Hfst & Hin).
    simpl in Hfst; subst k.
    destruct (columns_lower_items _ _ _ Hin) as [Hlow Hc].
    assert (c = later)
      by (apply (last_of_its_case_unique (df_columns df)); auto).
    subst c.
    apply (in_get _ String.eqb_spec); [apply columns_lower_nodup|exact Hin].
  - intros role m Hm Hget.
    apply detect_columns_ok in Hm. destruct Hm as [-> _].
    rewrite find_matching_get in Hget.
    destruct (sget role patterns) as [pl|]; [|discriminate].
    apply resolve_role_in in Hget. destruct Hget as [k Hin].
    destruct (columns_lower_items _ _ _ Hin) as [_ Hc].
    apply Hne. apply (last_of_its_case_unique (df_columns df)); auto.
Qed.

(** *** The resolver on concrete headers *)

Ltac distinct_strings :=
  vm_compute;
  repeat (constructor;
          [ let H := fresh in
            intros H; simpl in H; decompose [or] H;
            try discriminate; assumption |]);
  constructor.

Example detect_scenario : detect_columns scenario_df = OK scenario_mapping.
Proof. reflexivity. Qed.

Example detect_description :
  detect_columns (header_only ["phase"; "start"; "end"; "description"])
  = OK [("task", "description"); ("phase", "phase");
        ("start_date", "start"); ("end_date", "end")]
  /\ detect_columns (header_only ["phase"; "start"; "end"])
     = Raise (ValueError "Required columns not found: task").
Proof. split; reflexivity. Qed.

Lemma resolver_priority_order_witness :
  NoDup (map lower (df_columns scenario_df))
  /\ In ("start_date", ["start"; "begin"]) patterns
  /\ detect_columns scenario_df = OK scenario_mapping
  /\ sget "task" scenario_mapping = Some "Task Name"
  /\ sget "start_date" scenario_mapping = Some "Begin"
  /\ sget "end_date" scenario_mapping = Some "Finish".
Proof.
  assert (Hnd : NoDup (map lower (df_columns scenario_df)))
    by distinct_strings.
  assert (Hin : In ("start_date", ["start"; "begin"]) patterns)
    by (simpl; tauto).
  split; [exact Hnd|]. split; [exact Hin|]. split; [reflexivity|].
  split; [reflexivity|]. split; [|reflexivity].
  exact (proj2 (resolver_priority_order scenario_df _ _ Hnd Hin)
           scenario_mapping eq_refl).
Defined.

(** C1 as stated fails when two column names differ only in case: the role
    gets the second spelling, not the first column in table order whose
    lowercased name contains the pattern. *)
Lemma first_column_not_selected :
  detect_columns two_spellings_df = OK two_spellings_mapping
  /\ sget "task" two_spellings_mapping
     <> by_priority ["task"; "name"; "description"]
          (df_columns two_spellings_df).
Proof. split; [reflexivity|vm_compute; discriminate]. Qed.

Lemma missing_roles_reported_together_witness :
  In "task" required_cols
  /\ matchable (df_columns (header_only [])) "task" = false
  /\ detect_columns (header_only [])
     = Raise (ValueError
                "Required columns not found: task, start_date, end_date").
Proof.
  assert (Hin : In "task" required_cols) by (simpl; tauto).
  split; [exact Hin|]. split; [reflexivity|].
  exact (proj1 (missing_roles_reported_together (header_only []) "task"
                  Hin eq_refl)).
Defined.

(** C5 as stated fails: one column is mapped to two roles. *)
Lemma mapping_not_injective :
  detect_columns shared_column_df = OK shared_column_mapping
  /\ ~ injective_mapping shared_column_mapping.
Proof.
  split; [reflexivity|].
  intros H. specialize (H "task" "start_date" "Start Task" eq_refl eq_refl).
  discriminate.
Qed.

Lemma roles_resolved_independently_witness :
  detect_columns shared_column_df = OK shared_column_mapping
  /\ In ("start_date", ["start"; "begin"]) patterns
  /\ sget "start_date" shared_column_mapping = Some "Start Task".
Proof.
  assert (Hin : In ("start_date", ["start"; "begin"]) patterns)
    by (simpl; tauto).
  split; [reflexivity|]. split; [exact Hin|].
  exact (roles_resolved_independently shared_column_df
           shared_column_mapping _ _ eq_refl Hin).
Defined.

Lemma only_last_spelling_is_candidate_witness :
  df_columns two_spellings_df = (["Task"] ++ "TASK" :: ["Start"; "End"])%list
  /\ lower "Task" = lower "TASK"
  /\ "Task" <> "TASK"
  /\ detect_columns two_spellings_df = OK two_spellings_mapping
  /\ sget "task" two_spellings_mapping = Some "TASK"
  /\ sget "task" two_spellings_mapping <> Some "Task".
Proof.
  assert (Hafter : forall c, In c ["Start"; "End"] -> lower c <> lower "TASK").
  { intros c [<-|[<-|[]]]; vm_compute; discriminate. }
  assert (Hne : "Task" <> "TASK") by discriminate.
  split; [reflexivity|]. split; [reflexivity|]. split; [exact Hne|].
  split; [reflexivity|]. split; [reflexivity|].
  exact (proj2 (proj2 (only_last_spelling_is_candidate two_spellings_df
                         ["Task"] ["Start"; "End"] "Task" "TASK"
                         eq_refl Hafter eq_refl Hne))
           "task" two_spellings_mapping eq_refl).
Defined.

(** ** The layout engine *)

(** *** Results and loops *)

Lemma rbind_ok {A B : Type} (r : result A) (f : A -> result B) (b : B) :
  rbind r f = OK b -> exists a, r = OK a /\ f a = OK b.
Proof. destruct r as [a|e]; simpl; [now exists a|discriminate]. Qed.

Lemma mapM_ok {A B : Type} (f : A -> result B) (xs : list A) (ys : list B) :
  mapM f xs = OK ys -> Forall2 (fun x y => f x = OK y) xs ys.
Proof.
  revert ys. induction xs as [|x xs IH]; simpl; intros ys.
  - intros E; inversion E; constructor.
  - destruct (f x) as [y|e] eqn:Ex; [|discriminate].
    destruct (mapM f xs) as [ys'|e]; [|discriminate].
    intros E; inversion E; subst. constructor; [exact Ex|now apply IH].
Qed.

Lemma mapM_total {A B : Type} (f : A -> result B) (xs : list A) (ys : list B) :
  Forall2 (fun x y => f x = OK y) xs ys -> mapM f xs = OK ys.
Proof.
  induction 1 as [|x y xs ys Hxy _ IH]; simpl; [reflexivity|].
  now rewrite Hxy, IH.
Qed.

Lemma Forall2_length_eq {A B : Type} (R : A -> B -> Prop) (xs : list A)
    (ys : list B) :
  Forall2 R xs ys -> List.length xs = List.length ys.
Proof. induction 1; simpl; congruence. Qed.

Lemma Forall2_nth_error {A B : Type} (R : A -> B -> Prop) (xs : list A)
    (ys : list B) (i : nat) (y : B) :
  Forall2 R xs ys -> nth_error ys i = Some y ->
  exists x, nth_error xs i = Some x /\ R x y.
Proof.
  intros H. revert i. induction H as [|x' y' xs ys Hxy _ IH]; intros i.
  - destruct i; discriminate.
  - destruct i as [|i]; simpl.
    + intros E; inversion E; subst. now exists x'.
    + apply IH.
Qed.

Lemma Forall2_in_l {A B : Type} (R : A -> B -> Prop) (xs : list A)
    (ys : list B) (x : A) :
  Forall2 R xs ys -> In x xs -> exists y, In y ys /\ R x y.
Proof.
  induction 1 as [|x' y' xs ys Hxy _ IH]; simpl; [tauto|].
  intros [<-|Hin].
  - exists y'. split; [now left|exact Hxy].
  - destruct (IH Hin) as (y & Hy & HR). exists y. split; [now right|exact HR].
Qed.

Lemma Forall2_in_r {A B : Type} (R : A -> B -> Prop) (xs : list A)
    (ys : list B) (y : B) :
  Forall2 R xs ys -> In y ys -> exists x, In x xs /\ R x y.
Proof.
  induction 1 as [|x' y' xs ys Hxy _ IH]; simpl; [tauto|].
  intros [<-|Hin].
  - exists x'. split; [now left|exact Hxy].
  - destruct (IH Hin) as (x & Hx & HR). exists x. split; [now right|exact HR].
Qed.

Lemma Forall2_map_r {A B C : Type} (R : A -> C -> Prop) (g : B -> C)
    (xs : list A) (ys : list B) :
  Forall2 (fun x y => R x (g y)) xs ys -> Forall2 R xs (map g ys).
Proof. induction 1; simpl; constructor; assumption. Qed.

Lemma Forall2_impl {A B : Type} (R S : A -> B -> Prop) (xs : list A)
    (ys : list B) :
  (forall x y, In x xs -> R x y -> S x y) ->
  Forall2 R xs ys -> Forall2 S xs ys.
Proof.
  intros H HR. induction HR as [|x y xs ys Hxy _ IH]; constructor.
  - apply H; [now left|exact Hxy].
  - apply IH. intros x' y' Hin. apply H. now right.
Qed.

Lemma timestamp_value_ok (c : cell) (t : Z) :
  timestamp_value c = OK t -> c = CTs t.
Proof. destruct c; simpl; intros E; inversion E; reflexivity. Qed.

(** *** The world *)

Section EngineFacts.
Context {pandas : PandasLib}.

Lemma ensure_datetime_run (col : string) (w w' : World) (r : result unit) :
  ensure_datetime col w = (w', r) ->
  open_figures w' = open_figures w
  /\ converted_column col (caller_df w) (caller_df w').
Proof.
  unfold ensure_datetime, bind, get_df, lift, ret, setitem.
  destruct (df_getitem (caller_df w) col) as [s|e] eqn:Es.
  - destruct (is_datetime64_any_dtype s) eqn:Edt.
    + intros H; inversion H; subst. split; [reflexivity|now left].
    + destruct (to_datetime s) as [s'|e] eqn:Ec.
      * intros H; inversion H; subst; simpl. split; [reflexivity|].
        right. now exists s, s'.
      * intros H; inversion H; subst. split; [reflexivity|now left].
  - intros H; inversion H; subst. split; [reflexivity|now left].
Qed.

(** The engine, step by step. *)
Lemma create_gantt_chart_eq (columns : sdict string)
    (custom_colors : option (sdict string)) (bg grid : string) (w : World) :
  create_gantt_chart columns custom_colors bg grid w
  = match sindex columns "task" with
    | Raise e => (w, Raise e)
    | OK task_col =>
    match sindex columns "start_date" with
    | Raise e => (w, Raise e)
    | OK start_col =>
    match sindex columns "end_date" with
    | Raise e => (w, Raise e)
    | OK end_col =>
    match ensure_datetime start_col
            (mkWorld (caller_df w) (S (open_figures w))) with
    | (w1, Raise e) => (w1, Raise e)
    | (w1, OK _) =>
    match ensure_datetime end_col w1 with
    | (w2, Raise e) => (w2, Raise e)
    | (w2, OK _) =>
        (w2, rbind (sort_values (caller_df w2) start_col)
               (fun df => draw df task_col start_col end_col
                            (sget "phase" columns) (sget "duration" columns)
                            custom_colors bg grid))
    end end end end end.
Proof.
  unfold create_gantt_chart, bind, lift, subplots, get_df.
  destruct (sindex columns "task") as [tc|e]; [|reflexivity].
  destruct (sindex columns "start_date") as [sc|e]; [|reflexivity].
  destruct (sindex columns "end_date") as [ec|e]; [|reflexivity].
  destruct (ensure_datetime sc _) as [w1 [[]|e]]; [|reflexivity].
  destruct (ensure_datetime ec w1) as [w2 [[]|e]]; [|reflexivity].
  destruct (sort_values (caller_df w2) sc) as [d|e]; reflexivity.
Qed.

(** What a call does to the world, whatever it returns: nothing if a
    mandatory role is not in [columns]; else it opens one figure and
    converts the start column, then the end column. *)
Lemma create_gantt_chart_world (columns : sdict string)
    (custom_colors : option (sdict string)) (bg grid : string)
    (w w' : World) (r : result Figure) :
  create_gantt_chart columns custom_colors bg grid w = (w', r) ->
  w' = w
  \/ exists start_col end_col df1,
       sindex columns "start_date" = OK start_col
       /\ sindex columns "end_date" = OK end_col
       /\ converted_column start_col (caller_df w) df1
       /\ converted_column end_col df1 (caller_df w')
       /\ open_figures w' = S (open_figures w).
Proof.
  rewrite create_gantt_chart_eq.
  destruct (sindex columns "task") as [tc|e];
    [|intros H; inversion H; now left].
  destruct (sindex columns "start_date") as [sc|e];
    [|intros H; inversion H; now left].
  destruct (sindex columns "end_date") as [ec|e];
    [|intros H; inversion H; now left].
  destruct (ensure_datetime sc _) as [w1 r1] eqn:E1.
  apply ensure_datetime_run in E1. simpl in E1. destruct E1 as [F1 C1].
  destruct r1 as [[]|e].
  - destruct (ensure_datetime ec w1) as [w2 r2] eqn:E2.
    apply ensure_datetime_run in E2. destruct E2 as [F2 C2].
    assert (Hw : forall r', (w2, r') = (w', r) ->
              w' = w \/ exists start_col end_col df1,
                 OK sc = OK start_col /\ OK ec = OK end_col
                 /\ converted_column start_col (caller_df w) df1
                 /\ converted_column end_col df1 (caller_df w')
                 /\ open_figures w' = S (open_figures w)).
    { intros r' H; inversion H; subst. right.
      exists sc, ec, (caller_df w1). repeat split; try assumption.
      congruence. }
    destruct r2 as [[]|e]; apply Hw.
  - intros H; inversion H; subst. right.
    exists sc, ec, (caller_df w'). repeat split; try assumption.
    now left.
Qed.

(** A call that returns a figure has sorted the table it left to the
    caller and has drawn the sorted table. *)
Lemma create_gantt_chart_ok (columns : sdict string)
    (custom_colors : option (sdict string)) (bg grid : string)
    (w w' : World) (fig : Figure) :
  create_gantt_chart columns custom_colors bg grid w = (w', OK fig) ->
  exists task_col start_col end_col df,
    sindex columns "task" = OK task_col
    /\ sindex columns "start_date" = OK start_col
    /\ sindex columns "end_date" = OK end_col
    /\ sort_values (caller_df w') start_col = OK df
    /\ draw df task_col start_col end_col
         (sget "phase" columns) (sget "duration" columns)
         custom_colors bg grid = OK fig.
Proof.
  rewrite create_gantt_chart_eq.
  destruct (sindex columns "task") as [tc|e]; [|discriminate].
  destruct (sindex columns "start_date") as [sc|e]; [|discriminate].
  destruct (sindex columns "end_date") as [ec|e]; [|discriminate].
  destruct (ensure_datetime sc _) as [w1 [[]|e]]; [|discriminate].
  destruct (ensure_datetime ec w1) as [w2 [[]|e]]; [|discriminate].
  destruct (sort_values (caller_df w2) sc) as [d|e] eqn:Es;
    [|discriminate].
  simpl. intros H. injection H as Hw Hr. subst w2.
  exists tc, sc, ec, d.
  split; [reflexivity|]. split; [reflexivity|]. split; [reflexivity|].
  split; [exact Es|exact Hr].
Qed.

(** *** Rows, sorting and drawing *)

Lemma Forall2_compose {A B C : Type} (R : A -> B -> Prop) (S : B -> C -> Prop)
    (T : A -> C -> Prop) (xs : list A) (ys : list B) (zs : list C) :
  (forall x y z, R x y -> S y z -> T x z) ->
  Forall2 R xs ys -> Forall2 S ys zs -> Forall2 T xs zs.
Proof.
  intros H HR. revert zs. induction HR as [|x y xs ys Hxy _ IH]; intros zs HS;
    inversion HS; subst; constructor; eauto.
Qed.

Lemma Forall2_take {A B : Type} (R : A -> B -> Prop) (idx : list nat)
    (xs : list A) (ys : list B) :
  Forall2 R xs ys -> Forall2 R (take idx xs) (take idx ys).
Proof.
  intros H. unfold take. induction idx as [|i idx IH]; simpl; [constructor|].
  apply Forall2_app; [|exact IH].
  clear IH. revert i. induction H as [|x y xs ys Hxy _ IH]; intros i.
  - destruct i; constructor.
  - destruct i as [|i]; simpl; [repeat constructor; exact Hxy|apply IH].
Qed.

Lemma column_stamps_rows (df : DataFrame) (col : string) (ks : list Z) :
  column_stamps df col = OK ks -> Forall2 (stamp_at col) (df_rows df) ks.
Proof.
  unfold column_stamps, df_getitem. intros H.
  apply rbind_ok in H. destruct H as (s & Hs & Hks).
  apply rbind_ok in Hs. destruct Hs as (dt & _ & Hs).
  apply rbind_ok in Hs. destruct Hs as (vs & Hvs & Hs).
  inversion Hs; subst s; simpl in Hks.
  apply mapM_ok in Hvs. apply mapM_ok in Hks.
  eapply Forall2_compose; [|exact Hvs|exact Hks].
  intros r c t Hr Hc. apply timestamp_value_ok in Hc. subst c.
  exact Hr.
Qed.

Lemma stamp_at_unique (col : string) (r : Z * Row) (t t' : Z) :
  stamp_at col r t -> stamp_at col r t' -> t = t'.
Proof. unfold stamp_at. congruence. Qed.

(** The sorted frame: the rows of the table along the indexer of the start
    column, which is a rearrangement that makes the start dates ascend. *)
Lemma sort_values_ok (df d : DataFrame) (start_col : string) :
  sort_values df start_col = OK d ->
  exists ks,
    column_stamps df start_col = OK ks
    /\ df_dtypes d = df_dtypes df
    /\ df_rows d = take (argsort ks) (df_rows df)
    /\ Permutation (df_rows d) (df_rows df)
    /\ Forall2 (stamp_at start_col) (df_rows d) (take (argsort ks) ks)
    /\ StronglySorted Z.le (take (argsort ks) ks).
Proof.
  unfold sort_values. intros H.
  destruct (df_getitem df start_col) as [s|e] eqn:Es; [|discriminate].
  simpl in H.
  destruct (mapM timestamp_value (s_values s)) as [ks|e] eqn:Ek;
    [|discriminate].
  simpl in H. inversion H; subst d. clear H.
  assert (Hks : column_stamps df start_col = OK ks).
  { unfold column_stamps. rewrite Es. exact Ek. }
  exists ks. split; [exact Hks|]. split; [reflexivity|].
  split; [reflexivity|]. simpl.
  pose proof (column_stamps_rows _ _ _ Hks) as Hrows.
  split; [|split].
  - apply take_perm.
    rewrite (Forall2_length_eq _ _ _ Hrows). apply argsort_perm.
  - now apply Forall2_take.
  - apply argsort_sorted.
Qed.

Lemma clamp_max (d : Z) : (if d <=? 0 then 1 else d) = Z.max 1 d.
Proof. destruct (Z.leb_spec d 0); lia. Qed.

Lemma plot_row_ok (n : nat) (task_col start_col end_col : string)
    (phase_col duration_col : option string)
    (color_map : list (cell * color)) (ir : nat * (Z * Row)) (p : Plotted) :
  plot_row n task_col start_col end_col phase_col duration_col color_map ir
  = OK p ->
  drawn n task_col start_col end_col phase_col duration_col color_map ir p.
Proof.
  unfold plot_row, drawn, stamp_at. intros H.
  destruct (sindex (snd (snd ir)) task_col) as [task|] eqn:Et;
    [|discriminate].
  destruct (sindex (snd (snd ir)) start_col) as [sc|] eqn:Es;
    [|discriminate].
  destruct (sindex (snd (snd ir)) end_col) as [ec|] eqn:Ee;
    [|discriminate].
  simpl in H.
  destruct (timestamp_value sc) as [s|] eqn:Ets; [|discriminate].
  destruct (timestamp_value ec) as [e|] eqn:Ete; [|discriminate].
  apply timestamp_value_ok in Ets, Ete. subst sc ec. simpl in H.
  exists task, s, e.
  destruct phase_col as [pc|].
  - destruct (sindex (snd (snd ir)) pc) as [phase|] eqn:Ep; [|discriminate].
    simpl in H.
    destruct duration_col as [dc|].
    + destruct (sindex (snd (snd ir)) dc) as [c|]; [|discriminate].
      simpl in H. inversion H; subst p; simpl.
      rewrite clamp_max. repeat split; try reflexivity.
      exists phase. now split.
    + simpl in H. inversion H; subst p; simpl.
      rewrite clamp_max. repeat split; try reflexivity.
      exists phase. now split.
  - simpl in H.
    destruct duration_col as [dc|].
    + destruct (sindex (snd (snd ir)) dc) as [c|]; [|discriminate].
      simpl in H. inversion H; subst p; simpl.
      rewrite clamp_max. repeat split; reflexivity.
    + simpl in H. inversion H; subst p; simpl.
      rewrite clamp_max. repeat split; reflexivity.
Qed.

(** What a figure that [draw] returns is made of. *)
Lemma draw_ok (df : DataFrame) (task_col start_col end_col : string)
    (phase_col duration_col : option string)
    (custom_colors : option (sdict string)) (bg grid : string)
    (fig : Figure) :
  draw df task_col start_col end_col phase_col duration_col custom_colors
    bg grid = OK fig ->
  exists phases plotted starts ends weeks months legend,
    phases_of df phase_col phases
    /\ Forall2 (drawn (df_len df) task_col start_col end_col
                  (present_col df phase_col) (present_col df duration_col)
                  (color_map_for df phase_col custom_colors phases))
         (enumerate (df_rows df)) plotted
    /\ column_stamps df start_col = OK starts
    /\ column_stamps df end_col = OK ends
    /\ date_range (min_stamp starts) (max_stamp ends) W = OK weeks
    /\ date_range (min_stamp starts) (max_stamp ends) MS = OK months
    /\ fig = mkFigure bg
               (mkAxes bg (map p_bar plotted) (map p_text plotted)
                  (map p_y plotted) (map p_tick plotted) grid
                  (gridlines grid weeks months)
                  "Project Timeline" "Date" legend).
Proof.
  unfold draw, phases_of, color_map_for. intros H.
  apply rbind_ok in H. destruct H as (phases & Hph & H).
  apply rbind_ok in H. destruct H as (plotted & Hpl & H).
  apply rbind_ok in H. destruct H as (starts & Hst & H).
  apply rbind_ok in H. destruct H as (ends & Hen & H).
  apply rbind_ok in H. destruct H as (weeks & Hw & H).
  apply rbind_ok in H. destruct H as (months & Hm & H).
  apply rbind_ok in H. destruct H as (legend & _ & H).
  exists phases, plotted, starts, ends, weeks, months, legend.
  split; [|split; [|split; [|split; [|split; [|split]]]]];
    try assumption.
  - destruct (present_col df phase_col) as [pc|].
    + apply rbind_ok in Hph. destruct Hph as (s & Hs & Hph).
      now exists s.
    + now inversion Hph.
  - apply mapM_ok in Hpl.
    eapply Forall2_impl; [|exact Hpl].
    intros ir p _. apply plot_row_ok.
  - now inversion H.
Qed.

Lemma Forall2_combine_seq {A B : Type} (R : nat * A -> B -> Prop)
    (S : A -> B -> Prop) (xs : list A) (ys : list B) (a : nat) :
  (forall i x y, R (i, x) y -> S x y) ->
  Forall2 R (combine (seq a (List.length xs)) xs) ys -> Forall2 S xs ys.
Proof.
  intros H. revert a ys. induction xs as [|x xs IH]; intros a ys HR;
    simpl in HR; inversion HR; subst; constructor; eauto.
Qed.

Lemma nth_error_combine_seq {A : Type} (xs : list A) (a i j : nat) (x : A) :
  nth_error (combine (seq a (List.length xs)) xs) i = Some (j, x) ->
  j = (a + i)%nat /\ nth_error xs i = Some x.
Proof.
  revert a i. induction xs as [|y xs IH]; intros a i; simpl.
  - destruct i; discriminate.
  - destruct i as [|i]; simpl.
    + intros E; inversion E; subst. split; [lia|reflexivity].
    + intros E. apply IH in E. destruct E as [-> E]. split; [lia|exact E].
Qed.

(** The [i]-th thing drawn is drawn for the [i]-th row of the sorted
    frame. *)
Lemma Forall2_enumerate_nth {A B : Type} (R : nat * A -> B -> Prop)
    (xs : list A) (ys : list B) (i : nat) (y : B) :
  Forall2 R (enumerate xs) ys -> nth_error ys i = Some y ->
  exists x, nth_error xs i = Some x /\ R (i, x) y.
Proof.
  intros H Hy.
  destruct (Forall2_nth_error _ _ _ _ _ H Hy) as ([j x] & Hx & HR).
  apply nth_error_combine_seq in Hx. destruct Hx as [-> Hx].
  exists x. split; [exact Hx|exact HR].
Qed.

Lemma create_gantt_chart_layout (columns : sdict string)
    (custom_colors : option (sdict string)) (bg grid : string)
    (w w' : World) (fig : Figure) :
  create_gantt_chart columns custom_colors bg grid w = (w', OK fig) ->
  exists t, Layout columns custom_colors grid (caller_df w') fig t.
Proof.
  intros H. apply create_gantt_chart_ok in H.
  destruct H as (tc & sc & ec & d & Ht & Hs & He & Hsort & Hdraw).
  apply sort_values_ok in Hsort.
  destruct Hsort as (ks & Hks & Hdt & _ & Hperm & Hkeys & Hasc).
  apply draw_ok in Hdraw.
  destruct Hdraw as (phases & plotted & starts & ends & weeks & months
                     & legend & Hph & Hpl & Hst & Hen & Hw & Hm & ->).
  exists (mkTrace tc sc ec d ks phases plotted starts ends weeks months).
  now constructor.
Qed.

Lemma Forall2_eq_map {A B : Type} (f : A -> B) (xs : list A) (ys : list B) :
  Forall2 (fun x y => f x = y) xs ys -> map f xs = ys.
Proof. induction 1; simpl; congruence. Qed.

Lemma Forall2_flip {A B : Type} (R : A -> B -> Prop) (xs : list A)
    (ys : list B) :
  Forall2 R xs ys -> Forall2 (fun y x => R x y) ys xs.
Proof. induction 1; constructor; assumption. Qed.

Lemma map_fst_combine_same {A B : Type} (xs : list A) (ys : list B) :
  List.length ys = List.length xs -> map fst (combine xs ys) = xs.
Proof.
  revert ys. induction xs as [|x xs IH]; intros [|y ys]; simpl;
    try discriminate; try reflexivity.
  intros E. f_equal. apply IH. congruence.
Qed.

Lemma sorted_nth_le (l : list Z) (i j : nat) (a b : Z) :
  StronglySorted Z.le l -> (i <= j)%nat ->
  nth_error l i = Some a -> nth_error l j = Some b -> a <= b.
Proof.
  intros Hs. revert i j. induction Hs as [|x l Hs IH Hall]; intros i j Hij.
  - destruct i; discriminate.
  - destruct i as [|i], j as [|j]; simpl; try lia.
    + intros E1 E2. inversion E1; inversion E2; subst. lia.
    + intros E1 E2. inversion E1; subst.
      apply nth_error_In in E2.
      rewrite Forall_forall in Hall. now apply Hall.
    + apply IH. lia.
Qed.

(** The rows of the sorted frame and what was drawn for them, without the
    positions. *)
Lemma layout_rows (columns : sdict string)
    (custom_colors : option (sdict string)) (grid : string)
    (table : DataFrame) (fig : Figure) (t : Trace) :
  Layout columns custom_colors grid table fig t ->
  Forall2 (fun r p =>
             exists i, drawn (df_len (t_sorted t))
                         (t_task_col t) (t_start_col t) (t_end_col t)
                         (present_col (t_sorted t) (sget "phase" columns))
                         (present_col (t_sorted t) (sget "duration" columns))
                         (color_map_for (t_sorted t) (sget "phase" columns)
                            custom_colors (t_phases t))
                         (i, r) p)
    (df_rows (t_sorted t)) (t_plotted t).
Proof.
  intros L. eapply Forall2_combine_seq; [|exact (l_drawn _ _ _ _ _ _ L)].
  intros i r p H. now exists i.
Qed.

Lemma layout_lefts (columns : sdict string)
    (custom_colors : option (sdict string)) (grid : string)
    (table : DataFrame) (fig : Figure) (t : Trace) :
  Layout columns custom_colors grid table fig t ->
  map bar_left (ax_bars (fig_axes fig)) = take (argsort (t_keys t)) (t_keys t).
Proof.
  intros L. rewrite (l_bars _ _ _ _ _ _ L), map_map.
  apply Forall2_eq_map.
  eapply Forall2_compose;
    [|exact (Forall2_flip _ _ _ (layout_rows _ _ _ _ _ _ L))
     |exact (l_sorted_keys _ _ _ _ _ _ L)].
  intros p r k (i & task & s & e & _ & Hs & _ & _ & _ & _ & Hl & _) Hk.
  simpl in Hs. rewrite Hl. exact (stamp_at_unique _ _ _ _ Hs Hk).
Qed.

Lemma layout_length (columns : sdict string)
    (custom_colors : option (sdict string)) (grid : string)
    (table : DataFrame) (fig : Figure) (t : Trace) :
  Layout columns custom_colors grid table fig t ->
  df_len (t_sorted t) = df_len table
  /\ List.length (t_plotted t) = df_len table.
Proof.
  intros L.
  assert (H : df_len (t_sorted t) = df_len table).
  { unfold df_len. apply Permutation_length, (l_perm _ _ _ _ _ _ L). }
  split; [exact H|].
  rewrite <- H. symmetry. unfold df_len.
  exact (Forall2_length_eq _ _ _ (layout_rows _ _ _ _ _ _ L)).
Qed.

Lemma converted_column_labels (col : string) (df df' : DataFrame) :
  converted_column col df df' ->
  map fst (df_rows df') = map fst (df_rows df).
Proof.
  intros [->|(s & s' & Hs & _ & Hc & ->)]; [reflexivity|].
  unfold df_setitem; simpl. rewrite map_map; simpl.
  rewrite <- map_map. f_equal. apply map_fst_combine_same.
  unfold to_datetime in Hc. apply rbind_ok in Hc.
  destruct Hc as (vs & Hvs & Hc). inversion Hc; subst s'; simpl.
  apply mapM_ok, Forall2_length_eq in Hvs. rewrite <- Hvs.
  unfold df_getitem in Hs. apply rbind_ok in Hs.
  destruct Hs as (dt & _ & Hs). apply rbind_ok in Hs.
  destruct Hs as (cs & Hcs & Hs). inversion Hs; subst s; simpl.
  apply mapM_ok, Forall2_length_eq in Hcs. now symmetry.
Qed.

(** A call keeps the rows of the caller's table in place, with their
    labels. *)
Lemma create_gantt_chart_labels (columns : sdict string)
    (custom_colors : option (sdict string)) (bg grid : string)
    (w w' : World) (r : result Figure) :
  create_gantt_chart columns custom_colors bg grid w = (w', r) ->
  map fst (df_rows (caller_df w')) = map fst (df_rows (caller_df w)).
Proof.
  intros H. apply create_gantt_chart_world in H.
  destruct H as [->|(sc & ec & df1 & _ & _ & C1 & C2 & _)]; [reflexivity|].
  apply converted_column_labels in C1, C2. congruence.
Qed.

Lemma create_gantt_chart_len (columns : sdict string)
    (custom_colors : option (sdict string)) (bg grid : string)
    (w w' : World) (r : result Figure) :
  create_gantt_chart columns custom_colors bg grid w = (w', r) ->
  df_len (caller_df w') = df_len (caller_df w).
Proof.
  intros H. apply create_gantt_chart_labels in H.
  unfold df_len. rewrite <- (length_map fst), H. apply length_map.
Qed.

End EngineFacts.

(** ** Properties of the layout *)

Lemma clamp_cases (s e : Z) :
  (e <= s -> Z.max 1 (timedelta_days (e - s)) = 1)
  /\ (ns_per_day <= e - s ->
      Z.max 1 (timedelta_days (e - s)) = timedelta_days (e - s))
  /\ (s < e -> is_calendar_date s -> is_calendar_date e ->
      Z.max 1 (timedelta_days (e - s)) = timedelta_days (e - s)).
Proof.
  unfold timedelta_days, is_calendar_date, ns_per_day.
  split; [|split].
  - intros H.
    assert ((e - s) / 86400000000000 <= 0)
      by (apply Z.div_le_upper_bound; lia).
    lia.
  - intros H.
    assert (1 <= (e - s) / 86400000000000)
      by (apply Z.div_le_lower_bound; lia).
    lia.
  - intros Hlt Hs He.
    assert (Hm : (e - s) mod 86400000000000 = 0).
    { rewrite Zminus_mod, Hs, He. reflexivity. }
    pose proof (Z.div_mod (e - s) 86400000000000 ltac:(lia)) as Hd.
    rewrite Hm in Hd. lia.
Qed.

Section Claims.
Context {pandas : PandasLib}.

(** C3 (amended).  Every bar is drawn for one row of the table: it begins
    at the start date that the row holds and its width in days is
    [max(1, (end - start).days)], which is 1 whenever [end <= start] and
    [(end - start).days] whenever [end] is a whole day or more after
    [start], so whenever [end > start] for calendar dates.  The rows of
    the table left to the caller still hold that start and that end: the
    clamp shows in the width of the bar alone. *)
Theorem bar_width_is_clamped_duration (columns : sdict string)
    (custom_colors : option (sdict string)) (bg grid : string)
    (df : DataFrame) (w' : World) (fig : Figure) :
  call (create_gantt_chart columns custom_colors bg grid) df = (w', OK fig) ->
  exists start_col end_col rows,
    sindex columns "start_date" = OK start_col
    /\ sindex columns "end_date" = OK end_col
    /\ Permutation rows (df_rows (caller_df w'))
    /\ Forall2 (fun r b => exists s e,
                    stamp_at start_col r s /\ stamp_at end_col r e
                    /\ bar_spans s e b)
         rows (ax_bars (fig_axes fig)).
Proof.
  intros H. apply create_gantt_chart_layout in H. destruct H as [t L].
  exists (t_start_col t), (t_end_col t), (df_rows (t_sorted t)).
  split; [exact (l_start _ _ _ _ _ _ L)|].
  split; [exact (l_end _ _ _ _ _ _ L)|].
  split; [exact (l_perm _ _ _ _ _ _ L)|].
  rewrite (l_bars _ _ _ _ _ _ L). apply Forall2_map_r.
  eapply Forall2_impl; [|exact (layout_rows _ _ _ _ _ _ L)].
  intros r p _ (i & task & s & e & _ & Hs & He & _ & _ & _ & Hl & Hw & _).
  exists s, e. split; [exact Hs|]. split; [exact He|].
  unfold bar_spans. rewrite Hw.
  destruct (clamp_cases s e) as (H1 & H2 & H3). auto.
Qed.

(** C2 (amended).  The bars are drawn in ascending order of start date,
    one for each row of the table, and the [i]-th bar (from 0) is placed at
    slot [N - 1 - i], [N] being the number of rows: a task that starts
    strictly earlier than another gets a strictly greater slot, and the
    earliest task is topmost.  The order among tasks with equal start
    dates is the one that the default sort of pandas yields, which need
    not be the row order. *)
Theorem earliest_task_on_top (columns : sdict string)
    (custom_colors : option (sdict string)) (bg grid : string)
    (df : DataFrame) (w' : World) (fig : Figure) :
  call (create_gantt_chart columns custom_colors bg grid) df = (w', OK fig) ->
  let bars := ax_bars (fig_axes fig) in
  let N := Z.of_nat (df_len df) in
  exists start_col rows,
    sindex columns "start_date" = OK start_col
    /\ Permutation rows (df_rows (caller_df w'))
    /\ Forall2 (fun r b => stamp_at start_col r (bar_left b)) rows bars
    /\ StronglySorted Z.le (map bar_left bars)
    /\ (forall i b, nth_error bars i = Some b -> bar_y b = N - 1 - Z.of_nat i)
    /\ (forall b1 b2, In b1 bars -> In b2 bars ->
          bar_left b1 < bar_left b2 -> bar_y b2 < bar_y b1)
    /\ ax_yticks (fig_axes fig) = map bar_y bars.
Proof.
  intros H bars N.
  pose proof (create_gantt_chart_len _ _ _ _ _ _ _ H) as Hlen.
  simpl in Hlen.
  apply create_gantt_chart_layout in H. destruct H as [t L].
  destruct (layout_length _ _ _ _ _ _ L) as [Hn _].
  assert (Hsorted : StronglySorted Z.le (map bar_left bars)).
  { unfold bars. rewrite (layout_lefts _ _ _ _ _ _ L).
    exact (l_ascending _ _ _ _ _ _ L). }
  assert (Hslot : forall i b, nth_error bars i = Some b ->
                    bar_y b = N - 1 - Z.of_nat i).
  { intros i b Hb. unfold bars in Hb.
    rewrite (l_bars _ _ _ _ _ _ L), nth_error_map in Hb.
    destruct (nth_error (t_plotted t) i) as [p|] eqn:Ep; [|discriminate].
    inversion Hb; subst b.
    destruct (Forall2_enumerate_nth _ _ _ _ _ (l_drawn _ _ _ _ _ _ L) Ep)
      as (r & _ & task & s & e & _ & _ & _ & _ & _ & Hy & _).
    rewrite Hy. simpl. unfold N. rewrite Hn, Hlen. reflexivity. }
  exists (t_start_col t), (df_rows (t_sorted t)).
  split; [exact (l_start _ _ _ _ _ _ L)|].
  split; [exact (l_perm _ _ _ _ _ _ L)|].
  split; [|split; [exact Hsorted|split; [exact Hslot|split]]].
  - unfold bars. rewrite (l_bars _ _ _ _ _ _ L). apply Forall2_map_r.
    eapply Forall2_impl; [|exact (layout_rows _ _ _ _ _ _ L)].
    intros r p _ (i & task & s & e & _ & Hs & _ & _ & _ & _ & Hl & _).
    simpl in Hs. now rewrite Hl.
  - intros b1 b2 H1 H2 Hlt.
    apply In_nth_error in H1, H2.
    destruct H1 as [i1 H1], H2 as [i2 H2].
    rewrite (Hslot _ _ H1), (Hslot _ _ H2).
    destruct (Nat.lt_ge_cases i1 i2) as [Hi|Hi]; [lia|].
    exfalso.
    assert (bar_left b2 <= bar_left b1); [|lia].
    apply (sorted_nth_le _ i2 i1 _ _ Hsorted Hi);
      rewrite nth_error_map; [now rewrite H2|now rewrite H1].
  - unfold bars.
    rewrite (l_yticks _ _ _ _ _ _ L), (l_bars _ _ _ _ _ _ L), map_map.
    apply Forall2_eq_map, Forall2_flip.
    assert (HF : Forall2 (fun r p => p_y p = bar_y (p_bar p))
                   (df_rows (t_sorted t)) (t_plotted t)).
    { eapply Forall2_impl; [|exact (layout_rows _ _ _ _ _ _ L)].
      intros r p _ (i & task & s & e & _ & _ & _ & Hy & _ & Hb & _).
      congruence. }
    clear - HF. induction HF; constructor; auto.
Qed.

End Claims.

(** *** The layout of concrete tables *)

Definition chart (pandas : PandasLib) (df : DataFrame)
    : World * result Figure :=
  call (create_gantt_chart (pandas := pandas) role_mapping None
          default_background default_grid) df.

Example detect_date_columns : detect_columns two_tasks_df = OK role_mapping.
Proof. reflexivity. Qed.

Lemma bar_width_is_clamped_duration_witness :
  chart pandas_stable one_day_df
  = (fst (chart pandas_stable one_day_df),
     OK (returned (chart pandas_stable one_day_df)))
  /\ ax_bars (fig_axes (returned (chart pandas_stable one_day_df)))
     = [mkBar 0 1 (midnight 2025 1 1) (1 # 2) (ColorName "steelblue")
          "black" (4 # 5)]
  /\ exists start_col end_col rows,
       sindex role_mapping "start_date" = OK start_col
       /\ sindex role_mapping "end_date" = OK end_col
       /\ Permutation rows
            (df_rows (caller_df (fst (chart pandas_stable one_day_df))))
       /\ Forall2 (fun r b => exists s e,
                       stamp_at start_col r s /\ stamp_at end_col r e
                       /\ bar_spans s e b)
            rows
            (ax_bars (fig_axes (returned (chart pandas_stable one_day_df)))).
Proof.
  assert (H : chart pandas_stable one_day_df
              = (fst (chart pandas_stable one_day_df),
                 OK (returned (chart pandas_stable one_day_df))))
    by (vm_compute; reflexivity).
  split; [exact H|]. split; [vm_compute; reflexivity|].
  exact (bar_width_is_clamped_duration (pandas := pandas_stable)
           role_mapping None default_background default_grid one_day_df
           _ _ H).
Defined.

(** C3 as stated fails for a task that ends later than it starts, on the
    same day: its bar is 1 day wide, which is not [(end - start).days],
    0. *)
Lemma width_is_not_days_within_a_day :
  map bar_width
    (ax_bars (fig_axes (returned (chart pandas_stable half_day_df)))) = [1]
  /\ midnight 2025 1 1 < midnight 2025 1 1 + ns_per_day / 2
  /\ timedelta_days (midnight 2025 1 1 + ns_per_day / 2 - midnight 2025 1 1)
     = 0.
Proof. repeat split; vm_compute; reflexivity. Qed.

Lemma earliest_task_on_top_witness :
  chart pandas_stable two_tasks_df
  = (fst (chart pandas_stable two_tasks_df),
     OK (returned (chart pandas_stable two_tasks_df)))
  /\ ax_yticklabels (fig_axes (returned (chart pandas_stable two_tasks_df)))
     = [CStr "B"; CStr "A"]
  /\ ax_yticks (fig_axes (returned (chart pandas_stable two_tasks_df)))
     = [1; 0]
  /\ StronglySorted Z.le
       (map bar_left
          (ax_bars (fig_axes (returned (chart pandas_stable two_tasks_df))))).
Proof.
  assert (H : chart pandas_stable two_tasks_df
              = (fst (chart pandas_stable two_tasks_df),
                 OK (returned (chart pandas_stable two_tasks_df))))
    by (vm_compute; reflexivity).
  split; [exact H|]. split; [vm_compute; reflexivity|].
  split; [vm_compute; reflexivity|].
  destruct (earliest_task_on_top (pandas := pandas_stable)
              role_mapping None default_background default_grid two_tasks_df
              _ _ H) as (sc & rows & _ & _ & _ & Hs & _).
  exact Hs.
Defined.

(** C2 as stated fails for the ties: of eighteen tasks that all start on
    the same day, the quicksort of numpy, which [sort_values] runs, does
    not keep the row order; the bars from top to bottom are for all the
    tasks A to R, but not in the order of their rows. *)
Lemma ties_not_in_row_order :
  column_stamps tied_df "Start" = OK (repeat (midnight 2025 3 1) 18)
  /\ chart numpy_quicksort tied_df
     = (mkWorld tied_df 1, OK (returned (chart numpy_quicksort tied_df)))
  /\ ax_yticks (fig_axes (returned (chart numpy_quicksort tied_df)))
     = map Z.of_nat (rev (seq 0 18))
  /\ Permutation
       (ax_yticklabels (fig_axes (returned (chart numpy_quicksort tied_df))))
       (map CStr tied_names)
  /\ ax_yticklabels (fig_axes (returned (chart numpy_quicksort tied_df)))
     <> map CStr tied_names.
Proof.
  split; [vm_compute; reflexivity|]. split; [vm_compute; reflexivity|].
  split; [vm_compute; reflexivity|].
  assert (E : ax_yticklabels
                (fig_axes (returned (chart numpy_quicksort tied_df)))
              = map CStr
                  (take (numpy_argsort (repeat (midnight 2025 3 1) 18))
                     tied_names))
    by (vm_compute; reflexivity).
  rewrite E. split.
  - apply Permutation_map, take_perm. apply numpy_argsort_perm.
  - vm_compute. discriminate.
Qed.

(** *** Gridlines *)

Lemma date_range_in (f : freq) (lo hi : Z) (l : list Z) (t : Z) :
  date_range (Some lo) (Some hi) f = OK l ->
  In t l <-> on_grid f lo hi t.
Proof.
  unfold date_range, on_grid. intros E; inversion E; subst l; clear E.
  rewrite filter_In, in_map_iff. split.
  - intros [(k & Hk & Hin) Hon]. apply in_seq in Hin.
    split; [|split; [exists (Z.of_nat k); split; [lia|now symmetry]|exact Hon]].
    unfold ns_per_day in *.
    assert (Z.of_nat k < (hi - lo) / 86400000000000 + 1) by lia.
    Z.div_mod_to_equations. nia.
  - intros (Hb & (k & Hk & ->) & Hon). split; [|exact Hon].
    exists (Z.to_nat k). split; [now rewrite Z2Nat.id|].
    apply in_seq. split; [lia|]. simpl.
    unfold ns_per_day in *.
    assert (k < (hi - lo) / 86400000000000 + 1); [|lia].
    Z.div_mod_to_equations. nia.
Qed.

Lemma date_of_days (t k : Z) : date_of (t + k * ns_per_day) = date_of t + k.
Proof. unfold date_of, ns_per_day. now rewrite Z.div_add. Qed.

Lemma weekly_step (lo hi t t' : Z) :
  on_grid W lo hi t -> on_grid W lo hi t' -> t < t' ->
  exists n, 0 < n /\ t' = t + n * (7 * ns_per_day).
Proof.
  intros (_ & (k & Hk & ->) & H1) (_ & (k' & Hk' & ->) & H2) Hlt.
  simpl in H1, H2. rewrite date_of_days in H1, H2. unfold weekday in *.
  apply Z.eqb_eq in H1, H2.
  exists ((k' - k) / 7).
  assert (Hkk : k < k') by (unfold ns_per_day in Hlt; lia).
  revert H1 H2. generalize (date_of lo). intros d H1 H2.
  assert ((k' - k) mod 7 = 0) by (Z.div_mod_to_equations; lia).
  assert (k' - k = 7 * ((k' - k) / 7))
    by (Z.div_mod_to_equations; lia).
  split; [lia|]. unfold ns_per_day. lia.
Qed.

Lemma weekly_next (lo hi t : Z) :
  on_grid W lo hi t -> t + 7 * ns_per_day <= hi ->
  on_grid W lo hi (t + 7 * ns_per_day).
Proof.
  intros ((Hlo & _) & (k & Hk & ->) & H) Hhi.
  split; [unfold ns_per_day in *; lia|]. split.
  - exists (k + 7). split; [lia|]. unfold ns_per_day; lia.
  - unfold on_offset in *. rewrite date_of_days in H.
    replace (lo + k * ns_per_day + 7 * ns_per_day)
      with (lo + (k + 7) * ns_per_day) by (unfold ns_per_day; lia).
    rewrite date_of_days. unfold weekday in *.
    apply Z.eqb_eq in H. apply Z.eqb_eq.
    replace (date_of lo + (k + 7) + 3) with (date_of lo + k + 3 + 1 * 7) by lia.
    now rewrite Z.mod_add.
Qed.

Lemma fold_min_spec (ts : list Z) (t0 : Z) :
  let m := fold_left Z.min ts t0 in
  In m (t0 :: ts) /\ forall t, In t (t0 :: ts) -> m <= t.
Proof.
  revert t0. induction ts as [|t ts IH]; intros t0; simpl.
  - split; [now left|]. intros t [<-|[]]; lia.
  - destruct (IH (Z.min t0 t)) as [Hin Hle]. simpl in Hin, Hle. split.
    + destruct Hin as [E|Hin]; [|tauto].
      rewrite <- E. destruct (Z.min_spec t0 t) as [[_ ->]|[_ ->]]; tauto.
    + intros x [E|[E|Hx]].
      * subst x. specialize (Hle (Z.min t0 t) (or_introl eq_refl)). lia.
      * subst x. specialize (Hle (Z.min t0 t) (or_introl eq_refl)). lia.
      * apply Hle. now right.
Qed.

Lemma fold_max_spec (ts : list Z) (t0 : Z) :
  let m := fold_left Z.max ts t0 in
  In m (t0 :: ts) /\ forall t, In t (t0 :: ts) -> t <= m.
Proof.
  revert t0. induction ts as [|t ts IH]; intros t0; simpl.
  - split; [now left|]. intros t [<-|[]]; lia.
  - destruct (IH (Z.max t0 t)) as [Hin Hle]. simpl in Hin, Hle. split.
    + destruct Hin as [E|Hin]; [|tauto].
      rewrite <- E. destruct (Z.max_spec t0 t) as [[_ ->]|[_ ->]]; tauto.
    + intros x [E|[E|Hx]].
      * subst x. specialize (Hle (Z.max t0 t) (or_introl eq_refl)). lia.
      * subst x. specialize (Hle (Z.max t0 t) (or_introl eq_refl)). lia.
      * apply Hle. now right.
Qed.

Lemma min_stamp_spec (ts : list Z) (lo : Z) :
  min_stamp ts = Some lo -> In lo ts /\ forall t, In t ts -> lo <= t.
Proof.
  destruct ts as [|t0 ts]; simpl; [discriminate|].
  intros E; inversion E. apply fold_min_spec.
Qed.

Lemma max_stamp_spec (ts : list Z) (hi : Z) :
  max_stamp ts = Some hi -> In hi ts /\ forall t, In t ts -> t <= hi.
Proof.
  destruct ts as [|t0 ts]; simpl; [discriminate|].
  intros E; inversion E. apply fold_max_spec.
Qed.

Section Gridlines.
Context {pandas : PandasLib}.

(** C6 (amended).  With [lo] the earliest start date and [hi] the latest
    end date of the table, the figure holds the weekly gridlines, then the
    monthly ones.  The weekly dates are exactly the timestamps between
    [lo] and [hi], whole days after [lo], that fall on a Sunday; two of
    them are a multiple of 7 days apart and each is followed 7 days later
    by the next one while that is not after [hi].  The monthly dates are
    exactly those that fall on the first day of a month.  Weekly lines
    are dashed with opacity 0.3, monthly lines solid with opacity 0.2. *)
Theorem gridlines_weekly_and_monthly (columns : sdict string)
    (custom_colors : option (sdict string)) (bg grid : string)
    (df : DataFrame) (w' : World) (fig : Figure) :
  call (create_gantt_chart columns custom_colors bg grid) df = (w', OK fig) ->
  exists start_col end_col lo hi weeks months,
    sindex columns "start_date" = OK start_col
    /\ sindex columns "end_date" = OK end_col
    /\ (exists r, In r (df_rows (caller_df w')) /\ stamp_at start_col r lo)
    /\ (forall r s, In r (df_rows (caller_df w')) ->
                    stamp_at start_col r s -> lo <= s)
    /\ (exists r, In r (df_rows (caller_df w')) /\ stamp_at end_col r hi)
    /\ (forall r e, In r (df_rows (caller_df w')) ->
                    stamp_at end_col r e -> e <= hi)
    /\ ax_vlines (fig_axes fig)
       = (map (fun d => mkVLine d grid "--" (3 # 10)) weeks
          ++ map (fun d => mkVLine d grid "-" (2 # 10)) months)%list
    /\ (forall t, In t weeks <-> on_grid W lo hi t)
    /\ (forall t, In t months <-> on_grid MS lo hi t)
    /\ (forall t t', In t weeks -> In t' weeks -> t < t' ->
          exists n, 0 < n /\ t' = t + n * (7 * ns_per_day))
    /\ (forall t, In t weeks -> t + 7 * ns_per_day <= hi ->
          In (t + 7 * ns_per_day) weeks).
Proof.
  intros H. apply create_gantt_chart_layout in H. destruct H as [t L].
  pose proof (l_weeks_of _ _ _ _ _ _ L) as Hw.
  pose proof (l_months_of _ _ _ _ _ _ L) as Hm.
  destruct (min_stamp (t_starts t)) as [lo|] eqn:Elo; [|discriminate].
  destruct (max_stamp (t_ends t)) as [hi|] eqn:Ehi; [|discriminate].
  apply min_stamp_spec in Elo. destruct Elo as [Hlo Hmin].
  apply max_stamp_spec in Ehi. destruct Ehi as [Hhi Hmax].
  pose proof (column_stamps_rows _ _ _ (l_starts_of _ _ _ _ _ _ L)) as Hs.
  pose proof (column_stamps_rows _ _ _ (l_ends_of _ _ _ _ _ _ L)) as He.
  pose proof (l_perm _ _ _ _ _ _ L) as Hperm.
  exists (t_start_col t), (t_end_col t), lo, hi, (t_weeks t), (t_months t).
  split; [exact (l_start _ _ _ _ _ _ L)|].
  split; [exact (l_end _ _ _ _ _ _ L)|].
  split; [|split; [|split; [|split; [|split; [|split; [|split; [|split]]]]]]].
  - destruct (Forall2_in_r _ _ _ _ Hs Hlo) as (r & Hr & Hst).
    exists r. split; [|exact Hst]. eapply Permutation_in; eassumption.
  - intros r s Hr Hst.
    apply (Permutation_in _ (Permutation_sym Hperm)) in Hr.
    destruct (Forall2_in_l _ _ _ _ Hs Hr) as (s' & Hs' & Hst').
    rewrite (stamp_at_unique _ _ _ _ Hst Hst'). now apply Hmin.
  - destruct (Forall2_in_r _ _ _ _ He Hhi) as (r & Hr & Hst).
    exists r. split; [|exact Hst]. eapply Permutation_in; eassumption.
  - intros r e Hr Hst.
    apply (Permutation_in _ (Permutation_sym Hperm)) in Hr.
    destruct (Forall2_in_l _ _ _ _ He Hr) as (e' & He' & Hst').
    rewrite (stamp_at_unique _ _ _ _ Hst Hst'). now apply Hmax.
  - exact (l_vlines _ _ _ _ _ _ L).
  - intros x. now apply date_range_in.
  - intros x. now apply date_range_in.
  - intros x x' Hx Hx' Hlt.
    apply (date_range_in _ _ _ _ _ Hw) in Hx, Hx'.
    exact (weekly_step _ _ _ _ Hx Hx' Hlt).
  - intros x Hx Hnext.
    apply (date_range_in _ _ _ _ _ Hw).
    apply (date_range_in _ _ _ _ _ Hw) in Hx.
    now apply weekly_next.
Qed.

End Gridlines.

Lemma gridlines_weekly_and_monthly_witness :
  chart pandas_stable two_tasks_df
  = (fst (chart pandas_stable two_tasks_df),
     OK (returned (chart pandas_stable two_tasks_df)))
  /\ map vline_x
       (ax_vlines (fig_axes (returned (chart pandas_stable two_tasks_df))))
     = [midnight 2025 2 2; midnight 2025 2 9; midnight 2025 2 16;
        midnight 2025 2 23; midnight 2025 3 2; midnight 2025 3 9;
        midnight 2025 2 1; midnight 2025 3 1]
  /\ exists weeks months,
       ax_vlines (fig_axes (returned (chart pandas_stable two_tasks_df)))
       = (map (fun d => mkVLine d default_grid "--" (3 # 10)) weeks
          ++ map (fun d => mkVLine d default_grid "-" (2 # 10)) months)%list.
Proof.
  assert (H : chart pandas_stable two_tasks_df
              = (fst (chart pandas_stable two_tasks_df),
                 OK (returned (chart pandas_stable two_tasks_df))))
    by (vm_compute; reflexivity).
  split; [exact H|]. split; [vm_compute; reflexivity|].
  destruct (gridlines_weekly_and_monthly (pandas := pandas_stable)
              role_mapping None default_background default_grid two_tasks_df
              _ _ H)
    as (sc & ec & lo & hi & weeks & months & _ & _ & _ & _ & _ & _ & Hv & _).
  exists weeks, months. exact Hv.
Defined.

(** C6 as stated fails for the visual weight: the weekly gridline of
    2025-02-02 is more opaque (0.3) than the monthly gridline of
    2025-02-01 (0.2). *)
Lemma weekly_line_not_lighter :
  In sunday_line
    (ax_vlines (fig_axes (returned (chart pandas_stable two_tasks_df))))
  /\ In first_of_month_line
       (ax_vlines (fig_axes (returned (chart pandas_stable two_tasks_df))))
  /\ ~ lighter sunday_line first_of_month_line.
Proof.
  split; [|split].
  - vm_compute. tauto.
  - vm_compute. tauto.
  - unfold lighter, Qlt; simpl. lia.
Qed.

(** *** Colours *)

Lemma unique_in (cs : list cell) (c : cell) : In c (unique cs) <-> In c cs.
Proof.
  induction cs as [|c' cs IH]; simpl; [tauto|].
  rewrite filter_In, IH, negb_true_iff.
  destruct (cell_eqb_spec c c') as [->|Hne]; split; intros H.
  - now left.
  - now left.
  - destruct H as [E|[H _]]; [congruence|now right].
  - destruct H as [E|H]; [congruence|]. right. now split.
Qed.

Lemma unique_nodup (cs : list cell) : NoDup (unique cs).
Proof.
  induction cs as [|c cs IH]; simpl; constructor.
  - rewrite filter_In, negb_true_iff. intros [_ H].
    destruct (cell_eqb_spec c c); congruence.
  - now apply NoDup_filter.
Qed.

Lemma insert_sorted_perm (c : cell) (cs l : list cell) :
  insert_sorted c cs = OK l -> Permutation l (c :: cs).
Proof.
  revert l. induction cs as [|c' cs IH]; simpl; intros l.
  - intros E; inversion E. reflexivity.
  - destruct (cell_lt c' c) as [[|]|]; simpl; [| |discriminate].
    + destruct (insert_sorted c cs) as [rest|]; simpl; [|discriminate].
      intros E; inversion E; subst l.
      rewrite (IH rest eq_refl). apply perm_swap.
    + intros E; inversion E. reflexivity.
Qed.

Lemma sorted_perm (cs l : list cell) :
  sorted cs = OK l -> Permutation l cs.
Proof.
  revert l. induction cs as [|c cs IH]; simpl; intros l.
  - intros E; inversion E. constructor.
  - destruct (sorted cs) as [s|]; simpl; [|discriminate].
    intros E. apply insert_sorted_perm in E.
    rewrite E. constructor. now apply IH.
Qed.

Lemma comprehension_snoc {K V X : Type} (eqb : K -> K -> bool)
    (key : X -> K) (value : X -> V) (xs : list X) (x : X) :
  Dict.comprehension eqb key value (xs ++ [x])
  = Dict.set eqb (key x) (value x) (Dict.comprehension eqb key value xs).
Proof. unfold Dict.comprehension. now rewrite fold_left_app. Qed.

(** A comprehension over items with distinct keys maps the key of each
    item to the value of that item. *)
Lemma comprehension_get {K V X : Type} (eqb : K -> K -> bool)
    (eqb_spec : forall a b, reflect (a = b) (eqb a b))
    (key : X -> K) (value : X -> V) (xs : list X) (x : X) :
  NoDup (map key xs) -> In x xs ->
  Dict.get eqb (key x) (Dict.comprehension eqb key value xs)
  = Some (value x).
Proof.
  induction xs as [|y xs IH] using rev_ind; [intros _ []|].
  rewrite map_app, comprehension_snoc. simpl. intros Hnd Hin.
  apply in_app_iff in Hin. destruct Hin as [Hin|[<-|[]]].
  - rewrite (get_set_other _ eqb_spec).
    + apply IH; [|exact Hin]. now apply NoDup_app_remove_r in Hnd.
    + intros E. apply NoDup_remove_2 in Hnd. apply Hnd.
      rewrite app_nil_r, E. now apply in_map.
  - apply (get_set_same _ eqb_spec).
Qed.

Lemma nth_error_enumerate {A : Type} (xs : list A) (i : nat) (x : A) :
  nth_error xs i = Some x -> In (i, x) (enumerate xs).
Proof.
  unfold enumerate. intros H.
  assert (G : forall a, In ((a + i)%nat, x)
                          (combine (seq a (List.length xs)) xs));
    [|exact (G 0%nat)].
  revert i H. induction xs as [|y xs IH]; intros i H a.
  - destruct i; discriminate.
  - destruct i as [|i]; simpl in *.
    + inversion H; subst. left. f_equal. lia.
    + right. replace (a + S i)%nat with (S a + i)%nat by lia.
      now apply IH.
Qed.

Lemma color_map_of_get (custom_colors : option (sdict string))
    (phases : list cell) (i : nat) (phase : cell) :
  NoDup phases -> nth_error phases i = Some phase ->
  Dict.get cell_eqb phase (color_map_of custom_colors phases)
  = Some (phase_color custom_colors i phase).
Proof.
  intros Hnd Hi. apply nth_error_enumerate in Hi.
  assert (Hkeys : NoDup (map (fun ip : nat * cell => snd ip)
                           (enumerate phases)))
    by (now rewrite map_snd_enumerate).
  unfold color_map_of, phase_color.
  destruct custom_colors as [[|kv custom]|];
    exact (comprehension_get cell_eqb cell_eqb_spec
             (fun ip : nat * cell => snd ip) _ _ (i, phase) Hkeys Hi).
Qed.

Lemma present_col_dtypes (d d' : DataFrame) (col : option string) :
  df_dtypes d = df_dtypes d' -> present_col d col = present_col d' col.
Proof. unfold present_col. now intros ->. Qed.

Lemma df_getitem_rows (df : DataFrame) (col : string) (s : Series) :
  df_getitem df col = OK s ->
  Forall2 (fun (r : Z * Row) v => sindex (snd r) col = OK v)
    (df_rows df) (s_values s).
Proof.
  unfold df_getitem. intros H.
  apply rbind_ok in H. destruct H as (dt & _ & H).
  apply rbind_ok in H. destruct H as (vs & Hvs & H).
  inversion H; subst s; simpl. now apply mapM_ok in Hvs.
Qed.

(** The order of the phases. *)

Lemma ascii_compare_refl (a : ascii) : (a ?= a)%char = Eq.
Proof. unfold Ascii.compare. apply N.compare_refl. Qed.

Lemma ascii_compare_lt_trans (a b c : ascii) :
  (a ?= b)%char = Lt -> (b ?= c)%char = Lt -> (a ?= c)%char = Lt.
Proof.
  unfold Ascii.compare. rewrite !N.compare_lt_iff. apply N.lt_trans.
Qed.

Lemma string_compare_refl (s : string) : (s ?= s)%string = Eq.
Proof.
  induction s as [|c s IH]; simpl; [reflexivity|].
  now rewrite ascii_compare_refl.
Qed.

Lemma string_compare_lt_trans (a b c : string) :
  (a ?= b)%string = Lt -> (b ?= c)%string = Lt -> (a ?= c)%string = Lt.
Proof.
  revert b c. induction a as [|x a IH]; intros [|y b] [|z c]; simpl;
    try discriminate; try reflexivity.
  destruct (x ?= y)%char eqn:Exy; try discriminate;
    destruct (y ?= z)%char eqn:Eyz; try discriminate.
  - apply Ascii.compare_eq_iff in Exy, Eyz. subst.
    rewrite ascii_compare_refl. apply IH.
  - apply Ascii.compare_eq_iff in Exy. subst. now rewrite Eyz.
  - apply Ascii.compare_eq_iff in Eyz. subst. now rewrite Exy.
  - now rewrite (ascii_compare_lt_trans _ _ _ Exy Eyz).
Qed.

Lemma string_ltb_trans (a b c : string) :
  String.ltb a b = true -> String.ltb b c = true -> String.ltb a c = true.
Proof.
  unfold String.ltb.
  destruct (a ?= b)%string eqn:Eab; try discriminate.
  destruct (b ?= c)%string eqn:Ebc; try discriminate.
  now rewrite (string_compare_lt_trans _ _ _ Eab Ebc).
Qed.

Lemma string_ltb_irrefl (a : string) : String.ltb a a = false.
Proof. unfold String.ltb. now rewrite string_compare_refl. Qed.

(** Of two different strings one is less than the other. *)
Lemma string_ltb_total (a b : string) :
  a <> b -> String.ltb a b = false -> String.ltb b a = true.
Proof.
  unfold String.ltb. intros Hne. rewrite (String.compare_antisym b a).
  destruct (a ?= b)%string eqn:E; simpl; try discriminate; try reflexivity.
  apply String.compare_eq_iff in E. contradiction.
Qed.

Lemma cell_before_trans (a b c : cell) :
  cell_before a b -> cell_before b c -> cell_before a c.
Proof.
  unfold cell_before.
  destruct a as [x|x|x], b as [y|y|y], c as [z|z|z]; simpl;
    try discriminate; intros H1 H2; injection H1 as H1; injection H2 as H2;
    f_equal.
  - exact (string_ltb_trans x y z H1 H2).
  - apply Z.ltb_lt in H1, H2. apply Z.ltb_lt. lia.
  - apply Z.ltb_lt in H1, H2. apply Z.ltb_lt. lia.
Qed.

Lemma cell_before_irrefl (a : cell) : ~ cell_before a a.
Proof.
  unfold cell_before. destruct a as [x|x|x]; simpl; intros H;
    injection H as H.
  - now rewrite string_ltb_irrefl in H.
  - rewrite Z.ltb_irrefl in H. discriminate.
  - rewrite Z.ltb_irrefl in H. discriminate.
Qed.

Lemma cell_lt_total (a b : cell) :
  a <> b -> cell_lt a b = OK false -> cell_before b a.
Proof.
  unfold cell_before.
  destruct a as [x|x|x], b as [y|y|y]; simpl; try discriminate;
    intros Hne H; injection H as H; f_equal.
  - apply string_ltb_total; [congruence|exact H].
  - apply Z.ltb_lt. apply Z.ltb_ge in H.
    assert (x <> y) by congruence. lia.
  - apply Z.ltb_lt. apply Z.ltb_ge in H.
    assert (x <> y) by congruence. lia.
Qed.

Lemma comparable_refl (a : cell) : comparable a a.
Proof. unfold comparable. destruct a; simpl; now eexists. Qed.

Lemma comparable_sym (a b : cell) : comparable a b -> comparable b a.
Proof.
  unfold comparable. destruct a, b; simpl; intros [lt H];
    try discriminate; now eexists.
Qed.

Lemma comparable_trans (a b c : cell) :
  comparable a b -> comparable b c -> comparable a c.
Proof.
  unfold comparable. destruct a, b, c; simpl; intros [l1 H1] [l2 H2];
    try discriminate; now eexists.
Qed.

(** A sort that went through has compared cells of one type only. *)
Lemma sorted_ok_comparable (cs l : list cell) :
  sorted cs = OK l -> forall a b, In a cs -> In b cs -> comparable a b.
Proof.
  revert l. induction cs as [|c cs IH]; intros l; simpl; [intros _ ? ? []|].
  destruct (sorted cs) as [s|] eqn:Es; [|discriminate]. simpl.
  intros Hins.
  assert (Hc : forall x, In x cs -> comparable x c).
  { destruct s as [|h s'].
    - apply sorted_perm, Permutation_nil in Es. subst cs.
      intros x [].
    - simpl in Hins.
      destruct (cell_lt h c) as [lt|] eqn:Eh; [|discriminate].
      assert (Hh : In h cs)
        by (apply (Permutation_in _ (sorted_perm _ _ Es)); now left).
      intros x Hx. apply (comparable_trans x h c).
      + exact (IH _ eq_refl x h Hx Hh).
      + now exists lt. }
  intros a b [<-|Ha] [<-|Hb].
  - apply comparable_refl.
  - apply comparable_sym. now apply Hc.
  - now apply Hc.
  - exact (IH _ eq_refl a b Ha Hb).
Qed.

Lemma insert_sorted_strongly (c : cell) (cs l : list cell) :
  StronglySorted cell_before cs -> ~ In c cs ->
  insert_sorted c cs = OK l -> StronglySorted cell_before l.
Proof.
  revert l. induction cs as [|c' cs IH]; intros l Hs Hnin; simpl.
  - intros E; inversion E. repeat constructor.
  - inversion Hs as [|? ? Hs' Hall]; subst.
    destruct (cell_lt c' c) as [[|]|] eqn:Elt; simpl; [| |discriminate].
    + destruct (insert_sorted c cs) as [rest|] eqn:Er; simpl; [|discriminate].
      intros E; inversion E; subst l. constructor.
      * apply (IH rest Hs'); [|reflexivity]. intros H. apply Hnin. now right.
      * apply Forall_forall. intros x Hx.
        apply (Permutation_in _ (insert_sorted_perm _ _ _ Er)) in Hx.
        destruct Hx as [<-|Hx]; [exact Elt|].
        rewrite Forall_forall in Hall. now apply Hall.
    + intros E; inversion E; subst l.
      assert (Hcc : cell_before c c').
      { apply cell_lt_total; [|exact Elt]. intros ->. apply Hnin. now left. }
      constructor; [exact Hs|]. constructor; [exact Hcc|].
      apply Forall_forall. intros x Hx. rewrite Forall_forall in Hall.
      exact (cell_before_trans _ _ _ Hcc (Hall x Hx)).
Qed.

(** Distinct cells come out of the sort in strictly ascending order. *)
Lemma sorted_strongly (cs l : list cell) :
  NoDup cs -> sorted cs = OK l -> StronglySorted cell_before l.
Proof.
  revert l. induction cs as [|c cs IH]; intros l Hnd; simpl.
  - intros E; inversion E. constructor.
  - inversion Hnd as [|? ? Hnin Hnd']; subst.
    destruct (sorted cs) as [s|] eqn:Es; [|discriminate]. simpl.
    apply insert_sorted_strongly; [now apply IH|].
    intros H. apply Hnin. exact (Permutation_in _ (sorted_perm _ _ Es) H).
Qed.

(** The parts of a figure. *)


Lemma mapM_combine_seq {A B : Type} (f : A -> result B) (g : nat * A -> B)
    (xs : list A) (a : nat) :
  (forall i x, nth_error xs i = Some x -> f x = OK (g ((a + i)%nat, x))) ->
  mapM f xs = OK (map g (combine (seq a (List.length xs)) xs)).
Proof.
  revert a. induction xs as [|x xs IH]; intros a H; simpl; [reflexivity|].
  rewrite (H 0%nat x eq_refl), Nat.add_0_r. simpl.
  rewrite (IH (S a)); [reflexivity|].
  intros i y Hy. rewrite (H (S i) y Hy). do 3 f_equal. lia.
Qed.

(** The lookup of the handles never fails: every phase has its entry in
    the colour map. *)
Lemma legend_handles_ok (custom_colors : option (sdict string))
    (phases : list cell) :
  NoDup phases ->
  mapM (fun phase =>
          match Dict.get cell_eqb phase (color_map_of custom_colors phases)
          with
          | Some c => OK c
          | None => Raise (KeyError phase)
          end) phases
  = OK (handles_for custom_colors phases).
Proof.
  intros Hnd. unfold handles_for, enumerate. apply mapM_combine_seq.
  intros i phase Hi. simpl.
  now rewrite (color_map_of_get custom_colors _ _ _ Hnd Hi).
Qed.

Lemma phases_of_spec (df : DataFrame) (phase_col : option string)
    (phases : list cell) (pc : string) :
  phases_of df phase_col phases -> present_col df phase_col = Some pc ->
  NoDup phases
  /\ forall phase,
       In phase phases
       <-> exists r, In r (df_rows df) /\ sindex (snd r) pc = OK phase.
Proof.
  unfold phases_of. intros H E. rewrite E in H.
  destruct H as (s & Hs & Hsorted).
  apply sorted_perm in Hsorted. apply df_getitem_rows in Hs. split.
  - eapply Permutation_NoDup; [symmetry; exact Hsorted|apply unique_nodup].
  - intros phase. split.
    + intros Hp. apply (Permutation_in _ Hsorted) in Hp.
      apply (proj1 (unique_in _ _)) in Hp.
      exact (Forall2_in_r _ _ _ _ Hs Hp).
    + intros (r & Hr & Hp).
      destruct (Forall2_in_l _ _ _ _ Hs Hr) as (v & Hv & Hrv).
      assert (E' : OK v = OK phase)
        by (transitivity (sindex (snd r) pc); [symmetry; exact Hrv|exact Hp]).
      inversion E'; subst v.
      apply (Permutation_in _ (Permutation_sym Hsorted)).
      now apply (proj2 (unique_in _ _)).
Qed.

(** The figure that [draw] returns, with what the loop computed for each
    row and with its legend. *)
Lemma draw_parts (df : DataFrame) (task_col start_col end_col : string)
    (phase_col duration_col : option string)
    (custom_colors : option (sdict string)) (bg grid : string)
    (fig : Figure) :
  draw df task_col start_col end_col phase_col duration_col custom_colors
    bg grid = OK fig ->
  exists phases plotted,
    phases_of df phase_col phases
    /\ Forall2 (fun ir p =>
                  plot_row (df_len df) task_col start_col end_col
                    (present_col df phase_col) (present_col df duration_col)
                    (color_map_for df phase_col custom_colors phases) ir
                  = OK p)
         (enumerate (df_rows df)) plotted
    /\ df_rows df <> []
    /\ ax_bars (fig_axes fig) = map p_bar plotted
    /\ ax_texts (fig_axes fig) = map p_text plotted
    /\ ax_yticks (fig_axes fig) = map p_y plotted
    /\ ax_yticklabels (fig_axes fig) = map p_tick plotted
    /\ ax_legend (fig_axes fig)
       = match present_col df phase_col with
         | Some _ =>
             Some (mkLegend (handles_for custom_colors phases) phases bg grid)
         | None => None
         end.
Proof.
  intros H.
  assert (Hphases : exists phases, phases_of df phase_col phases).
  { apply draw_ok in H. destruct H as (phases & _ & _ & _ & _ & _ & _ & H & _).
    now exists phases. }
  revert H. unfold draw, color_map_for. intros H.
  apply rbind_ok in H. destruct H as (phases & Hph & H).
  apply rbind_ok in H. destruct H as (plotted & Hpl & H).
  apply rbind_ok in H. destruct H as (starts & Hst & H).
  apply rbind_ok in H. destruct H as (ends & Hen & H).
  apply rbind_ok in H. destruct H as (weeks & Hw & H).
  apply rbind_ok in H. destruct H as (months & Hm & H).
  apply rbind_ok in H. destruct H as (legend & Hlg & H).
  assert (Hof : phases_of df phase_col phases).
  { unfold phases_of. destruct (present_col df phase_col) as [pc|].
    - apply rbind_ok in Hph. destruct Hph as (s & Hs & Hph). now exists s.
    - now inversion Hph. }
  assert (Hne : df_rows df <> []).
  { intros Hnil. apply column_stamps_rows in Hst. rewrite Hnil in Hst.
    inversion Hst; subst starts. discriminate. }
  exists phases, plotted.
  split; [exact Hof|]. split; [now apply mapM_ok|]. split; [exact Hne|].
  inversion H; subst fig; simpl.
  split; [reflexivity|]. split; [reflexivity|]. split; [reflexivity|].
  split; [reflexivity|].
  destruct (present_col df phase_col) as [pc|] eqn:Epc;
    [|now inversion Hlg].
  destruct (phases_of_spec _ _ _ _ Hof Epc) as [Hnd Hin].
  assert (Hpos : (0 <? List.length phases)%nat = true).
  { destruct (df_rows df) as [|r rows] eqn:Er; [congruence|].
    unfold phases_of in Hof. rewrite Epc in Hof.
    destruct Hof as (s & Hs & Hsorted).
    apply df_getitem_rows in Hs. rewrite Er in Hs.
    inversion Hs as [|? v ? vs Hv _ E1 E2]; subst.
    assert (Hv' : In v phases).
    { apply (Permutation_in _ (Permutation_sym (sorted_perm _ _ Hsorted))).
      apply (proj2 (unique_in _ _)). rewrite <- E2. now left. }
    destruct phases; [destruct Hv'|reflexivity]. }
  rewrite Hpos, (legend_handles_ok _ _ Hnd) in Hlg. simpl in Hlg.
  now inversion Hlg.
Qed.

(** The handle at the position of a phase. *)
Lemma handles_for_nth (custom_colors : option (sdict string))
    (phases : list cell) (i : nat) (phase : cell) :
  nth_error phases i = Some phase ->
  nth_error (handles_for custom_colors phases) i
  = Some (phase_color custom_colors i phase).
Proof.
  intros Hi. unfold handles_for. rewrite nth_error_map.
  assert (E : nth_error (enumerate phases) i = Some (i, phase)).
  { unfold enumerate.
    assert (G : forall a, nth_error (combine (seq a (List.length phases))
                                       phases) i
                          = Some ((a + i)%nat, phase));
      [|exact (G 0%nat)].
    revert i Hi. induction phases as [|x xs IH]; intros i Hi a.
    - destruct i; discriminate.
    - destruct i as [|i]; simpl in *.
      + inversion Hi. now rewrite Nat.add_0_r.
      + rewrite (IH i Hi (S a)). do 2 f_equal. lia. }
  now rewrite E.
Qed.

Section Parts.
Context {pandas : PandasLib}.

(** What a call that returned a figure drew: the sorted frame, which holds
    the rows of the table left to the caller along the indexer of its
    start column, and, for each of its rows in order, what [plot_row]
    computed. *)
Lemma create_gantt_chart_drawn (columns : sdict string)
    (custom_colors : option (sdict string)) (bg grid : string)
    (df : DataFrame) (w' : World) (fig : Figure) :
  call (create_gantt_chart columns custom_colors bg grid) df = (w', OK fig) ->
  exists task_col start_col end_col keys d phases plotted,
    sindex columns "task" = OK task_col
    /\ sindex columns "start_date" = OK start_col
    /\ sindex columns "end_date" = OK end_col
    /\ column_stamps (caller_df w') start_col = OK keys
    /\ df_rows d = take (argsort keys) (df_rows (caller_df w'))
    /\ df_dtypes d = df_dtypes (caller_df w')
    /\ Permutation (df_rows d) (df_rows (caller_df w'))
    /\ df_rows d <> []
    /\ phases_of d (sget "phase" columns) phases
    /\ Forall2 (fun r p =>
                  exists i,
                    plot_row (df_len d) task_col start_col end_col
                      (present_col (caller_df w') (sget "phase" columns))
                      (present_col (caller_df w') (sget "duration" columns))
                      (color_map_for d (sget "phase" columns)
                         custom_colors phases) (i, r)
                    = OK p)
         (df_rows d) plotted
    /\ ax_bars (fig_axes fig) = map p_bar plotted
    /\ ax_texts (fig_axes fig) = map p_text plotted
    /\ ax_yticks (fig_axes fig) = map p_y plotted
    /\ ax_yticklabels (fig_axes fig) = map p_tick plotted
    /\ ax_legend (fig_axes fig)
       = match present_col (caller_df w') (sget "phase" columns) with
         | Some _ =>
             Some (mkLegend (handles_for custom_colors phases) phases bg grid)
         | None => None
         end.
Proof.
  unfold call. intros H. apply create_gantt_chart_ok in H.
  destruct H as (tc & sc & ec & d & Ht & Hs & He & Hsort & Hdraw).
  apply sort_values_ok in Hsort.
  destruct Hsort as (ks & Hks & Hdt & Hrows & Hperm & _ & _).
  apply draw_parts in Hdraw.
  destruct Hdraw as (phases & plotted & Hph & Hpl & Hne & Hb & Htx & Hy & Hl
                     & Hlg).
  rewrite (present_col_dtypes _ _ (sget "phase" columns) Hdt) in Hpl, Hlg.
  rewrite (present_col_dtypes _ _ (sget "duration" columns) Hdt) in Hpl.
  exists tc, sc, ec, ks, d, phases, plotted.
  repeat (split; [assumption|]). split; [|now repeat split].
  eapply Forall2_combine_seq; [|exact Hpl].
  intros i r p Hp. now exists i.
Qed.

Lemma create_gantt_chart_parts (columns : sdict string)
    (custom_colors : option (sdict string)) (bg grid : string)
    (df : DataFrame) (w' : World) (fig : Figure) :
  call (create_gantt_chart columns custom_colors bg grid) df = (w', OK fig) ->
  exists task_col start_col end_col d phases plotted,
    sindex columns "task" = OK task_col
    /\ sindex columns "start_date" = OK start_col
    /\ sindex columns "end_date" = OK end_col
    /\ df_dtypes d = df_dtypes (caller_df w')
    /\ Permutation (df_rows d) (df_rows (caller_df w'))
    /\ df_rows d <> []
    /\ phases_of d (sget "phase" columns) phases
    /\ Forall2 (fun r p =>
                  exists i,
                    plot_row (df_len d) task_col start_col end_col
                      (present_col (caller_df w') (sget "phase" columns))
                      (present_col (caller_df w') (sget "duration" columns))
                      (color_map_for d (sget "phase" columns)
                         custom_colors phases) (i, r)
                    = OK p)
         (df_rows d) plotted
    /\ ax_bars (fig_axes fig) = map p_bar plotted
    /\ ax_texts (fig_axes fig) = map p_text plotted
    /\ ax_yticks (fig_axes fig) = map p_y plotted
    /\ ax_yticklabels (fig_axes fig) = map p_tick plotted
    /\ ax_legend (fig_axes fig)
       = match present_col (caller_df w') (sget "phase" columns) with
         | Some _ =>
             Some (mkLegend (handles_for custom_colors phases) phases bg grid)
         | None => None
         end.
Proof.
  intros H. apply create_gantt_chart_drawn in H.
  destruct H as (tc & sc & ec & ks & d & phases & plotted & Ht & Hs & He & _
                 & _ & H).
  now exists tc, sc, ec, d, phases, plotted.
Qed.

(** The bars of a figure, each with the row it is drawn for, its phase
    and the position of that phase among the phases. *)
Lemma create_gantt_chart_phase_bars (columns : sdict string)
    (custom_colors : option (sdict string)) (bg grid : string)
    (df : DataFrame) (w' : World) (fig : Figure) (pc : string) :
  call (create_gantt_chart columns custom_colors bg grid) df = (w', OK fig) ->
  present_col (caller_df w') (sget "phase" columns) = Some pc ->
  exists start_col keys rows phases,
    sindex columns "start_date" = OK start_col
    /\ column_stamps (caller_df w') start_col = OK keys
    /\ rows = take (argsort keys) (df_rows (caller_df w'))
    /\ Permutation rows (df_rows (caller_df w'))
    /\ rows <> []
    /\ NoDup phases
    /\ StronglySorted cell_before phases
    /\ (forall phase,
          In phase phases
          <-> exists r, In r (df_rows (caller_df w'))
                        /\ sindex (snd r) pc = OK phase)
    /\ ax_legend (fig_axes fig)
       = Some (mkLegend (handles_for custom_colors phases) phases bg grid)
    /\ Forall2 (fun r b =>
                  stamp_at start_col r (bar_left b)
                  /\ exists phase i,
                       sindex (snd r) pc = OK phase
                       /\ nth_error phases i = Some phase
                       /\ Dict.get cell_eqb phase
                            (color_map_of custom_colors phases)
                          = Some (phase_color custom_colors i phase)
                       /\ bar_color b = phase_color custom_colors i phase)
         rows (ax_bars (fig_axes fig)).
Proof.
  intros H Hpc. apply create_gantt_chart_drawn in H.
  destruct H as (tc & sc & ec & ks & d & phases & plotted & Ht & Hs & He
                 & Hks & Hrows & Hdt & Hperm & Hne & Hph & Hpl & Hb & _ & _
                 & _ & Hlg).
  pose proof (present_col_dtypes _ _ (sget "phase" columns) Hdt) as Epc.
  rewrite Hpc in Epc, Hlg, Hpl.
  unfold color_map_for in Hpl. rewrite Epc in Hpl.
  destruct (phases_of_spec _ _ _ _ Hph Epc) as [Hnd Hin].
  assert (Hsorted : StronglySorted cell_before phases).
  { unfold phases_of in Hph. rewrite Epc in Hph.
    destruct Hph as (s & _ & Hs').
    exact (sorted_strongly _ _ (unique_nodup _) Hs'). }
  exists sc, ks, (df_rows d), phases.
  split; [exact Hs|]. split; [exact Hks|]. split; [exact Hrows|].
  split; [exact Hperm|]. split; [exact Hne|]. split; [exact Hnd|].
  split; [exact Hsorted|]. split.
  { intros phase. rewrite Hin. split; intros (r & Hr & Hp); exists r;
      (split; [|exact Hp]).
    - eapply Permutation_in; eassumption.
    - eapply Permutation_in; [symmetry|]; eassumption. }
  split; [exact Hlg|].
  rewrite Hb. apply Forall2_map_r.
  eapply Forall2_impl; [|exact Hpl].
  intros r p Hr [i Hp]. apply plot_row_ok in Hp.
  destruct Hp as (task & s & e & _ & Hst & _ & _ & _ & _ & Hleft & _
                  & (phase & Hphase & Hc) & _).
  simpl in Hphase, Hst. split; [now rewrite Hleft|].
  assert (Hp : In phase phases) by (apply Hin; now exists r).
  apply In_nth_error in Hp. destruct Hp as [j Hj].
  exists phase, j. split; [exact Hphase|]. split; [exact Hj|].
  pose proof (color_map_of_get custom_colors _ _ _ Hnd Hj) as Hget.
  split; [exact Hget|]. now rewrite Hc, Hget.
Qed.



End Parts.

Section Colours.
Context {pandas : PandasLib}.


End Colours.

Definition phase_chart (custom_colors : option (sdict string))
    (df : DataFrame) : World * result Figure :=
  call (create_gantt_chart (pandas := pandas_stable) phase_mapping
          custom_colors default_background default_grid) df.

Example detect_phase_columns : detect_columns phases_df = OK phase_mapping.
Proof. reflexivity. Qed.




(** *** Errors *)

Lemma sindex_in {V : Type} (d : sdict V) (k : string) :
  In k (Dict.keys d) -> exists v, sindex d k = OK v.
Proof.
  unfold sindex. intros H.
  destruct (sget k d) as [v|] eqn:E; [now exists v|].
  apply (get_none _ String.eqb_spec) in E. contradiction.
Qed.

Lemma take_nil {A : Type} (idx : list nat) : take idx (@nil A) = [].
Proof.
  unfold take. induction idx as [|i idx IH]; simpl; [reflexivity|].
  rewrite IH. now destruct i.
Qed.

Lemma df_getitem_empty (df : DataFrame) (col : string) :
  df_rows df = [] -> In col (df_columns df) ->
  exists dt, df_getitem df col = OK (mkSeries dt []).
Proof.
  intros Hrows Hin. apply sindex_in in Hin. destruct Hin as [dt Hdt].
  exists dt. unfold df_getitem. now rewrite Hdt, Hrows.
Qed.

Lemma column_stamps_empty (df : DataFrame) (col : string) :
  df_rows df = [] -> In col (df_columns df) -> column_stamps df col = OK [].
Proof.
  intros Hrows Hin.
  destruct (df_getitem_empty _ _ Hrows Hin) as [dt Hs].
  unfold column_stamps. now rewrite Hs.
Qed.

Lemma present_col_in (df : DataFrame) (col : option string) (pc : string) :
  present_col df col = Some pc -> In pc (df_columns df).
Proof.
  unfold present_col. destruct col as [c|]; [|discriminate].
  destruct (negb (String.eqb c "")); simpl; [|discriminate].
  unfold Dict.mem. destruct (sget c (df_dtypes df)) as [dt|] eqn:E;
    [|discriminate].
  intros H; inversion H; subst.
  apply (get_in _ String.eqb_spec) in E.
  apply (in_map fst) in E. exact E.
Qed.

(** Without rows there is no earliest start and no latest end: the figure
    is not finished. *)
Lemma draw_empty (df : DataFrame) (task_col start_col end_col : string)
    (phase_col duration_col : option string)
    (custom_colors : option (sdict string)) (bg grid : string) :
  df_rows df = [] ->
  In start_col (df_columns df) -> In end_col (df_columns df) ->
  draw df task_col start_col end_col phase_col duration_col custom_colors
    bg grid = Raise nat_bounds.
Proof.
  intros Hrows Hs He. unfold draw.
  assert (Hph : exists phases,
            match present_col df phase_col with
            | Some pc =>
                (s <- df_getitem df pc ;; sorted (unique (s_values s)))%result
            | None => OK []
            end = OK phases).
  { destruct (present_col df phase_col) as [pc|] eqn:E.
    - apply present_col_in in E.
      destruct (df_getitem_empty _ _ Hrows E) as [dt ->].
      now exists [].
    - now exists []. }
  destruct Hph as [phases ->]. simpl.
  rewrite Hrows. simpl.
  rewrite (column_stamps_empty _ _ Hrows Hs).
  rewrite (column_stamps_empty _ _ Hrows He). reflexivity.
Qed.

Section Errors.
Context {pandas : PandasLib}.

Lemma ensure_datetime_empty (col : string) (w : World) :
  df_rows (caller_df w) = [] -> In col (df_columns (caller_df w)) ->
  exists w1,
    ensure_datetime col w = (w1, OK tt)
    /\ df_rows (caller_df w1) = []
    /\ open_figures w1 = open_figures w
    /\ (forall c, In c (df_columns (caller_df w)) ->
                  In c (df_columns (caller_df w1))).
Proof.
  intros Hrows Hin.
  destruct (df_getitem_empty _ _ Hrows Hin) as [dt Hs].
  unfold ensure_datetime, bind, get_df, lift, ret, setitem.
  rewrite Hs. unfold is_datetime64_any_dtype; simpl.
  destruct dt; simpl.
  - eexists. split; [reflexivity|]. simpl. rewrite Hrows.
    split; [reflexivity|]. split; [reflexivity|].
    intros c Hc. unfold df_columns; simpl.
    rewrite (keys_set String.eqb). destruct (smem col (df_dtypes (caller_df w)));
      [exact Hc|apply in_app_iff; now left].
  - eexists. split; [reflexivity|]. simpl. rewrite Hrows.
    split; [reflexivity|]. split; [reflexivity|].
    intros c Hc. unfold df_columns; simpl.
    rewrite (keys_set String.eqb). destruct (smem col (df_dtypes (caller_df w)));
      [exact Hc|apply in_app_iff; now left].
  - exists w. repeat split; auto.
Qed.

Lemma sort_values_empty (df : DataFrame) (col : string) :
  df_rows df = [] -> In col (df_columns df) ->
  exists d, sort_values df col = OK d
            /\ df_rows d = [] /\ df_dtypes d = df_dtypes df.
Proof.
  intros Hrows Hin.
  destruct (df_getitem_empty _ _ Hrows Hin) as [dt Hs].
  unfold sort_values. rewrite Hs. simpl.
  eexists. split; [reflexivity|]. simpl. rewrite Hrows.
  split; [apply take_nil|reflexivity].
Qed.

End Errors.

(** The column of a role in a mapping that the resolver returned is a
    column of the table. *)
Lemma detect_columns_in (df : DataFrame) (m : sdict string)
    (role col : string) :
  detect_columns df = OK m -> sget role m = Some col ->
  In col (df_columns df).
Proof.
  intros Hm Hget. apply detect_columns_ok in Hm. destruct Hm as [-> _].
  rewrite find_matching_get in Hget.
  destruct (sget role patterns) as [pl|]; [|discriminate].
  apply resolve_role_in in Hget. destruct Hget as [k Hin].
  destruct (columns_lower_items _ _ _ Hin) as [_ (b & a & -> & _)].
  apply in_elt.
Qed.

(** A mapping that the resolver returned has the three mandatory roles. *)
Lemma detect_columns_required (df : DataFrame) (m : sdict string)
    (role : string) :
  detect_columns df = OK m -> In role required_cols ->
  exists col, sindex m role = OK col /\ In col (df_columns df).
Proof.
  intros Hm Hreq.
  assert (Hmem : smem role m = true).
  { unfold detect_columns in Hm.
    destruct (missing_cols_of _) as [|x xs] eqn:E; [|discriminate].
    inversion Hm; subst m.
    destruct (smem role (find_matching_columns
                           (columns_lower_of (df_columns df)))) eqn:Em;
      [reflexivity|].
    assert (Hin : In role (missing_cols_of
                             (find_matching_columns
                                (columns_lower_of (df_columns df))))).
    { unfold missing_cols_of. apply filter_In. split; [exact Hreq|].
      now rewrite Em. }
    rewrite E in Hin. destruct Hin. }
  unfold Dict.mem in Hmem. unfold sindex.
  destruct (sget role m) as [col|] eqn:E; [|discriminate].
  exists col. split; [reflexivity|].
  exact (detect_columns_in _ _ _ _ Hm E).
Qed.

Section EmptyTable.
Context {pandas : PandasLib}.

(** C8 (amended).  The engine does not check for an empty table.  On a
    table without rows whose roles the resolver has mapped, it opens a
    figure, goes through the layout and fails when it computes the
    gridlines, with the [ValueError] that [date_range] raises for bounds
    that are [NaT]; no figure is returned. *)
Theorem empty_table_fails_at_gridlines (columns : sdict string)
    (custom_colors : option (sdict string)) (bg grid : string)
    (df : DataFrame) (w' : World) (r : result Figure) :
  df_rows df = [] ->
  detect_columns df = OK columns ->
  call (create_gantt_chart columns custom_colors bg grid) df = (w', r) ->
  r = Raise nat_bounds /\ open_figures w' = 1%nat.
Proof.
  intros Hrows Hm. unfold call. rewrite create_gantt_chart_eq.
  destruct (detect_columns_required _ _ "task" Hm) as (tc & -> & _);
    [simpl; tauto|].
  destruct (detect_columns_required _ _ "start_date" Hm) as (sc & -> & Hsc);
    [simpl; tauto|].
  destruct (detect_columns_required _ _ "end_date" Hm) as (ec & -> & Hec);
    [simpl; tauto|].
  simpl caller_df. simpl open_figures.
  destruct (ensure_datetime_empty sc (mkWorld df 1) Hrows Hsc)
    as (w1 & -> & Hr1 & Hf1 & Hc1).
  destruct (ensure_datetime_empty ec w1 Hr1 (Hc1 _ Hec))
    as (w2 & -> & Hr2 & Hf2 & Hc2).
  destruct (sort_values_empty (caller_df w2) sc Hr2 (Hc2 _ (Hc1 _ Hsc)))
    as (d & -> & Hrd & Hdt).
  simpl. intros H; inversion H; subst w' r. split.
  - apply draw_empty; [exact Hrd| |]; unfold df_columns; rewrite Hdt.
    + exact (Hc2 _ (Hc1 _ Hsc)).
    + exact (Hc2 _ (Hc1 _ Hec)).
  - simpl in *. congruence.
Qed.

End EmptyTable.

Lemma empty_table_fails_at_gridlines_witness :
  df_rows (header_only ["Task"; "Start"; "End"]) = []
  /\ detect_columns (header_only ["Task"; "Start"; "End"]) = OK role_mapping
  /\ snd (chart pandas_stable (header_only ["Task"; "Start"; "End"]))
     = Raise nat_bounds
  /\ open_figures (fst (chart pandas_stable
                          (header_only ["Task"; "Start"; "End"]))) = 1%nat.
Proof.
  split; [reflexivity|]. split; [reflexivity|].
  exact (empty_table_fails_at_gridlines (pandas := pandas_stable)
           role_mapping None default_background default_grid
           (header_only ["Task"; "Start"; "End"]) _ _
           eq_refl eq_refl (surjective_pairing _)).
Defined.

(** C8 as stated fails: on a table with rows, resolved roles and dates,
    whose phase column holds a number and a text, the core raises the
    [TypeError] of [sorted], which is none of the three signals. *)
Lemma type_error_is_raised :
  detect_columns mixed_phases_df = OK phase_mapping
  /\ snd (call (create_gantt_from_file (pandas := pandas_stable) None
                  default_background default_grid) mixed_phases_df)
     = Raise (TypeError "'<' not supported between these instances")
  /\ ~ core_signal (TypeError "'<' not supported between these instances").
Proof.
  split; [reflexivity|]. split; [vm_compute; reflexivity|].
  intros H. exact H.
Qed.

(** *** The conversion of a date column *)

Lemma mapM_setitem_same (col : string) (rows : list (Z * Row))
    (vs : list cell) :
  List.length vs = List.length rows ->
  mapM (fun r : Z * Row => sindex (snd r) col)
    (map (fun rv : Z * Row * cell =>
            (fst (fst rv), sset col (snd rv) (snd (fst rv))))
       (combine rows vs))
  = OK vs.
Proof.
  revert vs. induction rows as [|r rows IH]; intros [|v vs]; simpl;
    try discriminate; [reflexivity|].
  intros E. unfold sindex at 1.
  rewrite (get_set_same _ String.eqb_spec). simpl.
  rewrite IH by congruence. reflexivity.
Qed.

Lemma mapM_setitem_other (col c : string) (rows : list (Z * Row))
    (vs : list cell) :
  col <> c -> List.length vs = List.length rows ->
  mapM (fun r : Z * Row => sindex (snd r) c)
    (map (fun rv : Z * Row * cell =>
            (fst (fst rv), sset col (snd rv) (snd (fst rv))))
       (combine rows vs))
  = mapM (fun r : Z * Row => sindex (snd r) c) rows.
Proof.
  intros Hne. revert vs. induction rows as [|r rows IH]; intros [|v vs]; simpl;
    try discriminate; [reflexivity|].
  intros E. unfold sindex at 1 3.
  rewrite (get_set_other _ String.eqb_spec) by exact Hne.
  rewrite IH by congruence. reflexivity.
Qed.

(** Reading back the column that was assigned. *)
Lemma df_getitem_setitem_same (df : DataFrame) (col : string) (s : Series) :
  List.length (s_values s) = df_len df ->
  df_getitem (df_setitem df col s) col = OK s.
Proof.
  intros Hlen. unfold df_getitem, df_setitem. simpl.
  unfold sindex at 1. rewrite (get_set_same _ String.eqb_spec). simpl.
  rewrite mapM_setitem_same by exact Hlen. now destruct s.
Qed.

(** Reading another column than the one that was assigned. *)
Lemma df_getitem_setitem_other (df : DataFrame) (col c : string)
    (s : Series) :
  col <> c -> List.length (s_values s) = df_len df ->
  df_getitem (df_setitem df col s) c = df_getitem df c.
Proof.
  intros Hne Hlen. unfold df_getitem, df_setitem. simpl.
  unfold sindex at 1 3.
  rewrite (get_set_other _ String.eqb_spec) by exact Hne.
  rewrite mapM_setitem_other by assumption. reflexivity.
Qed.

Lemma df_getitem_length (df : DataFrame) (col : string) (s : Series) :
  df_getitem df col = OK s -> List.length (s_values s) = df_len df.
Proof.
  unfold df_getitem. intros H.
  apply rbind_ok in H. destruct H as (dt & _ & H).
  apply rbind_ok in H. destruct H as (vs & Hvs & H).
  inversion H; subst s; simpl.
  apply mapM_ok, Forall2_length_eq in Hvs. now symmetry.
Qed.

Lemma df_getitem_dtype (df : DataFrame) (col : string) (s : Series) :
  df_getitem df col = OK s -> sget col (df_dtypes df) = Some (s_dtype s).
Proof.
  unfold df_getitem, sindex. intros H.
  destruct (sget col (df_dtypes df)) as [dt|]; [|discriminate].
  simpl in H. apply rbind_ok in H. destruct H as (vs & _ & H).
  now inversion H.
Qed.

Section Conversions.
Context {pandas : PandasLib}.

Lemma to_datetime_ok (s s' : Series) :
  to_datetime s = OK s' ->
  s_dtype s' = datetime64
  /\ Forall2 (fun c c' => to_datetime_cell c = OK c')
       (s_values s) (s_values s').
Proof.
  unfold to_datetime. intros H.
  apply rbind_ok in H. destruct H as (vs & Hvs & H).
  inversion H; subst s'; simpl. split; [reflexivity|now apply mapM_ok].
Qed.

Lemma ensure_datetime_noop (col : string) (df : DataFrame) (n : nat) :
  datetime_column df col ->
  ensure_datetime col (mkWorld df n) = (mkWorld df n, OK tt).
Proof.
  intros (s & Hs & Hdt).
  unfold ensure_datetime, bind, get_df, lift, ret. simpl.
  now rewrite Hs, Hdt.
Qed.

(** What a conversion that went through did: nothing to a [datetime64]
    column, else it assigned the converted column. *)
Lemma ensure_datetime_ok (col : string) (w w' : World) :
  ensure_datetime col w = (w', OK tt) ->
  (w' = w /\ datetime_column (caller_df w) col)
  \/ exists s s',
       df_getitem (caller_df w) col = OK s
       /\ is_datetime64_any_dtype s = false
       /\ to_datetime s = OK s'
       /\ w' = mkWorld (df_setitem (caller_df w) col s') (open_figures w).
Proof.
  unfold ensure_datetime, bind, get_df, lift, ret, setitem.
  destruct (df_getitem (caller_df w) col) as [s|e] eqn:Es; [|discriminate].
  destruct (is_datetime64_any_dtype s) eqn:Edt.
  - intros H; inversion H; subst. left. split; [reflexivity|now exists s].
  - destruct (to_datetime s) as [s'|e] eqn:Ec; [|discriminate].
    intros H; inversion H; subst. right. now exists s, s'.
Qed.

Lemma converted_length (df : DataFrame) (col : string) (s s' : Series) :
  df_getitem df col = OK s -> to_datetime s = OK s' ->
  List.length (s_values s') = df_len df.
Proof.
  intros Hs Hc. apply df_getitem_length in Hs.
  apply to_datetime_ok in Hc. destruct Hc as [_ Hc].
  apply Forall2_length_eq in Hc. congruence.
Qed.

(** A column that went through the conversion is [datetime64]. *)
Lemma ensure_datetime_ready (col : string) (w w' : World) :
  ensure_datetime col w = (w', OK tt) -> datetime_column (caller_df w') col.
Proof.
  intros H. apply ensure_datetime_ok in H.
  destruct H as [[-> H]|(s & s' & Hs & _ & Hc & ->)]; [exact H|].
  exists s'. simpl. split.
  - apply df_getitem_setitem_same. exact (converted_length _ _ _ _ Hs Hc).
  - apply to_datetime_ok in Hc. destruct Hc as [Hdt _].
    unfold is_datetime64_any_dtype. now rewrite Hdt.
Qed.

(** The conversion of one column leaves the other [datetime64] columns as
    they are. *)
Lemma ensure_datetime_keeps (col c : string) (w w' : World) :
  datetime_column (caller_df w) c ->
  ensure_datetime col w = (w', OK tt) -> datetime_column (caller_df w') c.
Proof.
  intros (sc & Hsc & Hdt) H. apply ensure_datetime_ok in H.
  destruct H as [[-> _]|(s & s' & Hs & Hno & Hc & ->)]; [now exists sc|].
  exists sc. simpl. split; [|exact Hdt].
  rewrite df_getitem_setitem_other; [exact Hsc| |].
  - intros ->. congruence.
  - exact (converted_length _ _ _ _ Hs Hc).
Qed.

End Conversions.

(** *** What a call changes *)

Lemma same_outside_refl (cols : list string) (d : DataFrame) :
  same_outside cols d d.
Proof.
  split; [reflexivity|].
  induction (df_rows d); constructor; auto.
Qed.

Lemma same_outside_trans (cols : list string) (d1 d2 d3 : DataFrame) :
  same_outside cols d1 d2 -> same_outside cols d2 d3 ->
  same_outside cols d1 d3.
Proof.
  intros [H1 R1] [H2 R2]. split.
  - intros c Hc. rewrite (H2 c Hc). now apply H1.
  - eapply Forall2_compose; [|exact R1|exact R2].
    intros r1 r2 r3 [E1 G1] [E2 G2]. split; [congruence|].
    intros c Hc. rewrite (G2 c Hc). now apply G1.
Qed.

Lemma same_outside_weaken (cols cols' : list string) (d d' : DataFrame) :
  (forall c, In c cols -> In c cols') ->
  same_outside cols d d' -> same_outside cols' d d'.
Proof.
  intros Hsub [H R]. split.
  - intros c Hc. apply H. auto.
  - eapply Forall2_impl; [|exact R].
    intros r r' _ [E G]. split; [exact E|]. intros c Hc. apply G. auto.
Qed.

Lemma df_setitem_same_outside (df : DataFrame) (col : string) (s : Series) :
  List.length (s_values s) = df_len df ->
  same_outside [col] df (df_setitem df col s).
Proof.
  intros Hlen. split.
  - intros c Hc. simpl.
    apply (get_set_other _ String.eqb_spec). intros ->. apply Hc. now left.
  - unfold df_setitem; simpl. unfold df_len in Hlen.
    revert Hlen. generalize (s_values s). generalize (df_rows df).
    induction l as [|r rows IH]; intros [|v vs] Hlen; simpl in *;
      try discriminate; constructor.
    + split; [reflexivity|]. intros c Hc. simpl.
      apply (get_set_other _ String.eqb_spec). intros ->. apply Hc. now left.
    + apply IH. congruence.
Qed.

Section Purity.
Context {pandas : PandasLib}.

Lemma converted_column_same_outside (col : string) (df df' : DataFrame) :
  converted_column col df df' -> same_outside [col] df df'.
Proof.
  intros [->|(s & s' & Hs & _ & Hc & ->)]; [apply same_outside_refl|].
  apply df_setitem_same_outside.
  unfold to_datetime in Hc. apply rbind_ok in Hc.
  destruct Hc as (vs & Hvs & Hc). inversion Hc; subst s'; simpl.
  apply mapM_ok, Forall2_length_eq in Hvs. rewrite <- Hvs.
  apply df_getitem_rows, Forall2_length_eq in Hs. now symmetry.
Qed.

Lemma converted_column_datetime (col : string) (df df' : DataFrame)
    (s : Series) :
  converted_column col df df' ->
  df_getitem df col = OK s -> is_datetime64_any_dtype s = true ->
  df' = df.
Proof.
  intros [->|(s0 & s' & Hs0 & Hdt & _ & _)] Hs Ht; [reflexivity|].
  congruence.
Qed.

Lemma to_datetime_cell_converted (c c' : cell) :
  to_datetime_cell c = OK c' -> converted_cell c c'.
Proof.
  destruct c as [s|n|t]; simpl.
  - destruct (parse_datetime s) as [t|]; [|discriminate].
    intros H; inversion H. now exists t.
  - intros H; now inversion H.
  - intros H; now inversion H.
Qed.

(** A [datetime64] column is the same after the conversion of any
    column. *)
Lemma ensure_datetime_keeps_series (col c : string) (w w' : World)
    (x : Series) :
  df_getitem (caller_df w) c = OK x -> is_datetime64_any_dtype x = true ->
  ensure_datetime col w = (w', OK tt) -> df_getitem (caller_df w') c = OK x.
Proof.
  intros Hx Hdt H. apply ensure_datetime_ok in H.
  destruct H as [[-> _]|(s & s' & Hs & Hno & Hc & ->)]; [exact Hx|].
  simpl. rewrite df_getitem_setitem_other; [exact Hx| |].
  - intros ->. congruence.
  - exact (converted_length _ _ _ _ Hs Hc).
Qed.

(** One conversion that went through. *)
Lemma ensure_datetime_step (col : string) (w w' : World) :
  ensure_datetime col w = (w', OK tt) ->
  date_column_converted col (caller_df w) (caller_df w')
  /\ datetime_column (caller_df w') col
  /\ df_columns (caller_df w') = df_columns (caller_df w)
  /\ forall c, c <> col ->
               df_getitem (caller_df w') c = df_getitem (caller_df w) c.
Proof.
  intros H. pose proof (ensure_datetime_ready _ _ _ H) as Hready.
  apply ensure_datetime_ok in H.
  destruct H as [[-> (s & Hs & Hdt)]|(s & s' & Hs & Hno & Hc & ->)].
  - split; [|split; [exact Hready|split; [reflexivity|reflexivity]]].
    exists s. split; [exact Hs|]. now rewrite Hdt.
  - pose proof (converted_length _ _ _ _ Hs Hc) as Hlen.
    split; [|split; [exact Hready|split]].
    + exists s. split; [exact Hs|]. rewrite Hno. exists s'.
      split; [exact Hc|]. simpl.
      split; [now apply df_getitem_setitem_same|].
      apply to_datetime_ok in Hc. destruct Hc as [Hdty Hcells].
      split; [exact Hdty|].
      eapply Forall2_impl; [|exact Hcells].
      intros c c' _. apply to_datetime_cell_converted.
    + unfold df_columns. simpl. rewrite (keys_set String.eqb).
      apply df_getitem_dtype in Hs. unfold Dict.mem. now rewrite Hs.
    + intros c Hne. simpl. apply df_getitem_setitem_other; [|exact Hlen].
      congruence.
Qed.

(** C9 (amended).  The resolver reads the column names of the table and
    nothing else.  A call of the engine with a mapping that lacks a
    mandatory role changes nothing; any call opens at most one figure and
    leaves the rows of the caller's table in place with their labels, and
    the dtypes and cells of all columns but the two date columns as they
    were, and the table wholly unchanged when both date columns already
    have the dtype [datetime64].  A call that returns a figure has opened
    one figure, which [pyplot] keeps, and has left the table with the
    columns it had, each of the two date columns being the column it was
    if that was [datetime64], and else its conversion by [to_datetime]: a
    [datetime64] column in which a [Timestamp] is the one it was, an [int]
    is the timestamp of that many nanoseconds and a text is the timestamp
    that the parser reads. *)
Theorem table_changed_only_by_date_conversion (columns : sdict string)
    (custom_colors : option (sdict string)) (bg grid : string)
    (df : DataFrame) (w' : World) (r : result Figure) :
  call (create_gantt_chart columns custom_colors bg grid) df = (w', r) ->
  (forall df', df_columns df' = df_columns df ->
               detect_columns df' = detect_columns df)
  /\ (caller_df w' = df
      \/ exists start_col end_col,
           sindex columns "start_date" = OK start_col
           /\ sindex columns "end_date" = OK end_col
           /\ same_outside [start_col; end_col] df (caller_df w')
           /\ (forall s e,
                 df_getitem df start_col = OK s ->
                 is_datetime64_any_dtype s = true ->
                 df_getitem df end_col = OK e ->
                 is_datetime64_any_dtype e = true ->
                 caller_df w' = df))
  /\ (open_figures w' <= 1)%nat
  /\ (first_missing_role columns <> None -> w' = mkWorld df 0)
  /\ (forall fig,
        r = OK fig ->
        exists start_col end_col,
          sindex columns "start_date" = OK start_col
          /\ sindex columns "end_date" = OK end_col
          /\ open_figures w' = 1%nat
          /\ df_columns (caller_df w') = df_columns df
          /\ date_column_converted start_col df (caller_df w')
          /\ date_column_converted end_col df (caller_df w')
          /\ datetime_column (caller_df w') start_col
          /\ datetime_column (caller_df w') end_col).
Proof.
  intros H. split.
  { intros df' E. unfold detect_columns. now rewrite E. }
  pose proof H as Hworld. apply create_gantt_chart_world in Hworld.
  split; [|split; [|split]].
  - destruct Hworld as [->|(sc & ec & df1 & Hs & He & C1 & C2 & Hf)];
      [now left|].
    simpl in C1. right. exists sc, ec.
    split; [exact Hs|]. split; [exact He|]. split.
    + apply (same_outside_trans _ _ df1).
      * apply (same_outside_weaken [sc]);
          [simpl; tauto|now apply converted_column_same_outside].
      * apply (same_outside_weaken [ec]);
          [simpl; tauto|now apply converted_column_same_outside].
    + intros s e Hgs Hds Hge Hde.
      assert (df1 = df)
        by exact (converted_column_datetime _ _ _ _ C1 Hgs Hds).
      subst df1.
      exact (converted_column_datetime _ _ _ _ C2 Hge Hde).
  - destruct Hworld as [->|(sc & ec & df1 & _ & _ & _ & _ & Hf)];
      simpl in *; lia.
  - intros Hmiss. revert H. unfold call. rewrite create_gantt_chart_eq.
    revert Hmiss. unfold first_missing_role, required_cols, sindex, Dict.mem.
    simpl find.
    destruct (sget "task" columns) as [tc|]; simpl;
      [|intros _ H; now inversion H].
    destruct (sget "start_date" columns) as [sc|]; simpl;
      [|intros _ H; now inversion H].
    destruct (sget "end_date" columns) as [ec|]; simpl;
      [intros Hmiss; congruence|intros _ H; now inversion H].
  - intros fig ->. revert H. unfold call. rewrite create_gantt_chart_eq.
    destruct (sindex columns "task") as [tc|e]; [|discriminate].
    destruct (sindex columns "start_date") as [sc|e]; [|discriminate].
    destruct (sindex columns "end_date") as [ec|e]; [|discriminate].
    simpl caller_df. simpl open_figures.
    destruct (ensure_datetime sc (mkWorld df 1)) as [w1 [[]|e]] eqn:E1;
      [|discriminate].
    destruct (ensure_datetime ec w1) as [w2 [[]|e]] eqn:E2; [|discriminate].
    intros H. injection H as Hw _. subst w2.
    destruct (ensure_datetime_step _ _ _ E1) as (D1 & R1 & K1 & O1).
    destruct (ensure_datetime_step _ _ _ E2) as (D2 & R2 & K2 & O2).
    simpl in D1, K1, O1.
    pose proof (ensure_datetime_keeps _ _ _ _ R1 E2) as Rs.
    assert (Ds : date_column_converted sc df (caller_df w')).
    { destruct D1 as (s & Hs & D1). exists s. split; [exact Hs|].
      destruct (is_datetime64_any_dtype s) eqn:Edt.
      - exact (ensure_datetime_keeps_series _ _ _ _ _ D1 Edt E2).
      - destruct D1 as (s' & Hc & Hs' & Hdty & Hcells).
        exists s'. split; [exact Hc|]. split; [|now split].
        apply (ensure_datetime_keeps_series ec sc w1 w' s' Hs'); [|exact E2].
        unfold is_datetime64_any_dtype. now rewrite Hdty. }
    exists sc, ec. split; [reflexivity|]. split; [reflexivity|].
    split.
    { apply ensure_datetime_run in E1, E2. simpl in E1.
      destruct E1 as [F1 _], E2 as [F2 _]. congruence. }
    split; [now rewrite K2, K1|]. split; [exact Ds|].
    split; [|split; [exact Rs|exact R2]].
    destruct (String.eqb_spec ec sc) as [->|Hne]; [exact Ds|].
    destruct D2 as (s & Hs & D2). exists s.
    split; [now rewrite <- (O1 ec Hne)|exact D2].
Qed.

End Purity.

Lemma table_changed_only_by_date_conversion_witness :
  chart pandas_stable text_dates_df
  = (mkWorld text_dates_converted_df 1,
     OK (returned (chart pandas_stable text_dates_df)))
  /\ text_dates_converted_df <> text_dates_df
  /\ df_getitem text_dates_df "Start"
     = OK (mkSeries object_ [CStr "2025-03-01"])
  /\ df_getitem text_dates_converted_df "Start"
     = OK (mkSeries datetime64 [CTs (midnight 2025 3 1)])
  /\ df_getitem text_dates_converted_df "End"
     = OK (mkSeries datetime64 [CTs (midnight 2025 3 10)])
  /\ open_figures (fst (chart pandas_stable text_dates_df)) = 1%nat
  /\ date_column_converted (pandas := pandas_stable) "Start"
       text_dates_df text_dates_converted_df
  /\ date_column_converted (pandas := pandas_stable) "End"
       text_dates_df text_dates_converted_df.
Proof.
  assert (H : chart pandas_stable text_dates_df
              = (mkWorld text_dates_converted_df 1,
                 OK (returned (chart pandas_stable text_dates_df))))
    by (vm_compute; reflexivity).
  split; [exact H|]. split; [discriminate|].
  split; [reflexivity|]. split; [reflexivity|]. split; [reflexivity|].
  destruct (table_changed_only_by_date_conversion (pandas := pandas_stable)
              role_mapping None default_background default_grid
              text_dates_df _ _ H)
    as (_ & _ & _ & _ & Hconv).
  destruct (Hconv _ eq_refl) as (sc & ec & Hs & He & Hfig & _ & Ds & De & _).
  split; [exact Hfig|].
  assert (E1 : sc = "Start") by (vm_compute in Hs; congruence).
  assert (E2 : ec = "End") by (vm_compute in He; congruence).
  subst sc ec. split; [exact Ds|exact De].
Defined.

(** C9 as stated fails: after a call on a table whose dates are text, the
    caller's table holds timestamps in columns of dtype [datetime64], and
    [pyplot] holds a figure that was not there before. *)
Lemma caller_table_is_changed :
  detect_columns text_dates_df = OK role_mapping
  /\ caller_df (fst (chart pandas_stable text_dates_df))
     = text_dates_converted_df
  /\ text_dates_converted_df <> text_dates_df
  /\ open_figures (fst (chart pandas_stable text_dates_df)) = 1%nat.
Proof.
  split; [reflexivity|]. split; [vm_compute; reflexivity|].
  split; [discriminate|]. vm_compute; reflexivity.
Qed.

(** *** Loops and sorts that go through *)

Lemma mapM_exists {A B : Type} (f : A -> result B) (xs : list A) :
  (forall x, In x xs -> exists y, f x = OK y) ->
  exists ys, mapM f xs = OK ys.
Proof.
  induction xs as [|x xs IH]; intros H; simpl; [now exists []|].
  destruct (H x (or_introl eq_refl)) as [y ->].
  destruct IH as [ys ->]; [intros x' Hx'; apply H; now right|].
  now exists (y :: ys).
Qed.

Lemma sindex_get {V : Type} (d : sdict V) (k : string) (v : V) :
  sget k d = Some v -> sindex d k = OK v.
Proof. unfold sindex. now intros ->. Qed.

Lemma take_in {A : Type} (idx : list nat) (xs : list A) (x : A) :
  In x (take idx xs) -> In x xs.
Proof.
  unfold take. rewrite in_flat_map. intros (i & _ & Hx).
  destruct (nth_error xs i) as [y|] eqn:E; [|destruct Hx].
  destruct Hx as [<-|[]]. now apply nth_error_In in E.
Qed.

Lemma insert_sorted_exists (c : cell) (cs : list cell) :
  (forall c', In c' cs -> comparable c' c) ->
  exists l, insert_sorted c cs = OK l.
Proof.
  induction cs as [|c' cs IH]; intros H; simpl; [now eexists|].
  destruct (H c' (or_introl eq_refl)) as [lt ->]. simpl.
  destruct lt; [|now eexists].
  destruct IH as [l ->]; [intros x Hx; apply H; now right|].
  now eexists.
Qed.

Lemma sorted_exists (cs : list cell) :
  (forall a b, In a cs -> In b cs -> comparable a b) ->
  exists l, sorted cs = OK l.
Proof.
  induction cs as [|c cs IH]; intros H; simpl; [now eexists|].
  destruct IH as [l Hl]; [intros a b Ha Hb; apply H; now right|].
  rewrite Hl. simpl. apply insert_sorted_exists.
  intros c' Hc'. apply (Permutation_in _ (sorted_perm _ _ Hl)) in Hc'.
  apply H; [now right|now left].
Qed.

(** * Further properties

    Properties of the resolver and of the engine beyond those of the
    specification. *)

(** ** The resolver *)

Lemma mem_in_keys {V : Type} (k : string) (d : sdict V) :
  smem k d = existsb (String.eqb k) (Dict.keys d).
Proof.
  unfold Dict.mem. induction d as [|[k' v] d IH]; simpl; [reflexivity|].
  destruct (String.eqb k k'); [reflexivity|exact IH].
Qed.

Lemma columns_lower_first_appearances (columns : list string) :
  Dict.keys (columns_lower_of columns) = first_appearances (map lower columns).
Proof.
  unfold first_appearances.
  induction columns as [|c columns IH] using rev_ind; [reflexivity|].
  rewrite columns_lower_snoc, (keys_set String.eqb), map_app, fold_left_app.
  simpl. rewrite <- IH, mem_in_keys. reflexivity.
Qed.

Lemma resolve_role_key (pl : list string) (items : sdict string) :
  (forall k v, In (k, v) items -> k = lower v) ->
  option_map lower (resolve_role pl items) = resolve_key pl (Dict.keys items).
Proof.
  intros Hitems. induction pl as [|p pl IH]; simpl; [reflexivity|].
  unfold first_item_containing.
  assert (H : option_map fst (find (fun kv => str_in p (fst kv)) items)
              = find (str_in p) (Dict.keys items)).
  { clear. induction items as [|[k v] items IH]; simpl; [reflexivity|].
    destruct (str_in p k); [reflexivity|exact IH]. }
  rewrite <- H.
  destruct (find (fun kv => str_in p (fst kv)) items) as [[k v]|] eqn:E;
    simpl; [|exact IH].
  apply find_some in E. destruct E as [Hin _].
  now rewrite (Hitems _ _ Hin).
Qed.

(** The lowercased name of the column of a role is a function of the
    lowercased column names. *)
Lemma resolved_lower (df : DataFrame) (role : string) :
  option_map lower (sget role (resolved df))
  = match sget role patterns with
    | Some pl =>
        resolve_key pl (first_appearances (map lower (df_columns df)))
    | None => None
    end.
Proof.
  unfold resolved. rewrite find_matching_get.
  destruct (sget role patterns) as [pl|]; [|reflexivity].
  rewrite <- columns_lower_first_appearances. apply resolve_role_key.
  intros k v Hin. now destruct (columns_lower_items _ _ _ Hin).
Qed.

Lemma resolve_role_pattern (pl : list string) (items : sdict string)
    (col : string) :
  resolve_role pl items = Some col ->
  exists pattern k, In pattern pl /\ In (k, col) items
                    /\ str_in pattern k = true.
Proof.
  induction pl as [|p pl IH]; simpl; [discriminate|].
  unfold first_item_containing.
  destruct (find (fun kv => str_in p (fst kv)) items) as [[k v]|] eqn:E;
    simpl.
  - intros H; inversion H; subst v. apply find_some in E.
    destruct E as [Hin Hp]. exists p, k. split; [now left|now split].
  - intros H. destruct (IH H) as (pattern & k & Hp & Hin & Hs).
    exists pattern, k. split; [now right|now split].
Qed.

Lemma matchable_lower (columns columns' : list string) (role : string) :
  map lower columns = map lower columns' ->
  matchable columns role = matchable columns' role.
Proof.
  intros E. unfold matchable.
  destruct (sget role patterns) as [pl|]; [|reflexivity].
  assert (H : forall p cs,
            existsb (fun col => str_in p (lower col)) cs
            = existsb (str_in p) (map lower cs)).
  { intros p cs. induction cs as [|c cs IH]; simpl; [reflexivity|].
    now rewrite IH. }
  induction pl as [|p pl IH]; simpl; [reflexivity|].
  now rewrite IH, !H, E.
Qed.

(** X1.  Every entry of a mapping that the resolver returns maps one of
    the five roles to a column of the table whose lowercased name contains
    one of the patterns of that role. *)
Theorem mapped_column_matches_its_role (df : DataFrame) (m : sdict string)
    (role col : string) :
  detect_columns df = OK m ->
  sget role m = Some col ->
  In col (df_columns df)
  /\ exists pl pattern,
       In (role, pl) patterns /\ In pattern pl
       /\ str_in pattern (lower col) = true.
Proof.
  intros Hm Hget. split; [exact (detect_columns_in _ _ _ _ Hm Hget)|].
  apply detect_columns_ok in Hm. destruct Hm as [-> _].
  rewrite find_matching_get in Hget.
  destruct (sget role patterns) as [pl|] eqn:Epl; [|discriminate].
  apply (get_in _ String.eqb_spec) in Epl.
  destruct (resolve_role_pattern _ _ _ Hget) as (pattern & k & Hp & Hin & Hs).
  destruct (columns_lower_items _ _ _ Hin) as [-> _].
  exists pl, pattern. now repeat split.
Qed.

Lemma mapped_column_matches_its_role_witness :
  detect_columns scenario_df = OK scenario_mapping
  /\ sget "end_date" scenario_mapping = Some "Finish"
  /\ In "Finish" (df_columns scenario_df)
  /\ str_in "finish" (lower "Finish") = true.
Proof.
  split; [reflexivity|]. split; [reflexivity|].
  split; [|reflexivity].
  exact (proj1 (mapped_column_matches_its_role scenario_df scenario_mapping
                  "end_date" "Finish" eq_refl eq_refl)).
Defined.

(** X2.  The resolver returns a mapping exactly when each of the three
    mandatory roles is matchable; the mapping then holds every role that
    is matchable, the optional ones included, and no other. *)
Theorem resolver_succeeds_iff_mandatory_matchable (df : DataFrame) :
  ((exists m, detect_columns df = OK m)
   <-> forall role, In role required_cols ->
                    matchable (df_columns df) role = true)
  /\ (forall m role, detect_columns df = OK m ->
                     smem role m = matchable (df_columns df) role).
Proof.
  split; [split|].
  - intros [m Hm] role Hreq.
    destruct (matchable (df_columns df) role) eqn:E; [reflexivity|].
    apply detect_columns_ok in Hm. destruct Hm as [_ Hnone].
    assert (Hin : In role (unresolved_roles (df_columns df))).
    { unfold unresolved_roles. apply filter_In. split; [exact Hreq|].
      now rewrite E. }
    rewrite Hnone in Hin. destruct Hin.
  - intros Hall. unfold detect_columns. rewrite missing_cols_unresolved.
    destruct (unresolved_roles (df_columns df)) as [|r rs] eqn:E;
      [now eexists|].
    assert (Hin : In r (unresolved_roles (df_columns df)))
      by (rewrite E; now left).
    unfold unresolved_roles in Hin. apply filter_In in Hin.
    destruct Hin as [Hreq Hno]. rewrite (Hall r Hreq) in Hno. discriminate.
  - intros m role Hm. apply detect_columns_ok in Hm. destruct Hm as [-> _].
    apply mem_find_matching.
Qed.

(** X3.  The resolver matches without regard to case: for two tables whose
    column names are the same after lowercasing, it maps every role to
    columns with the same lowercased name, and it returns a mapping for
    both or raises the same error for both. *)
Theorem resolver_ignores_case (df1 df2 : DataFrame) :
  map lower (df_columns df1) = map lower (df_columns df2) ->
  (forall role,
     option_map lower (sget role (resolved df1))
     = option_map lower (sget role (resolved df2)))
  /\ match detect_columns df1, detect_columns df2 with
     | OK m1, OK m2 => m1 = resolved df1 /\ m2 = resolved df2
     | Raise e1, Raise e2 => e1 = e2
     | _, _ => False
     end.
Proof.
  intros E. split.
  - intros role. rewrite !resolved_lower, E. reflexivity.
  - unfold detect_columns, resolved. rewrite !missing_cols_unresolved.
    assert (Hu : unresolved_roles (df_columns df1)
                 = unresolved_roles (df_columns df2)).
    { unfold unresolved_roles. apply filter_ext. intros role.
      now rewrite (matchable_lower _ _ role E). }
    rewrite Hu.
    destruct (unresolved_roles (df_columns df2)); [now split|reflexivity].
Qed.

Lemma resolver_ignores_case_witness :
  map lower (df_columns (header_only ["TASK NAME"; "begin"; "FINISH"]))
  = map lower (df_columns scenario_df)
  /\ detect_columns (header_only ["TASK NAME"; "begin"; "FINISH"])
     = OK [("task", "TASK NAME"); ("start_date", "begin");
           ("end_date", "FINISH")]
  /\ forall role,
       option_map lower
         (sget role (resolved (header_only ["TASK NAME"; "begin"; "FINISH"])))
       = option_map lower (sget role (resolved scenario_df)).
Proof.
  split; [reflexivity|]. split; [reflexivity|].
  exact (proj1 (resolver_ignores_case
                  (header_only ["TASK NAME"; "begin"; "FINISH"]) scenario_df
                  eq_refl)).
Defined.


(** ** Calls that fail *)

Section Failures.
Context {pandas : PandasLib}.

(** X4.  When the mapping lacks a mandatory role, the engine raises
    [KeyError] for the first such role in the order task, start_date,
    end_date, before it opens a figure or touches the table. *)
Theorem missing_role_raises_key_error (columns : sdict string)
    (custom_colors : option (sdict string)) (bg grid : string)
    (df : DataFrame) (role : string) :
  first_missing_role columns = Some role ->
  call (create_gantt_chart columns custom_colors bg grid) df
  = (mkWorld df 0, Raise (KeyError (CStr role))).
Proof.
  unfold first_missing_role, call. rewrite create_gantt_chart_eq.
  unfold required_cols, sindex, Dict.mem. simpl find.
  destruct (sget "task" columns) as [tc|]; simpl;
    [|intros H; inversion H; reflexivity].
  destruct (sget "start_date" columns) as [sc|]; simpl;
    [|intros H; inversion H; reflexivity].
  destruct (sget "end_date" columns) as [ec|]; simpl;
    [discriminate|intros H; inversion H; reflexivity].
Qed.

(** X5.  When the mapping names a start column that the table does not
    have, the engine raises [KeyError] for that column: it has opened a
    figure by then and has not changed the table. *)
Theorem absent_start_column_raises_key_error (columns : sdict string)
    (custom_colors : option (sdict string)) (bg grid : string)
    (df : DataFrame) (start_col : string) :
  first_missing_role columns = None ->
  sget "start_date" columns = Some start_col ->
  sget start_col (df_dtypes df) = None ->
  call (create_gantt_chart columns custom_colors bg grid) df
  = (mkWorld df 1, Raise (KeyError (CStr start_col))).
Proof.
  unfold first_missing_role, call. rewrite create_gantt_chart_eq.
  unfold required_cols, sindex at 1 2 3, Dict.mem. simpl find.
  intros Hroles Hs Hno. rewrite Hs in *.
  destruct (sget "task" columns) as [tc|]; simpl in Hroles; [|discriminate].
  destruct (sget "end_date" columns) as [ec|]; simpl in Hroles;
    [|discriminate].
  unfold ensure_datetime, bind, get_df, lift, df_getitem, sindex. simpl.
  rewrite Hno. reflexivity.
Qed.

(** X6.  When the start column is converted and the end column then holds
    a cell that is no date, the engine raises the error of the conversion
    and the caller's table is left with its start column converted: that
    column now has the dtype [datetime64], which it had not. *)
Theorem failed_end_conversion_keeps_start_converted (columns : sdict string)
    (custom_colors : option (sdict string)) (bg grid : string)
    (df : DataFrame) (task_col start_col end_col : string)
    (s s' e : Series) (err : exn) :
  sindex columns "task" = OK task_col ->
  sindex columns "start_date" = OK start_col ->
  sindex columns "end_date" = OK end_col ->
  df_getitem df start_col = OK s ->
  is_datetime64_any_dtype s = false ->
  to_datetime s = OK s' ->
  df_getitem (df_setitem df start_col s') end_col = OK e ->
  is_datetime64_any_dtype e = false ->
  to_datetime e = Raise err ->
  call (create_gantt_chart columns custom_colors bg grid) df
  = (mkWorld (df_setitem df start_col s') 1, Raise err)
  /\ sget start_col (df_dtypes (df_setitem df start_col s'))
     = Some datetime64
  /\ sget start_col (df_dtypes df) <> Some datetime64.
Proof.
  intros Ht Hs He Hgs Hds Hcs Hge Hde Hce. split; [|split].
  - unfold call. rewrite create_gantt_chart_eq, Ht, Hs, He.
    unfold ensure_datetime, bind, get_df, lift, ret, setitem. simpl.
    rewrite Hgs, Hds, Hcs. simpl. rewrite Hge, Hde, Hce. reflexivity.
  - simpl. rewrite (get_set_same _ String.eqb_spec).
    unfold to_datetime in Hcs. apply rbind_ok in Hcs.
    destruct Hcs as (vs & _ & Hcs). now inversion Hcs.
  - intros Hdt. unfold df_getitem in Hgs.
    rewrite (sindex_get _ _ _ Hdt) in Hgs. simpl in Hgs.
    apply rbind_ok in Hgs. destruct Hgs as (vs & _ & Hgs).
    inversion Hgs; subst s. discriminate.
Qed.

End Failures.

Lemma missing_role_raises_key_error_witness :
  first_missing_role no_start_mapping = Some "start_date"
  /\ call (create_gantt_chart (pandas := pandas_stable) no_start_mapping None
             default_background default_grid) two_tasks_df
     = (mkWorld two_tasks_df 0, Raise (KeyError (CStr "start_date"))).
Proof.
  split; [reflexivity|].
  exact (missing_role_raises_key_error (pandas := pandas_stable)
           no_start_mapping None default_background default_grid
           two_tasks_df "start_date" eq_refl).
Defined.

Lemma absent_start_column_raises_key_error_witness :
  first_missing_role wrong_start_mapping = None
  /\ sget "start_date" wrong_start_mapping = Some "Begin"
  /\ sget "Begin" (df_dtypes two_tasks_df) = None
  /\ call (create_gantt_chart (pandas := pandas_stable) wrong_start_mapping
             None default_background default_grid) two_tasks_df
     = (mkWorld two_tasks_df 1, Raise (KeyError (CStr "Begin"))).
Proof.
  split; [reflexivity|]. split; [reflexivity|]. split; [reflexivity|].
  exact (absent_start_column_raises_key_error (pandas := pandas_stable)
           wrong_start_mapping None default_background default_grid
           two_tasks_df "Begin" eq_refl eq_refl eq_refl).
Defined.

Lemma failed_end_conversion_keeps_start_converted_witness :
  df_getitem bad_end_df "Start"
  = OK (mkSeries object_ [CStr "2025-03-01"])
  /\ to_datetime (pandas := pandas_stable)
       (mkSeries object_ [CStr "2025-03-01"])
     = OK (mkSeries datetime64 [CTs (midnight 2025 3 1)])
  /\ to_datetime (pandas := pandas_stable) (mkSeries object_ [CStr "soon"])
     = Raise (ValueError
                "Unknown datetime string format, unable to parse: soon")
  /\ caller_df (fst (chart pandas_stable bad_end_df))
     = mkDataFrame
         [("Task", object_); ("Start", datetime64); ("End", object_)]
         [(0, [("Task", CStr "A"); ("Start", CTs (midnight 2025 3 1));
               ("End", CStr "soon")])]
  /\ chart pandas_stable bad_end_df
     = (mkWorld
          (df_setitem bad_end_df "Start"
             (mkSeries datetime64 [CTs (midnight 2025 3 1)])) 1,
        Raise (ValueError
                 "Unknown datetime string format, unable to parse: soon")).
Proof.
  split; [reflexivity|]. split; [vm_compute; reflexivity|].
  split; [reflexivity|]. split; [vm_compute; reflexivity|].
  exact (proj1 (failed_end_conversion_keeps_start_converted
                  (pandas := pandas_stable) role_mapping None
                  default_background default_grid bad_end_df
                  "Task" "Start" "End"
                  (mkSeries object_ [CStr "2025-03-01"])
                  (mkSeries datetime64 [CTs (midnight 2025 3 1)])
                  (mkSeries object_ [CStr "soon"])
                  (ValueError
                     "Unknown datetime string format, unable to parse: soon")
                  eq_refl eq_refl eq_refl eq_refl eq_refl eq_refl
                  eq_refl eq_refl eq_refl)).
Defined.

(** ** Calls on a table that is ready *)

Section Ready.
Context {pandas : PandasLib}.

(** X7.  A call that returned a figure leaves the table ready: a second
    call with the same arguments on the table that the first one left
    changes nothing in it and returns the same figure. *)
Theorem second_call_draws_same_figure (columns : sdict string)
    (custom_colors : option (sdict string)) (bg grid : string)
    (df : DataFrame) (w' : World) (fig : Figure) :
  call (create_gantt_chart columns custom_colors bg grid) df = (w', OK fig) ->
  call (create_gantt_chart columns custom_colors bg grid) (caller_df w')
  = (mkWorld (caller_df w') 1, OK fig).
Proof.
  unfold call. rewrite !create_gantt_chart_eq. simpl caller_df.
  simpl open_figures.
  destruct (sindex columns "task") as [tc|e]; [|discriminate].
  destruct (sindex columns "start_date") as [sc|e]; [|discriminate].
  destruct (sindex columns "end_date") as [ec|e]; [|discriminate].
  destruct (ensure_datetime sc (mkWorld df 1)) as [w1 [[]|e]] eqn:E1;
    [|discriminate].
  destruct (ensure_datetime ec w1) as [w2 [[]|e]] eqn:E2; [|discriminate].
  intros H. injection H as Hw Hr. subst w2.
  pose proof (ensure_datetime_ready _ _ _ E1) as R1.
  pose proof (ensure_datetime_keeps _ _ _ _ R1 E2) as Rs.
  pose proof (ensure_datetime_ready _ _ _ E2) as Re.
  rewrite (ensure_datetime_noop _ _ _ Rs), (ensure_datetime_noop _ _ _ Re).
  simpl caller_df. now rewrite Hr.
Qed.

End Ready.

Lemma second_call_draws_same_figure_witness :
  caller_df (fst (chart pandas_stable text_dates_df))
  = text_dates_converted_df
  /\ exists fig,
       chart pandas_stable text_dates_df
       = (mkWorld text_dates_converted_df 1, OK fig)
       /\ chart pandas_stable text_dates_converted_df
          = (mkWorld text_dates_converted_df 1, OK fig).
Proof.
  split; [vm_compute; reflexivity|].
  exists (returned (chart pandas_stable text_dates_df)).
  assert (H : chart pandas_stable text_dates_df
              = (mkWorld text_dates_converted_df 1,
                 OK (returned (chart pandas_stable text_dates_df))))
    by (vm_compute; reflexivity).
  split; [exact H|].
  exact (second_call_draws_same_figure (pandas := pandas_stable)
           role_mapping None default_background default_grid
           text_dates_df (mkWorld text_dates_converted_df 1)
           (returned (chart pandas_stable text_dates_df)) H).
Defined.

(** ** Labels, texts and legend *)

Section Content.
Context {pandas : PandasLib}.




End Content.

(** The chart of the plan, with the default colours. *)
Definition plan_chart : World * result Figure :=
  call (create_gantt_chart (pandas := pandas_stable) plan_mapping None
          default_background default_grid) plan_df.

Example detect_plan_columns : detect_columns plan_df = OK plan_mapping.
Proof. reflexivity. Qed.

Lemma plan_chart_returns :
  plan_chart = (mkWorld plan_df 1, OK (returned plan_chart)).
Proof. vm_compute; reflexivity. Qed.




(** ** The order of the phases *)

(** There is one strictly ascending arrangement of given cells. *)
Lemma strongly_sorted_unique (l1 l2 : list cell) :
  StronglySorted cell_before l1 -> StronglySorted cell_before l2 ->
  Permutation l1 l2 -> l1 = l2.
Proof.
  intros H1. revert l2. induction H1 as [|a l1 Hs1 IH Hall1]; intros l2 H2 Hp.
  - apply Permutation_nil in Hp. now subst.
  - destruct H2 as [|b l2 Hs2 Hall2].
    + apply Permutation_sym, Permutation_nil in Hp. discriminate.
    + rewrite Forall_forall in Hall1, Hall2.
      assert (E : a = b).
      { assert (Ha : In a (b :: l2))
          by (apply (Permutation_in _ Hp); now left).
        assert (Hb : In b (a :: l1))
          by (apply (Permutation_in _ (Permutation_sym Hp)); now left).
        destruct Ha as [Ha|Ha]; [now symmetry|].
        destruct Hb as [Hb|Hb]; [exact Hb|].
        exfalso. apply (cell_before_irrefl a).
        exact (cell_before_trans _ _ _ (Hall1 b Hb) (Hall2 a Ha)). }
      subst b. f_equal. apply IH; [exact Hs2|].
      exact (Permutation_cons_inv Hp).
Qed.

(** The sorted distinct values depend on which values there are, not on
    their order or number. *)
Lemma sorted_unique_agree (vs1 vs2 l : list cell) :
  (forall x, In x vs1 <-> In x vs2) ->
  sorted (unique vs1) = OK l -> sorted (unique vs2) = OK l.
Proof.
  intros Hin H1.
  assert (Hperm : Permutation (unique vs1) (unique vs2)).
  { apply NoDup_Permutation; try apply unique_nodup.
    intros x. rewrite !unique_in. apply Hin. }
  destruct (sorted_exists (unique vs2)) as [l2 H2].
  { intros a b Ha Hb.
    apply (Permutation_in _ (Permutation_sym Hperm)) in Ha, Hb.
    exact (sorted_ok_comparable _ _ H1 a b Ha Hb). }
  rewrite H2. f_equal. symmetry.
  apply strongly_sorted_unique.
  - exact (sorted_strongly _ _ (unique_nodup _) H1).
  - exact (sorted_strongly _ _ (unique_nodup _) H2).
  - rewrite (sorted_perm _ _ H1), (sorted_perm _ _ H2). exact Hperm.
Qed.

Section Order.
Context {pandas : PandasLib}.

(** X12.  The labels of the legend are in strictly ascending order: each
    is less than all that follow it. *)
Theorem legend_labels_ascend (columns : sdict string)
    (custom_colors : option (sdict string)) (bg grid : string)
    (df : DataFrame) (w' : World) (fig : Figure) (lg : Legend) :
  call (create_gantt_chart columns custom_colors bg grid) df = (w', OK fig) ->
  ax_legend (fig_axes fig) = Some lg ->
  StronglySorted cell_before (legend_labels lg).
Proof.
  intros H Hlg. apply create_gantt_chart_parts in H.
  destruct H as (tc & sc & ec & d & phases & plotted & _ & _ & _ & Hdt
                 & _ & _ & Hph & _ & _ & _ & _ & _ & Hlg').
  rewrite Hlg in Hlg'.
  rewrite <- (present_col_dtypes _ _ (sget "phase" columns) Hdt) in Hlg'.
  unfold phases_of in Hph.
  destruct (present_col d (sget "phase" columns)) as [pc|]; [|discriminate].
  inversion Hlg'; subst lg; simpl.
  destruct Hph as (s & _ & Hsorted).
  exact (sorted_strongly _ _ (unique_nodup _) Hsorted).
Qed.

End Order.

Lemma legend_labels_ascend_witness :
  plan_chart = (mkWorld plan_df 1, OK (returned plan_chart))
  /\ ax_legend (fig_axes (returned plan_chart))
     = Some (mkLegend [ColorRGB 27 158 119; ColorRGB 217 95 2]
               [CStr "Check"; CStr "Make"] default_background default_grid)
  /\ StronglySorted cell_before [CStr "Check"; CStr "Make"].
Proof.
  assert (Hlg : ax_legend (fig_axes (returned plan_chart))
                = Some (mkLegend [ColorRGB 27 158 119; ColorRGB 217 95 2]
                          [CStr "Check"; CStr "Make"]
                          default_background default_grid))
    by (vm_compute; reflexivity).
  split; [exact plan_chart_returns|]. split; [exact Hlg|].
  exact (legend_labels_ascend (pandas := pandas_stable)
           plan_mapping None default_background default_grid
           plan_df _ _ _ plan_chart_returns Hlg).
Defined.

(** ** The phases of a file *)

Lemma detect_columns_resolved (df : DataFrame) (m : sdict string) :
  detect_columns df = OK m -> m = resolved df.
Proof. intros H. apply detect_columns_ok in H. now destruct H. Qed.

Lemma patterns_nonempty (role : string) (pl : list string) (p : string) :
  In (role, pl) patterns -> In p pl -> p <> "".
Proof.
  assert (H : Forall (fun kp : string * list string =>
                        Forall (fun p => p <> "") (snd kp)) patterns)
    by (repeat constructor; discriminate).
  rewrite Forall_forall in H. intros Hin Hp.
  specialize (H _ Hin). rewrite Forall_forall in H. now apply H.
Qed.

(** The resolver maps no role to a column without a name. *)
Lemma mapped_column_nonempty (df : DataFrame) (m : sdict string)
    (role col : string) :
  detect_columns df = OK m -> sget role m = Some col -> col <> "".
Proof.
  intros Hm Hget. apply detect_columns_ok in Hm. destruct Hm as [-> _].
  rewrite find_matching_get in Hget.
  destruct (sget role patterns) as [pl|] eqn:Epl; [|discriminate].
  apply (get_in _ String.eqb_spec) in Epl.
  destruct (resolve_role_pattern _ _ _ Hget) as (p & k & Hp & Hin & Hs).
  destruct (columns_lower_items _ _ _ Hin) as [-> _].
  intros ->. pose proof (patterns_nonempty _ _ _ Epl Hp) as Hne.
  destruct p; [congruence|discriminate].
Qed.

Lemma df_getitem_in (df : DataFrame) (col : string) (s : Series) (x : cell) :
  df_getitem df col = OK s ->
  In x (s_values s)
  <-> exists r, In r (df_rows df) /\ sindex (snd r) col = OK x.
Proof.
  intros H. apply df_getitem_rows in H. split.
  - intros Hx. exact (Forall2_in_r _ _ _ _ H Hx).
  - intros (r & Hr & Hx).
    destruct (Forall2_in_l _ _ _ _ H Hr) as (v & Hv & Hrv).
    assert (E : OK v = OK x)
      by (transitivity (sindex (snd r) col); [symmetry; exact Hrv|exact Hx]).
    now inversion E; subst.
Qed.

Lemma df_getitem_exists (df : DataFrame) (col : string) (dt : dtype) :
  sget col (df_dtypes df) = Some dt ->
  (forall r, In r (df_rows df) -> exists v, sindex (snd r) col = OK v) ->
  exists vs, df_getitem df col = OK (mkSeries dt vs).
Proof.
  intros Hdt Hcells. unfold df_getitem. rewrite (sindex_get _ _ _ Hdt). simpl.
  destruct (mapM_exists (fun r : Z * Row => sindex (snd r) col) (df_rows df)
              Hcells) as [vs ->].
  now exists vs.
Qed.

Lemma sindex_some {V : Type} (d : sdict V) (k : string) (v : V) :
  sindex d k = OK v -> sget k d = Some v.
Proof.
  unfold sindex. destruct (sget k d); intros H; inversion H; reflexivity.
Qed.

Section Phases.
Context {pandas : PandasLib}.

(** A call leaves the columns that are not date columns as they are. *)
Lemma call_keeps_other_columns (columns : sdict string)
    (custom_colors : option (sdict string)) (bg grid : string)
    (df : DataFrame) (w' : World) (r : result Figure) (pc : string) :
  call (create_gantt_chart columns custom_colors bg grid) df = (w', r) ->
  sget "start_date" columns <> Some pc ->
  sget "end_date" columns <> Some pc ->
  sget pc (df_dtypes (caller_df w')) = sget pc (df_dtypes df)
  /\ Forall2 (fun r0 r' : Z * Row => sget pc (snd r') = sget pc (snd r0))
       (df_rows df) (df_rows (caller_df w')).
Proof.
  unfold call. intros H Hs He. apply create_gantt_chart_world in H.
  destruct H as [->|(sc & ec & df1 & Hsc & Hec & C1 & C2 & _)].
  - simpl. split; [reflexivity|].
    induction (df_rows df); constructor; auto.
  - simpl in C1. apply sindex_some in Hsc, Hec.
    assert (Hnot : ~ In pc [sc; ec]).
    { intros [<-|[<-|[]]]; contradiction. }
    apply converted_column_same_outside in C1, C2.
    apply (same_outside_weaken _ [sc; ec]) in C1;
      [|intros c [<-|[]]; now left].
    apply (same_outside_weaken _ [sc; ec]) in C2;
      [|intros c [<-|[]]; right; now left].
    destruct (same_outside_trans _ _ _ _ C1 C2) as [Hd Hr].
    split; [now apply Hd|].
    eapply Forall2_impl; [|exact Hr].
    intros r0 r' _ [_ G]. now apply G.
Qed.

(** The labels of the legend of a chart are the sorted distinct cells of
    the phase column of the table, when that is no date column. *)
Lemma chart_phases (custom_colors : option (sdict string)) (bg grid : string)
    (df : DataFrame) (m : sdict string) (w' : World) (fig : Figure)
    (pc : string) :
  detect_columns df = OK m ->
  call (create_gantt_chart m custom_colors bg grid) df = (w', OK fig) ->
  sget "phase" m = Some pc ->
  sget "start_date" m <> Some pc -> sget "end_date" m <> Some pc ->
  exists vs,
    (forall x, In x vs
               <-> exists r, In r (df_rows df) /\ sindex (snd r) pc = OK x)
    /\ (forall r, In r (df_rows df) -> exists v, sindex (snd r) pc = OK v)
    /\ sorted (unique vs) = OK (legend_labels_of fig).
Proof.
  intros Hm H Hpc Hs He.
  destruct (call_keeps_other_columns _ _ _ _ _ _ _ pc H Hs He) as [Hdty Hrows].
  apply create_gantt_chart_parts in H.
  destruct H as (tc & sc & ec & d & phases & plotted & _ & _ & _ & Hdt
                 & Hperm & _ & Hph & _ & _ & _ & _ & _ & Hlg).
  pose proof (detect_columns_in _ _ _ _ Hm Hpc) as Hin.
  apply sindex_in in Hin. destruct Hin as [dt Hdtpc].
  apply sindex_some in Hdtpc.
  assert (Hpres : present_col (caller_df w') (sget "phase" m) = Some pc).
  { rewrite Hpc. unfold present_col, Dict.mem. rewrite Hdty, Hdtpc.
    destruct (String.eqb_spec pc "") as [E|_]; [|reflexivity].
    exfalso. exact (mapped_column_nonempty _ _ _ _ Hm Hpc E). }
  rewrite Hpres in Hlg.
  unfold phases_of in Hph.
  rewrite (present_col_dtypes _ _ _ Hdt), Hpres in Hph.
  destruct Hph as (s & Hs' & Hsorted).
  assert (Hsame : forall x,
            (exists r, In r (df_rows d) /\ sindex (snd r) pc = OK x)
            <-> exists r, In r (df_rows df) /\ sindex (snd r) pc = OK x).
  { intros x. split.
    - intros (r & Hr & Hx). apply (Permutation_in _ Hperm) in Hr.
      destruct (Forall2_in_r _ _ _ _ Hrows Hr) as (r0 & Hr0 & E).
      exists r0. split; [exact Hr0|]. unfold sindex in *. now rewrite <- E.
    - intros (r0 & Hr0 & Hx).
      destruct (Forall2_in_l _ _ _ _ Hrows Hr0) as (r & Hr & E).
      exists r. split.
      + exact (Permutation_in _ (Permutation_sym Hperm) Hr).
      + unfold sindex in *. now rewrite E. }
  exists (s_values s). split; [|split].
  - intros x. rewrite (df_getitem_in _ _ _ x Hs'). apply Hsame.
  - intros r0 Hr0.
    destruct (Forall2_in_l _ _ _ _ Hrows Hr0) as (r & Hr & E).
    apply (Permutation_in _ (Permutation_sym Hperm)) in Hr.
    destruct (Forall2_in_l _ _ _ _ (df_getitem_rows _ _ _ Hs') Hr)
      as (v & _ & Hv).
    exists v. unfold sindex in *. now rewrite <- E.
  - unfold legend_labels_of. rewrite Hlg. exact Hsorted.
Qed.

Variable datetime_tolist : Z -> cell.

Lemma tolist_plain (dt : dtype) (vs : list cell) :
  dt <> datetime64 -> tolist datetime_tolist (mkSeries dt vs) = vs.
Proof. unfold tolist. destruct dt; simpl; congruence. Qed.

(** What [extract_phases_from_file] returns: nothing, or the sorted
    distinct cells of the phase column that the resolver found. *)
Lemma extract_phases_cases (df : DataFrame) :
  (forall pc, sget "phase" (resolved df) = Some pc ->
              sget pc (df_dtypes df) <> Some datetime64) ->
  extract_phases_from_file datetime_tolist df = []
  \/ exists pc s,
       detect_columns df = OK (resolved df)
       /\ sget "phase" (resolved df) = Some pc
       /\ df_getitem df pc = OK s
       /\ sorted (unique (s_values s))
          = OK (extract_phases_from_file datetime_tolist df).
Proof.
  intros Hplain. unfold extract_phases_from_file, extract_phases.
  destruct (detect_columns df) as [m|e] eqn:Em; [|now left].
  pose proof (detect_columns_resolved _ _ Em) as ->. simpl rbind.
  destruct (smem "phase" (resolved df)); [|now left].
  destruct (sindex (resolved df) "phase") as [pc|e] eqn:Epc; [|now left].
  apply sindex_some in Epc. simpl rbind.
  destruct (smem pc (df_dtypes df)); [|now left].
  destruct (df_getitem df pc) as [s|e] eqn:Es; [|now left].
  simpl rbind.
  rewrite tolist_plain
    by (intros E; apply (Hplain pc Epc);
        rewrite (df_getitem_dtype _ _ _ Es); now rewrite E).
  destruct (sorted (unique (s_values s))) as [l|e] eqn:El; [|now left].
  right. now exists pc, s.
Qed.

(** X13.  The phases that [extract_phases_from_file] returns for a table
    whose phase column is not [datetime64] are in strictly ascending
    order, each once; every one of them is a cell of the phase column
    that the resolver found; and if the list is not empty, the resolver
    has found all mandatory roles and the list holds every cell of the
    phase column. *)
Theorem extracted_phases_are_the_phase_cells (df : DataFrame) :
  (forall pc, sget "phase" (resolved df) = Some pc ->
              sget pc (df_dtypes df) <> Some datetime64) ->
  StronglySorted cell_before (extract_phases_from_file datetime_tolist df)
  /\ NoDup (extract_phases_from_file datetime_tolist df)
  /\ (forall phase,
        In phase (extract_phases_from_file datetime_tolist df) ->
        exists pc r,
          sget "phase" (resolved df) = Some pc
          /\ In r (df_rows df) /\ sindex (snd r) pc = OK phase)
  /\ (extract_phases_from_file datetime_tolist df <> [] ->
      (exists m, detect_columns df = OK m)
      /\ forall pc r phase,
           sget "phase" (resolved df) = Some pc ->
           In r (df_rows df) -> sindex (snd r) pc = OK phase ->
           In phase (extract_phases_from_file datetime_tolist df)).
Proof.
  intros Hplain.
  destruct (extract_phases_cases df Hplain)
    as [->|(pc & s & Em & Epc & Es & El)].
  { split; [constructor|]. split; [constructor|].
    split; [intros ? []|]. intros H. congruence. }
  remember (extract_phases_from_file datetime_tolist df) as l eqn:E.
  clear E.
  pose proof (sorted_perm _ _ El) as Hperm.
  assert (Hin : forall phase,
            In phase l
            <-> exists r, In r (df_rows df) /\ sindex (snd r) pc = OK phase).
  { intros phase. transitivity (In phase (unique (s_values s))).
    - split; apply Permutation_in; [exact Hperm|now symmetry].
    - rewrite unique_in. exact (df_getitem_in _ _ _ phase Es). }
  split; [exact (sorted_strongly _ _ (unique_nodup _) El)|].
  split; [exact (Permutation_NoDup (Permutation_sym Hperm) (unique_nodup _))|].
  split.
  - intros phase Hp. apply Hin in Hp. destruct Hp as (r & Hr & Hp).
    now exists pc, r.
  - intros _. split; [now exists (resolved df)|].
    intros pc' r phase E' Hr Hp.
    assert (pc' = pc) by congruence. subst pc'.
    apply Hin. now exists r.
Qed.

(** X14.  The phases that [extract_phases_from_file] returns for a table
    are the labels of the legend of the chart that [create_gantt_from_file]
    draws for it, and none if the chart has no legend, provided the phase
    column is a column of its own that holds no dates. *)
Theorem offered_phases_are_legend_labels
    (custom_colors : option (sdict string)) (bg grid : string)
    (df : DataFrame) (w' : World) (fig : Figure) :
  call (create_gantt_from_file custom_colors bg grid) df = (w', OK fig) ->
  plain_phase_column df ->
  extract_phases_from_file datetime_tolist df = legend_labels_of fig.
Proof.
  unfold call, create_gantt_from_file, bind, get_df, lift. simpl.
  destruct (detect_columns df) as [m|e] eqn:Em; [|discriminate].
  intros H Hplain.
  pose proof (detect_columns_resolved _ _ Em) as Hres.
  unfold extract_phases_from_file, extract_phases. rewrite Em. simpl rbind.
  unfold Dict.mem at 1. unfold sindex at 1.
  destruct (sget "phase" m) as [pc|] eqn:Epc.
  - simpl rbind.
    destruct (Hplain pc) as (Hs & He & Hdt); [now rewrite <- Hres|].
    rewrite <- Hres in Hs, He.
    destruct (chart_phases _ _ _ _ _ _ _ _ Em H Epc Hs He)
      as (vs & Hvs & Hcells & Hsorted).
    pose proof (detect_columns_in _ _ _ _ Em Epc) as Hin.
    apply sindex_in in Hin. destruct Hin as [dt Hdtpc].
    apply sindex_some in Hdtpc.
    unfold Dict.mem. rewrite Hdtpc.
    destruct (df_getitem_exists _ _ _ Hdtpc Hcells) as [vs0 Hvs0].
    rewrite Hvs0. simpl rbind.
    rewrite tolist_plain by congruence.
    rewrite (sorted_unique_agree vs vs0 (legend_labels_of fig));
      [reflexivity| |exact Hsorted].
    intros x. rewrite Hvs. symmetry.
    exact (df_getitem_in _ _ _ x Hvs0).
  - simpl. apply create_gantt_chart_parts in H.
    destruct H as (tc & sc & ec & d & phases & plotted & _ & _ & _ & _
                   & _ & _ & _ & _ & _ & _ & _ & _ & Hlg).
    rewrite Epc in Hlg. simpl in Hlg.
    unfold legend_labels_of. now rewrite Hlg.
Qed.

(** X15.  When two cells of the phase column cannot be compared, a text
    and a number say, [extract_phases_from_file] returns no phase at all
    and [create_gantt_from_file] returns no figure. *)
Theorem incomparable_phases_offer_and_draw_nothing
    (custom_colors : option (sdict string)) (bg grid : string)
    (df : DataFrame) (pc : string) (r1 r2 : Z * Row) (p1 p2 : cell) :
  plain_phase_column df ->
  sget "phase" (resolved df) = Some pc ->
  In r1 (df_rows df) -> In r2 (df_rows df) ->
  sindex (snd r1) pc = OK p1 -> sindex (snd r2) pc = OK p2 ->
  ~ comparable p1 p2 ->
  extract_phases_from_file datetime_tolist df = []
  /\ forall w' fig,
       call (create_gantt_from_file custom_colors bg grid) df
       <> (w', OK fig).
Proof.
  intros Hplain Epc Hr1 Hr2 Hp1 Hp2 Hnc.
  destruct (Hplain pc Epc) as (Hs & He & Hdt). split.
  - destruct (extract_phases_cases df) as [E|(pc' & s & _ & Epc' & Es & El)];
      [intros pc0 H0; now destruct (Hplain pc0 H0) as (_ & _ & ?)|exact E|].
    assert (pc' = pc) by congruence. subst pc'.
    exfalso. apply Hnc.
    apply (sorted_ok_comparable _ _ El); apply (proj2 (unique_in _ _));
      apply (df_getitem_in _ _ _ _ Es); eauto.
  - intros w' fig.
    unfold call, create_gantt_from_file, bind, get_df, lift. simpl.
    destruct (detect_columns df) as [m|e] eqn:Em; [|discriminate].
    pose proof (detect_columns_resolved _ _ Em) as Hres. intros H.
    rewrite <- Hres in Epc, Hs, He.
    destruct (chart_phases _ _ _ _ _ _ _ _ Em H Epc Hs He)
      as (vs & Hvs & _ & Hsorted).
    apply Hnc.
    apply (sorted_ok_comparable _ _ Hsorted); apply (proj2 (unique_in _ _));
      apply Hvs; eauto.
Qed.

End Phases.

(** ** Concrete runs of the pipeline *)

Lemma plan_plain : plain_phase_column plan_df.
Proof.
  intros pc H. vm_compute in H. inversion H; subst pc.
  repeat split; discriminate.
Qed.

Lemma mixed_plan_plain : plain_phase_column mixed_plan_df.
Proof.
  intros pc H. vm_compute in H. inversion H; subst pc.
  repeat split; discriminate.
Qed.

Lemma extracted_phases_are_the_phase_cells_witness :
  (forall pc, sget "phase" (resolved plan_df) = Some pc ->
              sget pc (df_dtypes plan_df) <> Some datetime64)
  /\ extract_phases_from_file CTs plan_df = [CStr "Check"; CStr "Make"]
  /\ StronglySorted cell_before (extract_phases_from_file CTs plan_df)
  /\ NoDup (extract_phases_from_file CTs plan_df).
Proof.
  assert (H : forall pc, sget "phase" (resolved plan_df) = Some pc ->
                         sget pc (df_dtypes plan_df) <> Some datetime64)
    by (intros pc Hpc; now destruct (plan_plain pc Hpc) as (_ & _ & ?)).
  split; [exact H|]. split; [vm_compute; reflexivity|].
  destruct (extracted_phases_are_the_phase_cells CTs plan_df H)
    as (Hs & Hnd & _).
  split; [exact Hs|exact Hnd].
Defined.

Lemma offered_phases_are_legend_labels_witness :
  plain_phase_column plan_df
  /\ call (create_gantt_from_file (pandas := pandas_stable) None
             default_background default_grid) plan_df
     = (mkWorld plan_df 1, OK (returned plan_chart))
  /\ legend_labels_of (returned plan_chart) = [CStr "Check"; CStr "Make"]
  /\ extract_phases_from_file CTs plan_df
     = legend_labels_of (returned plan_chart).
Proof.
  assert (H : call (create_gantt_from_file (pandas := pandas_stable) None
                      default_background default_grid) plan_df
              = (mkWorld plan_df 1, OK (returned plan_chart)))
    by (vm_compute; reflexivity).
  split; [exact plan_plain|]. split; [exact H|].
  split; [vm_compute; reflexivity|].
  exact (offered_phases_are_legend_labels (pandas := pandas_stable) CTs
           None default_background default_grid plan_df _ _ H plan_plain).
Defined.

Lemma incomparable_phases_offer_and_draw_nothing_witness :
  plain_phase_column mixed_plan_df
  /\ ~ comparable (CStr "Make") (CInt 2)
  /\ snd (call (create_gantt_from_file (pandas := pandas_stable) None
                  default_background default_grid) mixed_plan_df)
     = Raise sort_error
  /\ extract_phases_from_file CTs mixed_plan_df = []
  /\ forall w' fig,
       call (create_gantt_from_file (pandas := pandas_stable) None
               default_background default_grid) mixed_plan_df
       <> (w', OK fig).
Proof.
  assert (Hnc : ~ comparable (CStr "Make") (CInt 2))
    by (intros [lt H]; discriminate).
  split; [exact mixed_plan_plain|]. split; [exact Hnc|].
  split; [vm_compute; reflexivity|].
  exact (incomparable_phases_offer_and_draw_nothing (pandas := pandas_stable)
           CTs None default_background default_grid mixed_plan_df "Phase"
           (plan_row 0 "Build" "Make" 4 (midnight 2025 3 1)
              (midnight 2025 3 29))
           (1, [("Task", CStr "Test"); ("Phase", CInt 2); ("Weeks", CInt 1);
                ("Start", CTs (midnight 2025 3 29));
                ("End", CTs (midnight 2025 4 5))])
           (CStr "Make") (CInt 2)
           mixed_plan_plain eq_refl (or_introl eq_refl)
           (or_intror (or_introl eq_refl)) eq_refl eq_refl Hnc).
Defined.

(** ** Custom colours *)

Section Custom.
Context {pandas : PandasLib}.

(** X17.  With a non-empty dictionary of custom colours, every bar of a
    task whose phase is a text that has a custom colour is drawn in that
    colour, and the legend shows that colour for the phase; the rows are
    those of the table along the indexer of the start column, and each
    bar begins at the start of its row. *)
Theorem custom_colour_is_drawn (columns : sdict string)
    (custom : sdict string) (bg grid : string)
    (df : DataFrame) (w' : World) (fig : Figure) (pc : string) :
  call (create_gantt_chart columns (Some custom) bg grid) df = (w', OK fig) ->
  custom <> [] ->
  present_col (caller_df w') (sget "phase" columns) = Some pc ->
  exists start_col keys rows lg,
    sindex columns "start_date" = OK start_col
    /\ column_stamps (caller_df w') start_col = OK keys
    /\ rows = take (argsort keys) (df_rows (caller_df w'))
    /\ Permutation rows (df_rows (caller_df w'))
    /\ Forall2 (fun r b =>
                  stamp_at start_col r (bar_left b)
                  /\ forall phase c,
                       sindex (snd r) pc = OK (CStr phase) ->
                       sget phase custom = Some c ->
                       bar_color b = ColorName c)
         rows (ax_bars (fig_axes fig))
    /\ ax_legend (fig_axes fig) = Some lg
    /\ forall i phase c,
         nth_error (legend_labels lg) i = Some (CStr phase) ->
         sget phase custom = Some c ->
         nth_error (legend_handles lg) i = Some (ColorName c).
Proof.
  intros H Hne Hpc.
  destruct (create_gantt_chart_phase_bars _ _ _ _ _ _ _ _ H Hpc)
    as (sc & ks & rows & phases & Hs & Hks & Hrows & Hperm & _ & Hnd
        & _ & Hin & Hlg & Hbars).
  assert (Hcol : forall i phase c,
            sget phase custom = Some c ->
            phase_color (Some custom) i (CStr phase) = ColorName c).
  { intros i phase c Hc. unfold phase_color.
    destruct custom as [|kv custom']; [congruence|].
    unfold custom_get. now rewrite Hc. }
  exists sc, ks, rows,
    (mkLegend (handles_for (Some custom) phases) phases bg grid).
  split; [exact Hs|]. split; [exact Hks|]. split; [exact Hrows|].
  split; [exact Hperm|]. split; [|split; [exact Hlg|]].
  - eapply Forall2_impl; [|exact Hbars].
    intros r b _ (Hst & phase' & i & Hp & _ & _ & Hc).
    split; [exact Hst|]. intros phase c Hphase Hcustom.
    assert (E : OK phase' = OK (CStr phase))
      by (transitivity (sindex (snd r) pc); [symmetry; exact Hp|exact Hphase]).
    inversion E; subst phase'. rewrite Hc. now apply Hcol.
  - simpl. intros i phase c Hi Hc.
    rewrite (handles_for_nth _ _ _ _ Hi). f_equal. now apply Hcol.
Qed.

End Custom.

Lemma custom_colour_is_drawn_witness :
  phase_chart alpha_only phases_df
  = (mkWorld phases_df 1, OK (returned (phase_chart alpha_only phases_df)))
  /\ map (fun r : Z * Row => sindex (snd r) "Phase")
       (take (argsort (PandasLib := pandas_stable)
                [midnight 2025 3 1; midnight 2025 2 1])
          (df_rows phases_df))
     = [OK (CStr "Alpha"); OK (CStr "Build")]
  /\ map bar_color
       (ax_bars (fig_axes (returned (phase_chart alpha_only phases_df))))
     = [ColorName "#ff0000"; ColorRGB 217 95 2]
  /\ exists keys rows lg,
       column_stamps phases_df "Start" = OK keys
       /\ rows = take (argsort (PandasLib := pandas_stable) keys)
                   (df_rows phases_df)
       /\ ax_legend (fig_axes (returned (phase_chart alpha_only phases_df)))
          = Some lg.
Proof.
  assert (H : phase_chart alpha_only phases_df
              = (mkWorld phases_df 1,
                 OK (returned (phase_chart alpha_only phases_df))))
    by (vm_compute; reflexivity).
  split; [exact H|]. split; [vm_compute; reflexivity|].
  split; [vm_compute; reflexivity|].
  destruct (custom_colour_is_drawn (pandas := pandas_stable)
              phase_mapping [("Alpha", "#ff0000"); ("Gamma", "#000000")]
              default_background default_grid phases_df _ _ "Phase" H
              ltac:(discriminate) eq_refl)
    as (sc & keys & rows & lg & Hs & Hks & Hrows & _ & _ & Hlg & _).
  assert (E : sc = "Start") by (vm_compute in Hs; congruence). subst sc.
  exists keys, rows, lg.
  split; [exact Hks|]. split; [exact Hrows|exact Hlg].
Defined.
